(** * Nifty levels generator: the aggregation engine of [generate_excel.py]

    A shallow embedding of [get_day_sheets], [process_sheet_data] and
    [process_excel_file] (with its local helpers [get_ref_price] and
    [get_top5_df]), followed by the properties of the specification that
    were checked against them.

    Conventions of the embedding.
    - A numeric cell (a float64 of pandas) is a rational [Q]; [NaN] is the
      [None] of an [option Q].  Equality of numbers is [Qeq] ([==]).
    - A pandas [Series] over [base_df.index] is held row-wise: the row of a
      strike carries the value each Series has at that strike, and an
      element-wise Series operation is a [map] over the rows.
    - [try: ... except Exception: return None] is the [option] monad.
    - What pandas and openpyxl do inside (reading a workbook, naming the
      columns of a header row, parsing a numeric string, writing the
      workbook) is a [Variable] of the section.  So is [sort_values] on
      the money, with what the call guarantees as [Hypothesis]: the code
      names no sort kind, and the order of rows of equal money is not
      fixed by it. *)

From Stdlib Require Import QArith List String Ascii Bool Arith Lia.
From Stdlib Require Import Permutation Sorted SetoidList.
Import ListNotations.

Open Scope string_scope.
Open Scope list_scope.
Open Scope Q_scope.

Declare Scope exn_scope.
Delimit Scope exn_scope with exn.

(** ** The exception monad of a [try] block *)

Definition bind {A B : Type} (x : option A) (k : A -> option B) : option B :=
  match x with
  | Some a => k a
  | None => None
  end.

Notation "x <- e ;; k" := (bind e (fun x => k))
  (at level 61, e at next level, right associativity) : exn_scope.

(** ** Strings *)

(** [str.lower()] on the ASCII range. *)
Definition lower_ascii (c : ascii) : ascii :=
  let n := nat_of_ascii c in
  if ((65 <=? n) && (n <=? 90))%nat then ascii_of_nat (n + 32) else c.

Fixpoint lower (s : string) : string :=
  match s with
  | EmptyString => EmptyString
  | String c s' => String (lower_ascii c) (lower s')
  end.

(** Python's [str.strip()] removes these from both ends. *)
Definition is_space (c : ascii) : bool :=
  let n := nat_of_ascii c in
  ((n =? 32) || ((9 <=? n) && (n <=? 13)) || ((28 <=? n) && (n <=? 31)))%nat.

Fixpoint lstrip (s : string) : string :=
  match s with
  | EmptyString => EmptyString
  | String c s' => if is_space c then lstrip s' else s
  end.

Fixpoint rev_string (s : string) (acc : string) : string :=
  match s with
  | EmptyString => acc
  | String c s' => rev_string s' (String c acc)
  end.

Definition rstrip (s : string) : string :=
  rev_string (lstrip (rev_string s "")) "".

Definition strip (s : string) : string := rstrip (lstrip s).

(** [x in l] for a list of strings. *)
Definition str_in (x : string) (l : list string) : bool :=
  existsb (String.eqb x) l.

(** ** [get_day_sheets] *)

(** The alternatives of [r'^(tue|wed|thu|fri|mon|sun|sat)']. *)
Definition day_pattern : list string :=
  ["tue"; "wed"; "thu"; "fri"; "mon"; "sun"; "sat"].

(** A literal of the pattern matched at the start of [s] under
    [re.IGNORECASE]: character by character, letter case ignored. *)
Fixpoint match_literal (pat s : string) : bool :=
  match pat, s with
  | EmptyString, _ => true
  | String _ _, EmptyString => false
  | String p pat', String c s' =>
      Ascii.eqb (lower_ascii p) (lower_ascii c) && match_literal pat' s'
  end.

(** [day_pattern.match(sheet)]: anchored at the start, any alternative. *)
Definition day_pattern_match (sheet : string) : bool :=
  existsb (fun alt => match_literal alt sheet) day_pattern.

(** The loop of [get_day_sheets]: [day_sheets.append(sheet)] when the name
    matches and its lower-cased form is not in [['total', 'max']]. *)
Definition get_day_sheets (sheet_names : list string) : list string :=
  fold_left
    (fun day_sheets sheet =>
       if day_pattern_match sheet && negb (str_in (lower sheet) ["total"; "max"])
       then day_sheets ++ [sheet]
       else day_sheets)
    sheet_names [].

(** The selection rule in the words of the specification: the name begins
    with a day-of-week token, case ignored, and is not "total" or "max",
    case ignored. *)
Definition begins_with_day_token (name : string) : Prop :=
  exists tok rest, In tok day_pattern /\ lower name = (tok ++ rest)%string.

Definition spec_day_sheet (name : string) : bool :=
  existsb (fun tok => prefix tok (lower name)) day_pattern
  && negb (String.eqb (lower name) "total")
  && negb (String.eqb (lower name) "max").

(** ** Workbooks as pandas reads them *)

(** A cell of a sheet read with [header=None]: empty (NaN), a number, or a
    text. *)
Inductive Cell : Type :=
  | Blank
  | Num (q : Q)
  | Text (s : string).

Definition Sheet : Type := list (list Cell).

(** [xl]: the sheets of the workbook in the order they are stored. *)
Definition ExcelFile : Type := list (string * Sheet).

Definition sheet_names (xl : ExcelFile) : list string := map fst xl.

(** [pd.read_excel(xl, sheet_name=...)]; an unknown name raises. *)
Definition read_excel (xl : ExcelFile) (sheet_name : string) : option Sheet :=
  option_map snd (find (fun p => String.eqb (fst p) sheet_name) xl).

(** The seven columns [process_sheet_data] returns, one record per row. *)
Record SheetRow : Type := {
  Strike : Q;
  Call_Chg_OI_Val : Q;
  Call_VWAP : Q;
  Call_LTP : Q;
  Put_Chg_OI_Val : Q;
  Put_VWAP : Q;
  Put_LTP : Q
}.

(** Where the values of a derived column come from. *)
Inductive Source : Type :=
  | FromColumn (i : nat)   (* [pd.to_numeric(df[label], errors='coerce')] *)
  | Scalar (q : Q)         (* [pd.to_numeric(0)], broadcast to every row *)
  | NotCreated.            (* the [if label in cols] guard was false *)

(** How often a label occurs among the columns. *)
Inductive Lookup : Type :=
  | Absent
  | Column (i : nat)
  | Repeated.

Fixpoint positions (label : string) (columns : list string) (i : nat) : list nat :=
  match columns with
  | [] => []
  | c :: rest =>
      if String.eqb c label then i :: positions label rest (S i)
      else positions label rest (S i)
  end.

Definition locate (columns : list string) (label : string) : Lookup :=
  match positions label columns 0 with
  | [] => Absent
  | [i] => Column i
  | _ => Repeated
  end.

(** [pd.to_numeric(df[label], ...)]: [KeyError] when the label is absent;
    when it is repeated [df[label]] is a DataFrame, which [to_numeric]
    rejects with [TypeError]. *)
Definition getitem (columns : list string) (label : string) : option nat :=
  match locate columns label with
  | Column i => Some i
  | _ => None
  end.

(** [pd.to_numeric(df.get(label, 0), ...)]. *)
Definition get_or_zero (columns : list string) (label : string) : option Source :=
  match locate columns label with
  | Absent => Some (Scalar 0)
  | Column i => Some (FromColumn i)
  | Repeated => None
  end.

(** [if label in cols: df[derived] = pd.to_numeric(df[label], ...)]. *)
Definition if_in_cols (columns : list string) (label : string) : option Source :=
  match locate columns label with
  | Absent => Some NotCreated
  | Column i => Some (FromColumn i)
  | Repeated => None
  end.

Record Sources : Type := {
  src_Strike : nat;
  src_Call_Chg_OI_Val : Source;
  src_Call_VWAP : Source;
  src_Call_LTP : Source;
  src_Put_Chg_OI_Val : Source;
  src_Put_VWAP : Source;
  src_Put_LTP : Source
}.

(** [row.astype(str).str.lower()] equals one of the two marker words only
    for a text cell: a number prints as digits and an empty cell as 'nan'. *)
Definition is_marker (c : Cell) : bool :=
  match c with
  | Text s => String.eqb (lower s) "strike" || String.eqb (lower s) "chg in oi value"
  | _ => false
  end.

(** The scan [for i, row in df_preview.iterrows(): ... break]; [None] is
    [header_row == -1]. *)
Fixpoint find_header (i : nat) (df_preview : Sheet) : option nat :=
  match df_preview with
  | [] => None
  | row :: rest => if existsb is_marker row then Some i else find_header (S i) rest
  end.

(** [df.drop_duplicates(subset=['Strike'])]: the first row of each strike. *)
Fixpoint drop_duplicates {A : Type} (seen : list Q) (rows : list (Q * A)) : list (Q * A) :=
  match rows with
  | [] => []
  | (k, a) :: rest =>
      if existsb (Qeq_bool k) seen then drop_duplicates seen rest
      else (k, a) :: drop_duplicates (k :: seen) rest
  end.

(** Case analysis on the rows of a frame given in full. *)
Ltac sample_rows H :=
  repeat (destruct H as [<-|H]; [|]); [..|destruct H].

Section Engine.

(** The number [pd.to_numeric] reads in a text cell, if any. *)
Variable to_float : string -> option Q.

(** The column labels [pd.read_excel(..., header=i)] makes of row [i]
    (texts as they are, repeats renamed with [.1], [.2], ...). *)
Variable header_labels : list Cell -> list string.

(** [pd.to_numeric(..., errors='coerce')] on one cell; [None] is NaN. *)
Definition to_numeric (c : Cell) : option Q :=
  match c with
  | Blank => None
  | Num q => Some q
  | Text s => to_float s
  end.

Definition source_value (src : Source) (row : list Cell) : option Q :=
  match src with
  | FromColumn i => to_numeric (nth i row Blank)
  | Scalar q => Some q
  | NotCreated => None
  end.

(** The loop over [cols_to_fill]: [df[c].fillna(0)] when the column
    exists, [df[c] = 0] otherwise. *)
Definition fill (src : Source) (row : list Cell) : Q :=
  match src with
  | NotCreated => 0
  | _ => match source_value src row with
         | Some q => q
         | None => 0
         end
  end.

(** [df.dropna(subset=['Strike'])]: rows with a numeric strike, paired
    with it. *)
Fixpoint dropna (strike : nat) (body : Sheet) : list (Q * list Cell) :=
  match body with
  | [] => []
  | row :: rest =>
      match to_numeric (nth strike row Blank) with
      | Some k => (k, row) :: dropna strike rest
      | None => dropna strike rest
      end
  end.

Definition to_record (src : Sources) (kr : Q * list Cell) : SheetRow :=
  let row := snd kr in
  {| Strike := fst kr;
     Call_Chg_OI_Val := fill (src_Call_Chg_OI_Val src) row;
     Call_VWAP := fill (src_Call_VWAP src) row;
     Call_LTP := fill (src_Call_LTP src) row;
     Put_Chg_OI_Val := fill (src_Put_Chg_OI_Val src) row;
     Put_VWAP := fill (src_Put_VWAP src) row;
     Put_LTP := fill (src_Put_LTP src) row |}.

(** The column look-ups of [process_sheet_data], in its order.  The labels
    of a sheet are taken to differ from the six derived labels
    [Call_...] and [Put_...]. *)
Definition resolve_columns (columns : list string) : option Sources :=
  (strike <- getitem columns "Strike" ;;
   call_chg <- (if str_in "Chg in OI Value" columns
                then option_map FromColumn (getitem columns "Chg in OI Value")
                else None) ;;
   call_vwap <- get_or_zero columns "VWAP" ;;
   call_ltp <- get_or_zero columns "LTP (Chg %)" ;;
   put_chg <- if_in_cols columns "Chg in OI Value.1" ;;
   put_vwap <- if_in_cols columns "VWAP.1" ;;
   put_ltp <- if_in_cols columns "LTP (Chg %).1" ;;
   Some {| src_Strike := strike;
           src_Call_Chg_OI_Val := call_chg;
           src_Call_VWAP := call_vwap;
           src_Call_LTP := call_ltp;
           src_Put_Chg_OI_Val := put_chg;
           src_Put_VWAP := put_vwap;
           src_Put_LTP := put_ltp |})%exn.

(** [process_sheet_data]; [None] is its [return None], reached directly or
    through [except Exception]. *)
Definition process_sheet_data (xl : ExcelFile) (sheet_name : string)
  : option (list SheetRow) :=
  (rows <- read_excel xl sheet_name ;;
   header_row <- find_header 0 (firstn 10 rows) ;;
   let columns := map strip (header_labels (nth header_row rows [])) in
   let body := skipn (S header_row) rows in
   src <- resolve_columns columns ;;
   Some (map (to_record src) (drop_duplicates [] (dropna (src_Strike src) body))))%exn.

(** ** Sorting lists whose keys are distinct *)

(** [insert_by] and [sort_by]: insertion sort, which keeps rows of equal
    key in their input order; [le a b] says that [a] may stand before [b].
    It models [sorted] on the distinct strikes, [group.sort_values
    ('Sheet_Index')] on the rows of one strike (one per sheet) and
    [sort_index] on the selected strikes: on keys that are pairwise
    different every sort gives the same list.  The sort by money, whose
    keys may be equal, is [sort_values] below. *)
Fixpoint insert_by {A : Type} (le : A -> A -> bool) (x : A) (l : list A) : list A :=
  match l with
  | [] => [x]
  | y :: l' => if le x y then x :: y :: l' else y :: insert_by le x l'
  end.

Fixpoint sort_by {A : Type} (le : A -> A -> bool) (l : list A) : list A :=
  match l with
  | [] => []
  | x :: l' => insert_by le x (sort_by le l')
  end.

Definition ascending {A : Type} (key : A -> Q) (a b : A) : bool :=
  Qle_bool (key a) (key b).

Definition descending {A : Type} (key : A -> Q) (a b : A) : bool :=
  Qle_bool (key b) (key a).

(** [x > 0] on numbers. *)
Definition positive (x : Q) : bool := negb (Qle_bool x 0).

(** [Series.unique()]: first occurrences, in order. *)
Fixpoint unique (seen : list Q) (l : list Q) : list Q :=
  match l with
  | [] => []
  | k :: rest =>
      if existsb (Qeq_bool k) seen then unique seen rest
      else k :: unique (k :: seen) rest
  end.

(** ** The combined frame *)

(** A row of [combined]: the sheet's row with [Sheet_Name] and
    [Sheet_Index] added. *)
Record DailyRecord : Type := {
  sheet_row :> SheetRow;
  Sheet_Name : string;
  Sheet_Index : nat
}.

Definition tag (sheet : string) (idx : nat) (r : SheetRow) : DailyRecord :=
  {| sheet_row := r; Sheet_Name := sheet; Sheet_Index := idx |}.

(** The loop [for idx, sheet in enumerate(day_sheets)] that fills
    [all_data]; a sheet whose parse gave [None] adds nothing. *)
Fixpoint collect_all_data (xl : ExcelFile) (idx : nat) (day_sheets : list string)
  : list (list DailyRecord) :=
  match day_sheets with
  | [] => []
  | sheet :: rest =>
      match process_sheet_data xl sheet with
      | Some df => map (tag sheet idx) df :: collect_all_data xl (S idx) rest
      | None => collect_all_data xl (S idx) rest
      end
  end.

(** ** Pricing mode *)

Inductive PricingMode : Type := LTP | Standard.

Inductive Side : Type := Call | Put.

Definition VWAP_of (side : Side) (r : SheetRow) : Q :=
  match side with Call => Call_VWAP r | Put => Put_VWAP r end.

Definition LTP_of (side : Side) (r : SheetRow) : Q :=
  match side with Call => Call_LTP r | Put => Put_LTP r end.

Definition Chg_OI_Val_of (side : Side) (r : SheetRow) : Q :=
  match side with Call => Call_Chg_OI_Val r | Put => Put_Chg_OI_Val r end.

(** The rows of one strike, [combined.groupby('Strike')] giving one group
    per distinct strike, keys ascending. *)
Definition group_of (combined : list DailyRecord) (strike : Q) : list DailyRecord :=
  filter (fun r : DailyRecord => Qeq_bool (Strike r) strike) combined.

Definition base_index (combined : list DailyRecord) : list Q :=
  sort_by (ascending (fun k => k)) (unique [] (map (fun r : DailyRecord => Strike r) combined)).

Definition groupby_Strike (combined : list DailyRecord) : list (Q * list DailyRecord) :=
  map (fun strike => (strike, group_of combined strike)) (base_index combined).

(** The body of [for strike, group in grouped]: the group sorted by
    [Sheet_Index], its first row, the test [first_day['Call_VWAP'] <= 0]. *)
Definition mode_of_group (group : list DailyRecord) : PricingMode :=
  match sort_by (fun a b => Sheet_Index a <=? Sheet_Index b)%nat group with
  | first_day :: _ => if Qle_bool (Call_VWAP first_day) 0 then LTP else Standard
  | [] => Standard (* no group is empty *)
  end.

(** The dict [strike_pricing_mode]; the keys of [grouped] are distinct, so
    every assignment adds an entry. *)
Definition strike_pricing_mode (combined : list DailyRecord) : list (Q * PricingMode) :=
  map (fun g => (fst g, mode_of_group (snd g))) (groupby_Strike combined).

(** [d.get(strike, default)]. *)
Definition dict_get (d : list (Q * PricingMode)) (strike : Q) (default : PricingMode)
  : PricingMode :=
  match find (fun kv => Qeq_bool (fst kv) strike) d with
  | Some kv => snd kv
  | None => default
  end.

Definition get_ref_price (modes : list (Q * PricingMode)) (row : DailyRecord) (side : Side) : Q :=
  let strike := Strike row in
  let mode := dict_get modes strike Standard in
  let vwap := VWAP_of side row in
  let ltp := LTP_of side row in
  match mode with
  | LTP => ltp
  | Standard => if positive vwap then vwap else ltp
  end.

(** A row of [combined] once the four price columns are added. *)
Record PricedRecord : Type := {
  daily :> DailyRecord;
  Call_Ref_Price : Q;
  Put_Ref_Price : Q;
  Call_BEP : Q;
  Put_BEP : Q
}.

Definition Ref_Price_of (side : Side) (r : PricedRecord) : Q :=
  match side with Call => Call_Ref_Price r | Put => Put_Ref_Price r end.

Definition apply_pricing (combined : list DailyRecord) : list PricedRecord :=
  let modes := strike_pricing_mode combined in
  map (fun r : DailyRecord =>
         let call_ref := get_ref_price modes r Call in
         let put_ref := get_ref_price modes r Put in
         {| daily := r;
            Call_Ref_Price := call_ref;
            Put_Ref_Price := put_ref;
            Call_BEP := Strike r + call_ref;
            Put_BEP := Strike r - put_ref |})
      combined.

(** ** Cumulative aggregation *)

(** The running Series of the day loop at one strike of [base_df.index]. *)
Record Cumulative : Type := {
  index : Q;
  cum_ce_money : Q;
  cum_pe_money : Q;
  cum_ce_ref_sum : Q;
  cum_ce_ref_count : nat;
  cum_pe_ref_sum : Q;
  cum_pe_ref_count : nat
}.

Definition initial (strike : Q) : Cumulative :=
  {| index := strike;
     cum_ce_money := 0; cum_pe_money := 0;
     cum_ce_ref_sum := 0; cum_ce_ref_count := 0;
     cum_pe_ref_sum := 0; cum_pe_ref_count := 0 |}.

(** [combined[combined['Sheet_Name'] == sheet]]. *)
Definition day_data (combined : list PricedRecord) (sheet : string) : list PricedRecord :=
  filter (fun r : PricedRecord => String.eqb (Sheet_Name r) sheet) combined.

(** [day_data.reindex(base_df.index)] at one strike; [None] is the row of
    NaN of a strike the day does not have. *)
Definition reindex (day : list PricedRecord) (strike : Q) : option PricedRecord :=
  find (fun r : PricedRecord => Qeq_bool (Strike r) strike) day.

(** [Series.fillna(0)] at one row. *)
Definition fillna0 (v : option Q) : Q :=
  match v with
  | Some q => q
  | None => 0
  end.

(** [col.notna() & (col > 0)] at one row. *)
Definition valid_mask (v : option Q) : bool :=
  match v with
  | Some q => positive q
  | None => false
  end.

(** [mask.astype(int)]. *)
Definition astype_int (b : bool) : nat := if b then 1%nat else 0%nat.

(** Steps 1 and 2 of the day loop at one strike. *)
Definition accumulate (day : list PricedRecord) (c : Cumulative) : Cumulative :=
  let row := reindex day (index c) in
  let current_ce_money := fillna0 (option_map (fun r : PricedRecord => Call_Chg_OI_Val r) row) in
  let current_pe_money := fillna0 (option_map (fun r : PricedRecord => Put_Chg_OI_Val r) row) in
  let valid_ce_mask := valid_mask (option_map Call_Ref_Price row) in
  let valid_pe_mask := valid_mask (option_map Put_Ref_Price row) in
  {| index := index c;
     cum_ce_money := cum_ce_money c + current_ce_money;
     cum_pe_money := cum_pe_money c + current_pe_money;
     cum_ce_ref_sum := cum_ce_ref_sum c + fillna0 (option_map Call_Ref_Price row);
     cum_ce_ref_count := (cum_ce_ref_count c + astype_int valid_ce_mask)%nat;
     cum_pe_ref_sum := cum_pe_ref_sum c + fillna0 (option_map Put_Ref_Price row);
     cum_pe_ref_count := (cum_pe_ref_count c + astype_int valid_pe_mask)%nat |}.

(** [ref_sum.div(ref_count).replace([np.inf, -np.inf], 0).fillna(0)]: a
    division by a zero count gives an infinity or NaN, which becomes 0. *)
Definition running_average (ref_sum : Q) (ref_count : nat) : Q :=
  match ref_count with
  | O => 0
  | S _ => ref_sum / inject_Z (Z.of_nat ref_count)
  end.

(** A row of [subset], the frame stored in [daily_calculated_dfs]. *)
Record Snapshot : Type := {
  snap_Strike : Q;
  CE_BEP : Q;
  CE_Money : Q;
  PE_Money : Q;
  PE_BEP : Q;
  Avg_CE_Ref : Q;
  Avg_PE_Ref : Q
}.

(** Steps 3 and 4 of the day loop at one strike. *)
Definition snapshot (c : Cumulative) : Snapshot :=
  let avg_ce_ref := running_average (cum_ce_ref_sum c) (cum_ce_ref_count c) in
  let avg_pe_ref := running_average (cum_pe_ref_sum c) (cum_pe_ref_count c) in
  {| snap_Strike := index c;
     CE_BEP := index c + avg_ce_ref;
     CE_Money := cum_ce_money c;
     PE_Money := cum_pe_money c;
     PE_BEP := index c - avg_pe_ref;
     Avg_CE_Ref := avg_ce_ref;
     Avg_PE_Ref := avg_pe_ref |}.

(** The day loop: [daily_calculated_dfs], one entry per day sheet in
    order (sheet names of a workbook are distinct). *)
Fixpoint run_days (combined : list PricedRecord) (day_sheets : list string)
  (state : list Cumulative) : list (string * list Snapshot) :=
  match day_sheets with
  | [] => []
  | sheet :: rest =>
      let state' := map (accumulate (day_data combined sheet)) state in
      (sheet, map snapshot state') :: run_days combined rest state'
  end.

Definition daily_calculated_dfs (combined : list DailyRecord) (day_sheets : list string)
  : list (string * list Snapshot) :=
  run_days (apply_pricing combined) day_sheets (map initial (base_index combined)).

(** ** Top five *)

(** [Series.sum()]. *)
Definition sum (l : list Q) : Q := fold_left Qplus l 0.

Definition nan_row : list (option Q) := [None; None; None; None].

(** [while len(data) < 5: data.append([np.nan]*4)]. *)
Definition ensure_5_rows (data : list (list (option Q))) : list (list (option Q)) :=
  data ++ repeat nan_row (5 - List.length data)%nat.

Definition res_row (ce_metric : Snapshot -> Q) (r : Snapshot) : list (option Q) :=
  let strike := snap_Strike r in
  let val := ce_metric r in
  let ref := Avg_CE_Ref r in
  [Some strike; Some val; Some ref; Some (strike + ref)].

Definition sup_row (pe_metric : Snapshot -> Q) (r : Snapshot) : list (option Q) :=
  let strike := snap_Strike r in
  let val := pe_metric r in
  let ref := Avg_PE_Ref r in
  [Some strike; Some val; Some ref; Some (strike - ref)].

(** [df_source.sort_values(metric, ascending=False)].  The calls name no
    sort kind, so the rows go to numpy's default kind, which is not stable:
    the result holds the rows of the frame, largest metric first, and the
    order of rows of equal metric is whatever that kind leaves it. *)
Variable sort_values : (Snapshot -> Q) -> list Snapshot -> list Snapshot.

Hypothesis sort_values_rows :
  forall metric df_source, Permutation (sort_values metric df_source) df_source.

Hypothesis sort_values_descending :
  forall metric df_source,
    StronglySorted (fun a b => metric b <= metric a) (sort_values metric df_source).

(** [df_source.sort_values(metric, ascending=False).head(5)]. *)
Definition top5 (metric : Snapshot -> Q) (df_source : list Snapshot) : list Snapshot :=
  firstn 5 (sort_values metric df_source).

(** The block of one day in the Max sheet: [res_df] and [sup_df]. *)
Record MaxBlock : Type := {
  res_df : list (list (option Q));
  sup_df : list (list (option Q))
}.

Definition get_top5_df (df_source : list Snapshot) (ce_metric pe_metric : Snapshot -> Q)
  : MaxBlock :=
  let top_calls := top5 ce_metric df_source in
  let top_puts := top5 pe_metric df_source in
  let top_calls := sort_by (descending snap_Strike) top_calls in
  let top_puts := sort_by (descending snap_Strike) top_puts in
  let ce_money_sum := sum (map ce_metric top_calls) in
  let pe_money_sum := sum (map pe_metric top_puts) in
  let res_data := map (res_row ce_metric) top_calls in
  let sup_data := map (sup_row pe_metric) top_puts in
  let res_data := ensure_5_rows res_data in
  let sup_data := ensure_5_rows sup_data in
  let res_data := res_data ++ [[None; Some ce_money_sum; None; None]] in
  let sup_data := sup_data ++ [[None; Some pe_money_sum; None; None]] in
  {| res_df := res_data; sup_df := sup_data |}.

(** ** Report assembly and the entry operation *)

(** A labelled block of columns, or a blank spacer. *)
Inductive Piece (A : Type) : Type :=
  | Block (label : string) (content : A)
  | Gap.

Arguments Block {A} label content.
Arguments Gap {A}.

(** Blocks with a spacer after each, then [pop()] of the last spacer. *)
Definition with_gaps {A : Type} (blocks : list (string * A)) : list (Piece A) :=
  removelast (flat_map (fun b => [Block (fst b) (snd b); Gap]) blocks).

Definition display_subset (subset : list Snapshot) : list (list Q) :=
  map (fun s => [CE_BEP s; CE_Money s; PE_Money s; PE_BEP s]) subset.

Definition TotalTable : Type := list Q * list (Piece (list (list Q))).
Definition MaxTable : Type := list (Piece MaxBlock).

Definition final_total_df (combined : list DailyRecord) (day_sheets : list string)
  : TotalTable :=
  (base_index combined,
   with_gaps (map (fun d => (fst d, display_subset (snd d)))
                  (daily_calculated_dfs combined day_sheets))).

Definition final_max_df (combined : list DailyRecord) (day_sheets : list string)
  : MaxTable :=
  with_gaps (map (fun d => (fst d, get_top5_df (snd d) CE_Money PE_Money))
                 (daily_calculated_dfs combined day_sheets)).

(** [pd.ExcelFile(buffer)]; [None] when it raises. *)
Variable pd_ExcelFile : list Byte.byte -> option ExcelFile.

(** The [pd.ExcelWriter] block: the buffer with the sheets Total and Max
    written and styled. *)
Variable write_workbook : list Byte.byte -> TotalTable -> MaxTable -> list Byte.byte.

(** [process_excel_file] on the bytes of a workbook. *)
Definition process_excel_file (input_source : list Byte.byte) : option (list Byte.byte) :=
  let buffer := input_source in
  match pd_ExcelFile buffer with
  | None => None
  | Some xl =>
      let day_sheets := get_day_sheets (sheet_names xl) in
      let all_data := collect_all_data xl 0 day_sheets in
      match all_data with
      | [] => None
      | _ :: _ =>
          let combined := List.concat all_data in
          Some (write_workbook buffer
                  (final_total_df combined day_sheets)
                  (final_max_df combined day_sheets))
      end
  end.

(** ** The vocabulary of the specification *)

(** [r0] is the row of strike [s] on the first chronological day that has
    one: every other row of the strike comes from a later sheet. *)
Definition first_day_of (combined : list DailyRecord) (s : Q) (r0 : DailyRecord) : Prop :=
  In r0 combined /\ Strike r0 == s /\
  forall r : DailyRecord, In r combined -> Strike r == s ->
    r = r0 \/ (Sheet_Index r0 < Sheet_Index r)%nat.

(** The sum of a list of numbers. *)
Fixpoint total (l : list Q) : Q :=
  match l with
  | [] => 0
  | x :: l' => x + total l'
  end.

(** The raw open-interest-change money of strike [s] on the day of
    [sheet]; 0 when the strike has no record that day. *)
Definition day_money (combined : list PricedRecord) (side : Side) (s : Q) (sheet : string) : Q :=
  match reindex (day_data combined sheet) s with
  | Some r => Chg_OI_Val_of side r
  | None => 0
  end.

(** The reference price of strike [s] on the day of [sheet], if the strike
    has a record that day. *)
Definition day_ref (combined : list PricedRecord) (side : Side) (s : Q) (sheet : string)
  : option Q :=
  option_map (Ref_Price_of side) (reindex (day_data combined sheet) s).

(** The strictly positive reference prices among those of some days. *)
Fixpoint positive_refs (refs : list (option Q)) : list Q :=
  match refs with
  | [] => []
  | Some p :: rest => if positive p then p :: positive_refs rest else positive_refs rest
  | None :: rest => positive_refs rest
  end.

(** The running average in the words of the specification: the mean of
    the strictly positive reference prices, 0 when there is none. *)
Definition spec_running_average (refs : list (option Q)) : Q :=
  match positive_refs refs with
  | [] => 0
  | _ :: _ => total (positive_refs refs)
              / inject_Z (Z.of_nat (List.length (positive_refs refs)))
  end.

(** The Series of one side. *)
Definition cum_money (side : Side) (c : Cumulative) : Q :=
  match side with Call => cum_ce_money c | Put => cum_pe_money c end.

Definition cum_ref_sum (side : Side) (c : Cumulative) : Q :=
  match side with Call => cum_ce_ref_sum c | Put => cum_pe_ref_sum c end.

Definition cum_ref_count (side : Side) (c : Cumulative) : nat :=
  match side with Call => cum_ce_ref_count c | Put => cum_pe_ref_count c end.

Definition Money_of (side : Side) (row : Snapshot) : Q :=
  match side with Call => CE_Money row | Put => PE_Money row end.

Definition Avg_Ref_of (side : Side) (row : Snapshot) : Q :=
  match side with Call => Avg_CE_Ref row | Put => Avg_PE_Ref row end.

(** The day loop seen at one strike. *)
Definition after_days (combined : list PricedRecord) (days : list string) (c : Cumulative)
  : Cumulative :=
  fold_left (fun c sheet => accumulate (day_data combined sheet) c) days c.

(** The columns a sheet may lack without being skipped. *)
Definition optional_labels : list string :=
  ["VWAP"; "LTP (Chg %)"; "Chg in OI Value.1"; "VWAP.1"; "LTP (Chg %).1"].

(** The money, VWAP and LTP columns of a sheet and the field of the record
    each one feeds. *)
Definition cell_columns : list (string * (SheetRow -> Q)) :=
  [("Chg in OI Value", Call_Chg_OI_Val); ("VWAP", Call_VWAP); ("LTP (Chg %)", Call_LTP);
   ("Chg in OI Value.1", Put_Chg_OI_Val); ("VWAP.1", Put_VWAP);
   ("LTP (Chg %).1", Put_LTP)].

(** The first row of the body whose strike cell reads as the number [s]. *)
Definition first_row_of_strike (strike_col : nat) (body : Sheet) (s : Q)
  : option (list Cell) :=
  find (fun row => match to_numeric (nth strike_col row Blank) with
                   | Some k => Qeq_bool k s
                   | None => false
                   end) body.

(** Record [r] holds, for each money, VWAP and LTP column, the number read
    in the cell of [row], and 0 where the cell is empty, not a number, or
    the column is not there. *)
Definition normalized_from (columns : list string) (row : list Cell) (r : SheetRow) : Prop :=
  forall label field, In (label, field) cell_columns ->
    match locate columns label with
    | Column i => match to_numeric (nth i row Blank) with
                  | Some q => field r = q
                  | None => field r = 0
                  end
    | _ => field r = 0
    end.

(** ** Sample workbooks *)

(** A reader of unsigned decimal integers, standing for the numeric parse
    of texts in the samples. *)
Fixpoint decimal (s : string) (acc : Z) : option Z :=
  match s with
  | EmptyString => Some acc
  | String c s' =>
      let n := nat_of_ascii c in
      if ((48 <=? n) && (n <=? 57))%nat
      then decimal s' (10 * acc + Z.of_nat (n - 48))%Z
      else None
  end.

Definition sample_to_float (s : string) : option Q :=
  match s with
  | EmptyString => None
  | String _ _ => option_map inject_Z (decimal s 0)
  end.

(** Labels of a header row: the texts, a repeated text with [.1] added. *)
Fixpoint rename_repeats (seen labels : list string) : list string :=
  match labels with
  | [] => []
  | l :: rest =>
      (if str_in l seen then (l ++ ".1")%string else l) :: rename_repeats (l :: seen) rest
  end.

Definition sample_labels (header : list Cell) : list string :=
  rename_repeats []
    (map (fun c => match c with Text s => s | _ => "Unnamed" end) header).

Definition chain_header : list Cell :=
  [Text "Strike "; Text "Chg in OI Value"; Text "VWAP"; Text "LTP (Chg %)";
   Text "Chg in OI Value"; Text "VWAP"; Text "LTP (Chg %)"].

(** Two days of data, a day sheet without the column Strike, and the
    sheets Summary and Total.  Strike 100 follows the scenario of the
    specification; strike 200 appears on the second day only. *)
Definition week_xl : ExcelFile :=
  [("Summary", [[Text "Weekly notes"]]);
   ("tue6", [[Text "NIFTY option chain"];
             chain_header;
             [Num 100; Num 50; Num 0; Num 10; Num 8; Num 3; Num 4];
             [Num 300; Num 5; Num 2; Num 6; Num 1; Text "-"; Num 7]]);
   ("wed6", [chain_header;
             [Num 100; Num (-20); Num 12; Num 11; Num 2; Num 5; Num 6];
             [Num 200; Num 7; Text "-"; Num 9; Num 3; Num 0; Num 2];
             [Text "Total"; Num 1; Num 1; Num 1; Num 1; Num 1; Num 1];
             [Num 100; Num 99; Num 99; Num 99; Num 99; Num 99; Num 99]]);
   ("THU6", [[Text "Chg in OI Value"; Text "VWAP"]; [Num 1; Num 2]]);
   ("Total", [[Text "Strike"; Text "tue6"]; [Num 100; Num 110]])].

(** A sheet with the call-side money only. *)
Definition calls_only_xl : ExcelFile :=
  [("fri", [[Text "Strike"; Text "Chg in OI Value"]; [Num 100; Num 50]])].

(** Strike 100 with a negative last traded price on the first day. *)
Definition negative_ltp_xl : ExcelFile :=
  [("tue", [chain_header; [Num 100; Num 50; Num 0; Num (-5); Num 0; Num 0; Num 0]]);
   ("wed", [chain_header; [Num 100; Num 20; Num 0; Num 10; Num 0; Num 0; Num 0]])].

Definition sample_open (input : list Byte.byte) : option ExcelFile :=
  match input with
  | Byte.x01 :: _ => Some week_xl
  | Byte.x02 :: _ => Some calls_only_xl
  | Byte.x03 :: _ => Some [("Summary", [[Text "Weekly notes"]])]
  | Byte.x04 :: _ => Some [("mon", [[Text "holiday"]])]
  | _ => None
  end.

Definition sample_write (buffer : list Byte.byte)
  (total : list Q * list (Piece (list (list Q)))) (max : list (Piece MaxBlock))
  : list Byte.byte :=
  buffer ++ repeat Byte.x2a (List.length (snd total) + List.length max).

Definition sample_record (sheet : string) (idx : nat)
  (strike ce_money ce_vwap ce_ltp pe_money pe_vwap pe_ltp : Q) : DailyRecord :=
  tag sheet idx
      {| Strike := strike;
         Call_Chg_OI_Val := ce_money; Call_VWAP := ce_vwap; Call_LTP := ce_ltp;
         Put_Chg_OI_Val := pe_money; Put_VWAP := pe_vwap; Put_LTP := pe_ltp |}.

(** The rows [combined] holds for [week_xl]. *)
Definition week_combined : list DailyRecord :=
  [sample_record "tue6" 0 100 50 0 10 8 3 4;
   sample_record "tue6" 0 300 5 2 6 1 0 7;
   sample_record "wed6" 1 100 (-20) 12 11 2 5 6;
   sample_record "wed6" 1 200 7 0 9 3 0 2].

(** One day, seven strikes, with ties in the call money. *)
Definition ties_combined : list DailyRecord :=
  [sample_record "mon" 0 100 5 1 1 1 1 1;
   sample_record "mon" 0 200 9 1 1 2 1 1;
   sample_record "mon" 0 300 5 1 1 3 1 1;
   sample_record "mon" 0 400 1 1 1 4 1 1;
   sample_record "mon" 0 500 9 1 1 5 1 1;
   sample_record "mon" 0 600 7 1 1 6 1 1;
   sample_record "mon" 0 700 5 1 1 7 1 1].

Definition week_days : list string := ["tue6"; "wed6"; "THU6"].

(** The snapshot of [week_combined] as of its second day. *)
Definition week_wed6 : list Snapshot :=
  snd (nth 1 (daily_calculated_dfs week_combined week_days) ("", [])).

(** The snapshot of [ties_combined]. *)
Definition ties_snapshot : list Snapshot :=
  snd (nth 0 (daily_calculated_dfs ties_combined ["mon"]) ("", [])).

(** ** Vocabulary for the further properties *)

(** The labels [process_sheet_data] looks up among the columns. *)
Definition looked_up_labels : list string :=
  "Strike" :: "Chg in OI Value" :: optional_labels.

(** The strikes read in the body of a sheet, in row order. *)
Definition readable_strikes (strike_col : nat) (body : Sheet) : list Q :=
  map fst (dropna strike_col body).

(** The rows [all_data] holds for the sheet at position [k] of the day
    sheets: its records tagged with its name and [k], none when the sheet
    is skipped. *)
Definition frame_of (xl : ExcelFile) (sheet : string) (k : nat) : list DailyRecord :=
  match process_sheet_data xl sheet with
  | Some df => map (tag sheet k) df
  | None => []
  end.

(** Two snapshot rows of one strike with equal values. *)
Definition same_values (a b : Snapshot) : Prop :=
  snap_Strike a = snap_Strike b
  /\ CE_BEP a == CE_BEP b /\ CE_Money a == CE_Money b
  /\ PE_Money a == PE_Money b /\ PE_BEP a == PE_BEP b
  /\ Avg_CE_Ref a == Avg_CE_Ref b /\ Avg_PE_Ref a == Avg_PE_Ref b.

(** ** Styling of the sheets Max and Total *)

(** The two borders the code writes. *)
Inductive Border : Type := thin_border | no_border.

(** The border of every cell of a worksheet, by row and column (both
    counted from 1, as openpyxl does). *)
Definition Worksheet : Type := nat -> nat -> Border.

(** [ws.cell(row=..., column=...).border = border]. *)
Definition set_border (ws : Worksheet) (row column : nat) (border : Border) : Worksheet :=
  fun r c => if ((r =? row) && (c =? column))%nat then border else ws r c.

(** [range(a, b)]. *)
Definition range (a b : nat) : list nat := seq a (b - a).

Definition max_start_row : nat := 3.
Definition max_end_row : nat := 8.

Definition apply_box_grid (ws : Worksheet) (rows cols : list nat) (border : Border)
  : Worksheet :=
  fold_left (fun ws r => fold_left (fun ws c => set_border ws r c border) cols ws)
            rows ws.

(** The three steps that clear a spacer column: rows 1 and 2, then the
    rows [max_start_row..max_end_row]. *)
Definition clear_column (ws : Worksheet) (col_idx : nat) : Worksheet :=
  let ws := set_border ws 1 col_idx no_border in
  let ws := set_border ws 2 col_idx no_border in
  fold_left (fun ws r => set_border ws r col_idx no_border)
            (range max_start_row (max_end_row + 1)) ws.

(** [str(item.columns[0][0]).strip() == '']: the first label of a spacer
    is empty, that of a block is the name of its sheet. *)
Definition is_gap {A : Type} (item : Piece A) : bool :=
  match item with
  | Block label _ => String.eqb (strip label) ""
  | Gap => true
  end.

(** [len(item.columns)] in [max_dfs]: a block has the two tables of four
    columns and the column between them, a spacer two columns. *)
Definition max_columns {A : Type} (item : Piece A) : nat :=
  match item with
  | Block _ _ => 9%nat
  | Gap => 2%nat
  end.

(** The body of [for item in max_dfs]. *)
Definition style_max_item {A : Type} (ws : Worksheet) (current_col : nat) (item : Piece A)
  : Worksheet :=
  let width := max_columns item in
  if is_gap item then
    fold_left (fun ws c_offset => clear_column ws (current_col + c_offset))
              (range 0 width) ws
  else
    let ce_cols := range current_col (current_col + 4) in
    let gap_col := (current_col + 4)%nat in
    let pe_cols := range (current_col + 5) (current_col + 9) in
    let ws := apply_box_grid ws [2%nat] ce_cols thin_border in
    let ws := apply_box_grid ws (range max_start_row (max_end_row + 1)) ce_cols thin_border in
    let ws := apply_box_grid ws [2%nat] pe_cols thin_border in
    let ws := apply_box_grid ws (range max_start_row (max_end_row + 1)) pe_cols thin_border in
    clear_column ws gap_col.

(** The loop over [max_dfs], [current_col] advancing by the width of each
    item. *)
Fixpoint style_max_from {A : Type} (max_dfs : list (Piece A)) (current_col : nat)
  (ws : Worksheet) : Worksheet :=
  match max_dfs with
  | [] => ws
  | item :: rest =>
      style_max_from rest (current_col + max_columns item)
                     (style_max_item ws current_col item)
  end.

Definition style_max {A : Type} (max_dfs : list (Piece A)) (ws_max : Worksheet)
  : Worksheet :=
  style_max_from max_dfs 2 ws_max.

(** The first-level labels of [final_total_df.columns]: four columns per
    day block, one per spacer. *)
Definition total_columns {A : Type} (pieces : list (Piece A)) : list string :=
  flat_map (fun item => match item with
                        | Block label _ => repeat label 4
                        | Gap => [""]
                        end) pieces.

(** The loop [for i, col_tuple in enumerate(final_total_df.columns)];
    [n_rows] is [len(final_total_df)]. *)
Fixpoint style_total_from (i : nat) (columns : list string) (n_rows : nat)
  (ws : Worksheet) : Worksheet :=
  match columns with
  | [] => ws
  | label :: rest =>
      let ws :=
        if String.eqb (strip label) "" then
          let excel_col_idx := (i + 2)%nat in
          let total_rows := (n_rows + 2)%nat in
          fold_left (fun ws r => set_border ws r excel_col_idx no_border)
                    (range 1 (total_rows + 1)) ws
        else ws in
      style_total_from (S i) rest n_rows ws
  end.

Definition style_total (columns : list string) (n_rows : nat) (ws_total : Worksheet)
  : Worksheet :=
  style_total_from 0 columns n_rows ws_total.

(** Case analysis on the comparisons of row and column numbers. *)
Ltac cell_cases :=
  repeat match goal with
         | |- context [(?a <=? ?b)%nat] => destruct (Nat.leb_spec a b)
         | |- context [(?a <? ?b)%nat] => destruct (Nat.ltb_spec a b)
         | |- context [(?a =? ?b)%nat] => destruct (Nat.eqb_spec a b)
         end;
  cbn; try reflexivity; try lia.

(** Whether column [j] of a list of first-level labels is a spacer. *)
Definition blank_column (columns : list string) (j : nat) : bool :=
  match nth_error columns j with
  | Some label => String.eqb (strip label) ""
  | None => false
  end.

(** Whether a string holds nothing but white space. *)
Fixpoint all_space (s : string) : bool :=
  match s with
  | EmptyString => true
  | String c s' => is_space c && all_space s'
  end.

(** ** Further samples *)

(** A sheet whose labels "VWAP" and "VWAP " are the same once trimmed. *)
Definition spaced_label_xl : ExcelFile :=
  [("mon", [[Text "Strike"; Text "Chg in OI Value"; Text "VWAP"; Text "VWAP "];
            [Num 100; Num 5; Num 1; Num 2]])].

(** [week_xl] without the sheets Summary and Total. *)
Definition week_days_xl : ExcelFile :=
  filter (fun p => day_pattern_match (fst p)) week_xl.

Definition two_weeks_open (input : list Byte.byte) : option ExcelFile :=
  match input with
  | Byte.x05 :: _ => Some week_days_xl
  | _ => sample_open input
  end.

(** The snapshot of [week_combined] as of its third day, whose sheet was
    skipped. *)
Definition week_THU6 : list Snapshot :=
  snd (nth 2 (daily_calculated_dfs week_combined week_days) ("", [])).

(** A sheet as the writer leaves it: every cell with its thin border. *)
Definition written_sheet : Worksheet := fun _ _ => thin_border.

(** A stable descending sort: one of the results [sort_values] may give. *)
Definition stable_sort_values (metric : Snapshot -> Q) (df_source : list Snapshot)
  : list Snapshot :=
  sort_by (descending metric) df_source.

(** Another: the rows sorted ascending and read backwards, which leaves
    rows of equal metric in the reverse of their input order. *)
Definition tie_reversing_sort_values (metric : Snapshot -> Q) (df_source : list Snapshot)
  : list Snapshot :=
  rev (sort_by (ascending metric) df_source).

(** One day with the forty strikes 10, 20, ..., 400; the call money of
    the [i]-th strike is [i mod 3], so every third strike from 20 on has
    the largest money, 2. *)
Definition forty_combined : list DailyRecord :=
  map (fun i => sample_record "mon" 0
                  (inject_Z (Z.of_nat (10 * i))) (inject_Z (Z.of_nat (i mod 3)))
                  1 1 1 1 1)
      (seq 1 40).

(** The snapshot of [forty_combined]. *)
Definition forty_snapshot : list Snapshot :=
  snd (nth 0 (daily_calculated_dfs forty_combined ["mon"]) ("", [])).


(** * Properties *)

(** ** Day-sheet selection *)

Lemma match_literal_prefix (pat s : string) :
  match_literal pat s = prefix (lower pat) (lower s).
Proof.
  revert s; induction pat as [|p pat IH]; intros [|c s]; simpl; auto.
  rewrite IH.
  destruct (Ascii.eqb_spec (lower_ascii p) (lower_ascii c)) as [E|N].
  - rewrite E. destruct (ascii_dec (lower_ascii c) (lower_ascii c)); [reflexivity | congruence].
  - destruct (ascii_dec (lower_ascii p) (lower_ascii c)); [congruence | reflexivity].
Qed.

Lemma prefix_append (tok t : string) :
  prefix tok t = true <-> exists rest, t = (tok ++ rest)%string.
Proof.
  revert t; induction tok as [|a tok IH]; intros t; simpl.
  - split; [intros _; exists t; reflexivity | destruct t; reflexivity].
  - destruct t as [|b t]; simpl.
    + split; [discriminate | intros [rest H]; discriminate].
    + destruct (ascii_dec a b) as [->|N].
      * split.
        -- intros H; apply IH in H as [rest H]; exists rest; congruence.
        -- intros [rest H]; apply IH; exists rest; congruence.
      * split; [discriminate | intros [rest H]; congruence].
Qed.

Lemma existsb_literals (alts : list string) (s : string) :
  Forall (fun alt => lower alt = alt) alts ->
  existsb (fun alt => match_literal alt s) alts
  = existsb (fun tok => prefix tok (lower s)) alts.
Proof.
  induction 1 as [|alt alts Halt _ IH]; [reflexivity|].
  cbn [existsb]. now rewrite IH, match_literal_prefix, Halt.
Qed.

Lemma day_pattern_lower : Forall (fun alt => lower alt = alt) day_pattern.
Proof. repeat constructor. Qed.

Lemma selection_test_spec (sheet : string) :
  day_pattern_match sheet && negb (str_in (lower sheet) ["total"; "max"])
  = spec_day_sheet sheet.
Proof.
  unfold day_pattern_match, spec_day_sheet, str_in.
  rewrite (existsb_literals _ _ day_pattern_lower).
  cbn [existsb]. now rewrite orb_false_r, negb_orb, andb_assoc.
Qed.

Lemma get_day_sheets_loop (sheet_names acc : list string) :
  fold_left
    (fun day_sheets sheet =>
       if day_pattern_match sheet && negb (str_in (lower sheet) ["total"; "max"])
       then day_sheets ++ [sheet]
       else day_sheets)
    sheet_names acc
  = acc ++ filter spec_day_sheet sheet_names.
Proof.
  revert acc; induction sheet_names as [|s rest IH]; intros acc; simpl.
  - now rewrite app_nil_r.
  - rewrite IH, selection_test_spec.
    destruct (spec_day_sheet s); [now rewrite <- app_assoc | reflexivity].
Qed.

Lemma spec_day_sheet_true (name : string) :
  spec_day_sheet name = true <->
  begins_with_day_token name /\ lower name <> "total" /\ lower name <> "max".
Proof.
  unfold spec_day_sheet, begins_with_day_token.
  rewrite !andb_true_iff, !negb_true_iff, existsb_exists.
  split.
  - intros [[[tok [Hin Hp]] Ht] Hm].
    apply prefix_append in Hp as [rest Hp].
    repeat split.
    + exists tok, rest; auto.
    + intros E; rewrite E in Ht; discriminate.
    + intros E; rewrite E in Hm; discriminate.
  - intros [[tok [rest [Hin Hp]]] [Ht Hm]].
    repeat split.
    + exists tok; split; [assumption | apply prefix_append; eauto].
    + now apply String.eqb_neq.
    + now apply String.eqb_neq.
Qed.

(** C9.  [get_day_sheets] keeps, in the order of the file, exactly the
    sheets whose name begins with a day-of-week token (letter case
    ignored) and whose lower-cased name is neither "total" nor "max"; a
    sheet called Total or Max in any letter case is never among them. *)
Theorem C9_day_sheet_selection (names : list string) :
  get_day_sheets names = filter spec_day_sheet names
  /\ (forall s, In s (get_day_sheets names) <->
                In s names /\ begins_with_day_token s
                /\ lower s <> "total" /\ lower s <> "max")
  /\ (forall s, lower s = "total" \/ lower s = "max" ->
                ~ In s (get_day_sheets names)).
Proof using.
  assert (E : get_day_sheets names = filter spec_day_sheet names)
    by (unfold get_day_sheets; now rewrite get_day_sheets_loop).
  split; [exact E|]. rewrite E. split.
  - intros s. rewrite filter_In, spec_day_sheet_true. reflexivity.
  - intros s Hs Hin. apply filter_In in Hin as [_ Hin].
    apply spec_day_sheet_true in Hin as (_ & Ht & Hm).
    destruct Hs; contradiction.
Qed.

(** ** The sort *)

Section SortBy.

Context {A : Type} (le : A -> A -> bool).

Lemma insert_by_perm (x : A) (l : list A) : Permutation (insert_by le x l) (x :: l).
Proof.
  induction l as [|y l IH]; simpl; [reflexivity|].
  destruct (le x y); [reflexivity|].
  rewrite IH. apply perm_swap.
Qed.

Lemma sort_by_perm (l : list A) : Permutation (sort_by le l) l.
Proof.
  induction l as [|x l IH]; simpl; [reflexivity|].
  now rewrite insert_by_perm, IH.
Qed.

Lemma sort_by_In (l : list A) (x : A) : In x (sort_by le l) <-> In x l.
Proof.
  split; apply Permutation_in; [|symmetry]; apply sort_by_perm.
Qed.

Lemma sort_by_length (l : list A) : List.length (sort_by le l) = List.length l.
Proof. apply Permutation_length, sort_by_perm. Qed.

Hypothesis le_total : forall a b, le a b = true \/ le b a = true.

Lemma insert_by_sorted (x : A) (l : list A) :
  Sorted (fun a b => le a b = true) l ->
  Sorted (fun a b => le a b = true) (insert_by le x l).
Proof.
  induction 1 as [|y l Hs IH Hd]; simpl; [repeat constructor|].
  destruct (le x y) eqn:E.
  - constructor; [constructor; assumption | constructor; assumption].
  - constructor; [assumption|].
    assert (Hyx : le y x = true) by (destruct (le_total x y); congruence).
    destruct l as [|z l]; simpl; [constructor; assumption|].
    destruct (le x z); constructor; [assumption | now inversion Hd].
Qed.

Lemma sort_by_sorted (l : list A) : Sorted (fun a b => le a b = true) (sort_by le l).
Proof.
  induction l as [|x l IH]; simpl; [constructor | now apply insert_by_sorted].
Qed.

Hypothesis le_trans : forall a b c, le a b = true -> le b c = true -> le a c = true.

Lemma sort_by_strongly_sorted (l : list A) :
  StronglySorted (fun a b => le a b = true) (sort_by le l).
Proof.
  apply Sorted_StronglySorted; [|apply sort_by_sorted].
  intros a b c. apply le_trans.
Qed.

(** The first row of the sorted list stands before every row. *)
Lemma sort_by_head (l : list A) (h : A) (t : list A) :
  sort_by le l = h :: t ->
  In h l /\ forall x, In x l -> x = h \/ le h x = true.
Proof.
  intros E. split.
  - apply sort_by_In. rewrite E. now left.
  - intros x Hx. apply sort_by_In in Hx. rewrite E in Hx.
    destruct Hx as [->|Hx]; [now left | right].
    pose proof (sort_by_strongly_sorted l) as S. rewrite E in S.
    inversion S as [|? ? _ Hall]; subst.
    rewrite Forall_forall in Hall. now apply Hall.
Qed.

End SortBy.

Lemma ascending_total {A : Type} (key : A -> Q) (a b : A) :
  ascending key a b = true \/ ascending key b a = true.
Proof.
  unfold ascending. rewrite !Qle_bool_iff.
  destruct (Qlt_le_dec (key b) (key a)); [right; now apply Qlt_le_weak | now left].
Qed.

Lemma ascending_trans {A : Type} (key : A -> Q) (a b c : A) :
  ascending key a b = true -> ascending key b c = true -> ascending key a c = true.
Proof.
  unfold ascending. rewrite !Qle_bool_iff. apply Qle_trans.
Qed.

Lemma descending_total {A : Type} (key : A -> Q) (a b : A) :
  descending key a b = true \/ descending key b a = true.
Proof. unfold descending. destruct (ascending_total key a b); auto. Qed.

Lemma descending_trans {A : Type} (key : A -> Q) (a b c : A) :
  descending key a b = true -> descending key b c = true -> descending key a c = true.
Proof.
  unfold descending. rewrite !Qle_bool_iff. intros; eapply Qle_trans; eauto.
Qed.

Lemma by_index_total (a b : DailyRecord) :
  (Sheet_Index a <=? Sheet_Index b)%nat = true \/ (Sheet_Index b <=? Sheet_Index a)%nat = true.
Proof. rewrite !Nat.leb_le. lia. Qed.

Lemma by_index_trans (a b c : DailyRecord) :
  (Sheet_Index a <=? Sheet_Index b)%nat = true ->
  (Sheet_Index b <=? Sheet_Index c)%nat = true ->
  (Sheet_Index a <=? Sheet_Index c)%nat = true.
Proof. rewrite !Nat.leb_le. lia. Qed.

Lemma InA_Qeq_perm (l l' : list Q) (x : Q) :
  Permutation l l' -> InA Qeq x l -> InA Qeq x l'.
Proof.
  intros P H. apply InA_alt in H as [y [Hxy Hy]]. apply InA_alt.
  exists y. split; [assumption | eapply Permutation_in; eauto].
Qed.

Lemma NoDupA_Qeq_perm (l l' : list Q) :
  Permutation l l' -> NoDupA Qeq l -> NoDupA Qeq l'.
Proof.
  induction 1 as [| x l l' P IH | x y l | l l' l'' P1 IH1 P2 IH2]; intros N.
  - constructor.
  - inversion N as [|? ? Hx Hl]; subst. constructor; [|now apply IH].
    intros H. apply Hx. eapply InA_Qeq_perm; [symmetry|]; eauto.
  - inversion N as [|? ? Hy Hl]; subst. inversion Hl as [|? ? Hx Hl']; subst.
    constructor; [|constructor; [|assumption]].
    + intros H. inversion H as [? ? E|? ? H']; subst; [|contradiction].
      apply Hy. left. now symmetry.
    + intros H. apply Hy. now right.
  - auto.
Qed.

Lemma ascending_sorted_Qle {A : Type} (key : A -> Q) (l : list A) :
  StronglySorted (fun a b => key a <= key b) (sort_by (ascending key) l).
Proof.
  pose proof (sort_by_strongly_sorted (ascending key)
                (ascending_total key) (ascending_trans key) l) as S.
  induction S as [|a l' _ IH Hall]; constructor; [assumption|].
  eapply Forall_impl; [|exact Hall].
  intros b Hb. now apply Qle_bool_iff.
Qed.

Lemma descending_sorted_Qle {A : Type} (key : A -> Q) (l : list A) :
  StronglySorted (fun a b => key b <= key a) (sort_by (descending key) l).
Proof.
  pose proof (sort_by_strongly_sorted (descending key)
                (descending_total key) (descending_trans key) l) as S.
  induction S as [|a l' _ IH Hall]; constructor; [assumption|].
  eapply Forall_impl; [|exact Hall].
  intros b Hb. now apply Qle_bool_iff.
Qed.

Lemma StronglySorted_snoc {A : Type} (R : A -> A -> Prop) (l : list A) (x : A) :
  StronglySorted R l -> (forall y, In y l -> R y x) -> StronglySorted R (l ++ [x]).
Proof.
  induction 1 as [|a l S IH Hall]; intros H; cbn [app].
  - repeat constructor.
  - constructor.
    + apply IH. intros y Hy. apply H. now right.
    + rewrite Forall_forall in *. intros y Hy.
      apply in_app_or in Hy as [Hy|[<-|[]]]; [now apply Hall | apply H; now left].
Qed.

Lemma StronglySorted_rev {A : Type} (R : A -> A -> Prop) (l : list A) :
  StronglySorted R l -> StronglySorted (fun a b => R b a) (rev l).
Proof.
  induction 1 as [|a l S IH Hall]; cbn [rev]; [constructor|].
  apply StronglySorted_snoc; [assumption|].
  intros y Hy. apply in_rev in Hy. rewrite Forall_forall in Hall. now apply Hall.
Qed.

(** Two descending arrangements of the same rows are the same list when
    no two rows have the same key. *)
Lemma descending_unique {A : Type} (key : A -> Q) (l1 l2 : list A) :
  Permutation l1 l2 ->
  NoDupA Qeq (map key l1) ->
  StronglySorted (fun a b => key b <= key a) l1 ->
  StronglySorted (fun a b => key b <= key a) l2 ->
  l1 = l2.
Proof.
  revert l2; induction l1 as [|a l1 IH]; intros l2 P N S1 S2.
  - apply Permutation_nil in P. now subst.
  - destruct l2 as [|b l2]; [apply Permutation_sym, Permutation_nil in P; discriminate|].
    inversion N as [|? ? Na Nl]; subst.
    inversion S1 as [|? ? S1' H1]; subst. inversion S2 as [|? ? S2' H2]; subst.
    rewrite Forall_forall in H1, H2.
    assert (E : a = b).
    { assert (Hb : In b (a :: l1))
        by (eapply Permutation_in; [symmetry; exact P | now left]).
      destruct Hb as [Hb|Hb]; [assumption|].
      assert (Ha : In a (b :: l2)) by (eapply Permutation_in; [exact P | now left]).
      destruct Ha as [Ha|Ha]; [now symmetry|].
      exfalso. apply Na. apply InA_alt. exists (key b). split.
      - apply Qle_antisym; [now apply H2 | now apply H1].
      - now apply in_map. }
    subst b. f_equal. apply IH; try assumption.
    now apply Permutation_cons_inv in P.
Qed.

Lemma StronglySorted_app_order {A : Type} (R : A -> A -> Prop) (l1 l2 : list A) :
  StronglySorted R (l1 ++ l2) ->
  forall a b, In a l1 -> In b l2 -> R a b.
Proof.
  induction l1 as [|x l1 IH]; intros S a b Ha Hb; [destruct Ha|].
  cbn [app] in S. inversion S as [|? ? S' Hall]; subst.
  destruct Ha as [<-|Ha]; [|now apply IH].
  rewrite Forall_forall in Hall. apply Hall, in_or_app. now right.
Qed.

(** ** Pricing mode and reference price *)

Lemma existsb_Qeq (x : Q) (l : list Q) :
  existsb (Qeq_bool x) l = true <-> exists y, In y l /\ x == y.
Proof.
  rewrite existsb_exists. split; intros [y [H1 H2]]; exists y; split; auto;
    now apply Qeq_bool_iff.
Qed.

Lemma unique_sound (l seen : list Q) (k : Q) : In k (unique seen l) -> In k l.
Proof.
  revert seen; induction l as [|x l IH]; intros seen; simpl; [tauto|].
  destruct (existsb (Qeq_bool x) seen).
  - intros H; right; eapply IH; eauto.
  - intros [->|H]; [now left | right; eapply IH; eauto].
Qed.

Lemma unique_complete (l seen : list Q) (x : Q) :
  In x l ->
  (exists y, In y seen /\ x == y) \/ (exists k, In k (unique seen l) /\ k == x).
Proof.
  revert seen; induction l as [|a l IH]; intros seen; simpl; [tauto|].
  intros [->|Hx].
  - destruct (existsb (Qeq_bool x) seen) eqn:E.
    + left. now apply existsb_Qeq.
    + right. exists x. split; [now left | reflexivity].
  - destruct (existsb (Qeq_bool a) seen) eqn:E.
    + now apply IH.
    + destruct (IH (a :: seen) Hx) as [[y [[<-|Hy] Hxy]]|[k [Hk Hkx]]].
      * right. exists a. split; [now left | now symmetry].
      * left. eauto.
      * right. exists k. split; [now right | assumption].
Qed.

Lemma base_index_complete (combined : list DailyRecord) (r : DailyRecord) :
  In r combined -> exists k, In k (base_index combined) /\ k == Strike r.
Proof.
  intros Hr. unfold base_index.
  destruct (unique_complete (map (fun r : DailyRecord => Strike r) combined) [] (Strike r))
    as [[y [[] _]]|[k [Hk Hkx]]].
  - apply in_map_iff. now exists r.
  - exists k. split; [now apply sort_by_In | assumption].
Qed.

Lemma group_of_Qeq (combined : list DailyRecord) (k s : Q) :
  k == s -> group_of combined k = group_of combined s.
Proof.
  intros E. unfold group_of. apply filter_ext. intros r.
  now rewrite E.
Qed.

Lemma group_of_In (combined : list DailyRecord) (s : Q) (r : DailyRecord) :
  In r (group_of combined s) <-> In r combined /\ Strike r == s.
Proof. unfold group_of. now rewrite filter_In, Qeq_bool_iff. Qed.

Lemma dict_get_groups (combined : list DailyRecord) (ks : list Q) (s : Q) :
  dict_get (map (fun g => (fst g, mode_of_group (snd g)))
                (map (fun strike => (strike, group_of combined strike)) ks))
           s Standard
  = match find (fun k => Qeq_bool k s) ks with
    | Some k => mode_of_group (group_of combined k)
    | None => Standard
    end.
Proof.
  unfold dict_get. induction ks as [|k ks IH]; [reflexivity|].
  cbn [map find fst snd]. destruct (Qeq_bool k s); [reflexivity | exact IH].
Qed.

(** What [strike_pricing_mode.get(strike, 'Standard')] returns: the mode
    decided on the rows of that strike. *)
Lemma dict_get_strike_pricing_mode (combined : list DailyRecord) (s : Q) :
  dict_get (strike_pricing_mode combined) s Standard
  = mode_of_group (group_of combined s).
Proof.
  unfold strike_pricing_mode, groupby_Strike. rewrite dict_get_groups.
  destruct (find (fun k => Qeq_bool k s) (base_index combined)) as [k|] eqn:F.
  - apply find_some in F as [_ F]. apply Qeq_bool_iff in F.
    now rewrite (group_of_Qeq combined k s F).
  - replace (group_of combined s) with (@nil DailyRecord); [reflexivity|].
    symmetry. destruct (group_of combined s) as [|r g] eqn:G; [reflexivity|].
    assert (Hr : In r (group_of combined s)) by (rewrite G; now left).
    apply group_of_In in Hr as [Hr Hs].
    destruct (base_index_complete combined r Hr) as [k [Hk Hks]].
    pose proof (find_none _ _ F k Hk) as N. cbv beta in N.
    apply Qeq_bool_neq in N. exfalso. apply N. now rewrite Hks.
Qed.

Lemma mode_of_first_day (combined : list DailyRecord) (s : Q) (r0 : DailyRecord) :
  first_day_of combined s r0 ->
  mode_of_group (group_of combined s)
  = if Qle_bool (Call_VWAP r0) 0 then LTP else Standard.
Proof.
  intros (Hin & Hs & Hfirst). unfold mode_of_group.
  destruct (sort_by _ (group_of combined s)) as [|h t] eqn:E.
  - assert (In r0 (group_of combined s)) as H by now apply group_of_In.
    apply (sort_by_In (fun a b : DailyRecord => (Sheet_Index a <=? Sheet_Index b)%nat)) in H.
    rewrite E in H. destruct H.
  - destruct (sort_by_head _ by_index_total by_index_trans _ _ _ E) as [Hh Hmin].
    apply group_of_In in Hh as [Hh Hhs].
    assert (Hr0 : In r0 (group_of combined s)) by now apply group_of_In.
    destruct (Hfirst h Hh Hhs) as [->|Hlt]; [reflexivity|].
    destruct (Hmin r0 Hr0) as [->|Hle]; [reflexivity|].
    apply Nat.leb_le in Hle. lia.
Qed.

Lemma positive_iff (x : Q) : positive x = true <-> 0 < x.
Proof.
  unfold positive. rewrite negb_true_iff. split.
  - intros H. apply Qnot_le_lt. intros L. apply Qle_bool_iff in L. congruence.
  - intros H. destruct (Qle_bool x 0) eqn:E; [|reflexivity].
    apply Qle_bool_iff in E. exfalso. eapply Qlt_irrefl, Qlt_le_trans; eauto.
Qed.

Lemma positive_false_iff (x : Q) : positive x = false <-> x <= 0.
Proof.
  unfold positive. rewrite negb_false_iff. apply Qle_bool_iff.
Qed.

Lemma apply_pricing_In (combined : list DailyRecord) (r : PricedRecord) :
  In r (apply_pricing combined) ->
  In (daily r) combined /\
  forall side, Ref_Price_of side r
               = get_ref_price (strike_pricing_mode combined) r side.
Proof.
  unfold apply_pricing. rewrite in_map_iff. intros [d [<- Hd]].
  split; [exact Hd | intros []; reflexivity].
Qed.

Lemma apply_pricing_daily (combined : list DailyRecord) :
  map (fun r : PricedRecord => daily r) (apply_pricing combined) = combined.
Proof.
  unfold apply_pricing. rewrite map_map. cbn [daily]. apply map_id.
Qed.

(** The row the day loop reads for a strike on a day on which the strike
    has a record: a priced record of that sheet and strike. *)
Lemma reindex_day_data (combined : list DailyRecord) (sheet : string) (s : Q) :
  (exists d : DailyRecord, In d combined /\ Sheet_Name d = sheet /\ Strike d == s) ->
  exists r : PricedRecord,
    reindex (day_data (apply_pricing combined) sheet) s = Some r
    /\ In r (apply_pricing combined) /\ Sheet_Name r = sheet /\ Strike r == s.
Proof.
  intros (d & Hd & Hn & Hs).
  rewrite <- (apply_pricing_daily combined) in Hd.
  apply in_map_iff in Hd as (p & Hp & Hin).
  unfold reindex, day_data.
  destruct (find _ _) as [r|] eqn:F.
  - exists r. apply find_some in F as [Hr Hk]. apply filter_In in Hr as [Hr Hname].
    apply String.eqb_eq in Hname. apply Qeq_bool_iff in Hk. auto.
  - exfalso.
    assert (Hp' : In p (filter (fun r : PricedRecord => String.eqb (Sheet_Name r) sheet)
                              (apply_pricing combined))).
    { apply filter_In. split; [assumption|]. rewrite Hp. now apply String.eqb_eq. }
    pose proof (find_none _ _ F p Hp') as N. cbv beta in N.
    apply Qeq_bool_neq in N. apply N. now rewrite Hp.
Qed.

(** C1.  Let [r0] be the row of a strike on its first chronological day.
    Every record of [combined] is priced, and on each day on which the
    strike has a record the day loop reads a priced record of the strike
    and uses its reference price.  If the call VWAP of [r0] is at most 0
    the strike is priced in mode LTP, and on every day and for both sides
    that reference price is the day's LTP, whatever the VWAP; if it is
    positive the mode is Standard and each day's reference price is the
    VWAP when positive, else the LTP. *)
Theorem C1_reference_price_by_mode
  (combined : list DailyRecord) (s : Q) (r0 : DailyRecord) :
  first_day_of combined s r0 ->
  map (fun r : PricedRecord => daily r) (apply_pricing combined) = combined
  /\ (forall sheet,
        (exists d : DailyRecord, In d combined /\ Sheet_Name d = sheet /\ Strike d == s) ->
        exists r : PricedRecord,
          reindex (day_data (apply_pricing combined) sheet) s = Some r
          /\ In r (apply_pricing combined) /\ Sheet_Name r = sheet /\ Strike r == s
          /\ forall side,
               day_ref (apply_pricing combined) side s sheet = Some (Ref_Price_of side r))
  /\ (Call_VWAP r0 <= 0 ->
     dict_get (strike_pricing_mode combined) s Standard = LTP /\
     forall (r : PricedRecord) (side : Side),
       In r (apply_pricing combined) -> Strike r == s ->
       Ref_Price_of side r = LTP_of side r)
  /\
  (0 < Call_VWAP r0 ->
     dict_get (strike_pricing_mode combined) s Standard = Standard /\
     forall (r : PricedRecord) (side : Side),
       In r (apply_pricing combined) -> Strike r == s ->
       (0 < VWAP_of side r -> Ref_Price_of side r = VWAP_of side r) /\
       (VWAP_of side r <= 0 -> Ref_Price_of side r = LTP_of side r)).
Proof.
  intros Hfirst.
  pose proof (mode_of_first_day _ _ _ Hfirst) as Hmode.
  assert (Hget : forall r : PricedRecord, Strike r == s ->
            dict_get (strike_pricing_mode combined) (Strike r) Standard
            = if Qle_bool (Call_VWAP r0) 0 then LTP else Standard).
  { intros r Hs. rewrite dict_get_strike_pricing_mode, <- Hmode.
    f_equal. now apply group_of_Qeq. }
  split; [apply apply_pricing_daily|].
  split.
  { intros sheet Hd. destruct (reindex_day_data combined sheet s Hd) as (r & Hr & Hrest).
    exists r. split; [exact Hr|]. destruct Hrest as (H1 & H2 & H3).
    split; [exact H1 | split; [exact H2 | split; [exact H3|]]].
    intros side. unfold day_ref. now rewrite Hr. }
  split; intros Hv.
  - apply Qle_bool_iff in Hv. rewrite Hv in *. split.
    + now rewrite dict_get_strike_pricing_mode.
    + intros r side Hr Hs. apply apply_pricing_In in Hr as [_ Hr].
      rewrite Hr. unfold get_ref_price. now rewrite (Hget r Hs).
  - apply positive_iff in Hv. unfold positive in Hv.
    apply negb_true_iff in Hv. rewrite Hv in *. split.
    + now rewrite dict_get_strike_pricing_mode.
    + intros r side Hr Hs. apply apply_pricing_In in Hr as [_ Hr].
      rewrite Hr. unfold get_ref_price. rewrite (Hget r Hs). split; intros Hp.
      * apply positive_iff in Hp. now rewrite Hp.
      * apply positive_false_iff in Hp. now rewrite Hp.
Qed.

(** C5, as the code has it.  A strike with no row on day 0 is priced from
    the row of the first day on which it does appear: mode LTP when that
    row's call VWAP is at most 0, mode Standard when it is positive. *)
Theorem C5_mode_of_strike_absent_on_day_0
  (combined : list DailyRecord) (s : Q) (r0 : DailyRecord) :
  (forall r : DailyRecord, In r combined -> Strike r == s -> Sheet_Index r <> 0%nat) ->
  first_day_of combined s r0 ->
  (Call_VWAP r0 <= 0 -> dict_get (strike_pricing_mode combined) s Standard = LTP)
  /\ (0 < Call_VWAP r0 -> dict_get (strike_pricing_mode combined) s Standard = Standard).
Proof.
  intros _ Hfirst.
  rewrite dict_get_strike_pricing_mode, (mode_of_first_day _ _ _ Hfirst).
  split; intros Hv.
  - apply Qle_bool_iff in Hv. now rewrite Hv.
  - apply positive_iff in Hv. unfold positive in Hv.
    apply negb_true_iff in Hv. now rewrite Hv.
Qed.

(** ** The day loop *)

Lemma run_days_nth (combined : list PricedRecord) (days : list string)
  (st : list Cumulative) (k : nat) (sheet : string) (snap : list Snapshot) :
  nth_error (run_days combined days st) k = Some (sheet, snap) ->
  nth_error days k = Some sheet /\
  snap = map (fun c => snapshot (after_days combined (firstn (S k) days) c)) st.
Proof.
  revert st k; induction days as [|d days IH]; intros st k; simpl.
  - destruct k; discriminate.
  - destruct k as [|k]; simpl.
    + intros [= <- <-]. split; [reflexivity|]. now rewrite map_map.
    + intros H. apply IH in H as [H1 ->]. split; [assumption|].
      rewrite map_map. reflexivity.
Qed.

Lemma after_days_last (combined : list PricedRecord) (days : list string)
  (k : nat) (sheet : string) (c : Cumulative) :
  nth_error days k = Some sheet ->
  after_days combined (firstn (S k) days) c
  = accumulate (day_data combined sheet) (after_days combined (firstn k days) c).
Proof.
  intros H. unfold after_days.
  assert (E : firstn (S k) days = firstn k days ++ [sheet]).
  { revert k H; induction days as [|d days IH]; intros [|k] H; simpl in *;
      try discriminate.
    - now injection H as ->.
    - f_equal. now apply IH. }
  now rewrite E, fold_left_app.
Qed.

Lemma after_days_index (combined : list PricedRecord) (days : list string) (c : Cumulative) :
  index (after_days combined days c) = index c.
Proof.
  unfold after_days. revert c; induction days as [|d days IH]; intros c; simpl;
    [reflexivity | now rewrite IH].
Qed.

Lemma accumulate_money (day : list PricedRecord) (side : Side) (c : Cumulative) :
  cum_money side (accumulate day c)
  = cum_money side c
    + match reindex day (index c) with
      | Some r => Chg_OI_Val_of side r
      | None => 0
      end.
Proof.
  destruct side; unfold accumulate; simpl;
    destruct (reindex day (index c)); reflexivity.
Qed.

Lemma after_days_money (combined : list PricedRecord) (side : Side)
  (days : list string) (c : Cumulative) :
  cum_money side (after_days combined days c)
  == cum_money side c + total (map (day_money combined side (index c)) days).
Proof.
  unfold after_days. revert c; induction days as [|d days IH]; intros c; simpl.
  - ring.
  - rewrite IH, accumulate_money. unfold day_money at 2.
    change (index (accumulate (day_data combined d) c)) with (index c). ring.
Qed.

Lemma snapshot_money (side : Side) (c : Cumulative) :
  Money_of side (snapshot c) = cum_money side c.
Proof. now destruct side. Qed.

(** A row of a day's snapshot is the state of one strike of the base
    index after the days up to that one. *)
Lemma daily_calculated_dfs_row
  (combined : list DailyRecord) (day_sheets : list string)
  (k : nat) (sheet : string) (snap : list Snapshot) (i : nat) (row : Snapshot) :
  nth_error (daily_calculated_dfs combined day_sheets) k = Some (sheet, snap) ->
  nth_error snap i = Some row ->
  nth_error day_sheets k = Some sheet /\
  exists s, nth_error (base_index combined) i = Some s /\
            row = snapshot (after_days (apply_pricing combined)
                                       (firstn (S k) day_sheets) (initial s)).
Proof.
  unfold daily_calculated_dfs. intros H Hrow.
  apply run_days_nth in H as [Hk ->]. split; [assumption|].
  rewrite map_map, nth_error_map in Hrow.
  destruct (nth_error (base_index combined) i) as [s|]; [|discriminate].
  injection Hrow as <-. now exists s.
Qed.

Lemma snapshot_strike_after (combined : list PricedRecord) (days : list string) (s : Q) :
  snap_Strike (snapshot (after_days combined days (initial s))) = s.
Proof. unfold snapshot; simpl. now rewrite after_days_index. Qed.

(** C3.  The cumulative money of a strike after day [k] is the sum over
    the days up to [k] of the strike's raw open-interest-change money of
    that side, a day without a record of the strike counting for 0.  From
    one day to the next the day's raw value is added whatever its sign,
    and the value of the day before stays as it is when the strike has no
    record. *)
Theorem C3_cumulative_money
  (combined : list DailyRecord) (day_sheets : list string)
  (k : nat) (sheet : string) (snap : list Snapshot)
  (i : nat) (row : Snapshot) (side : Side) :
  nth_error (daily_calculated_dfs combined day_sheets) k = Some (sheet, snap) ->
  nth_error snap i = Some row ->
  let priced := apply_pricing combined in
  let s := snap_Strike row in
  nth_error (base_index combined) i = Some s
  /\ Money_of side row
     == total (map (day_money priced side s) (firstn (S k) day_sheets))
  /\ (reindex (day_data priced sheet) s = None -> day_money priced side s sheet = 0)
  /\ (k = 0%nat -> Money_of side row == day_money priced side s sheet)
  /\ (forall k' sheet' snap' row',
        k = S k' ->
        nth_error (daily_calculated_dfs combined day_sheets) k' = Some (sheet', snap') ->
        nth_error snap' i = Some row' ->
        snap_Strike row' = s
        /\ Money_of side row == Money_of side row' + day_money priced side s sheet
        /\ (reindex (day_data priced sheet) s = None ->
            Money_of side row == Money_of side row')).
Proof.
  intros H Hrow priced s. subst priced.
  destruct (daily_calculated_dfs_row _ _ _ _ _ _ _ H Hrow) as [Hk [s0 [Hs0 E]]].
  assert (Es : s = s0) by (unfold s; rewrite E; apply snapshot_strike_after).
  assert (Hsum : Money_of side row
                 == total (map (day_money (apply_pricing combined) side s)
                               (firstn (S k) day_sheets))).
  { rewrite E, snapshot_money, after_days_money, Es.
    change (index (initial s0)) with s0.
    replace (cum_money side (initial s0)) with 0 by now destruct side.
    ring. }
  assert (Habs : reindex (day_data (apply_pricing combined) sheet) s = None ->
                 day_money (apply_pricing combined) side s sheet = 0).
  { intros N. unfold day_money. now rewrite N. }
  repeat split; try assumption.
  - congruence.
  - intros ->. rewrite Hsum. simpl firstn.
    destruct day_sheets as [|d rest]; [discriminate|].
    injection Hk as ->. simpl. ring.
  - destruct (daily_calculated_dfs_row _ _ _ _ _ _ _ H1 H2) as [_ [s1 [Hs1 E1]]].
    rewrite E1, snapshot_strike_after. congruence.
  - destruct (daily_calculated_dfs_row _ _ _ _ _ _ _ H1 H2) as [_ [s1 [Hs1 E1]]].
    assert (s1 = s0) by congruence. subst s1 k.
    rewrite E, E1, !snapshot_money, (after_days_last _ _ _ _ _ Hk), accumulate_money.
    rewrite after_days_index. change (index (initial s0)) with s0.
    unfold day_money. rewrite Es. reflexivity.
  - intros N.
    destruct (daily_calculated_dfs_row _ _ _ _ _ _ _ H1 H2) as [_ [s1 [Hs1 E1]]].
    assert (s1 = s0) by congruence. subst s1 k.
    rewrite E, E1, !snapshot_money, (after_days_last _ _ _ _ _ Hk), accumulate_money.
    rewrite after_days_index. change (index (initial s0)) with s0.
    rewrite <- Es, N. ring.
Qed.

(** ** Running average and break-even price *)

Lemma accumulate_ref (day : list PricedRecord) (side : Side) (c : Cumulative) :
  cum_ref_sum side (accumulate day c)
  = cum_ref_sum side c
    + fillna0 (option_map (Ref_Price_of side) (reindex day (index c)))
  /\ cum_ref_count side (accumulate day c)
     = (cum_ref_count side c
        + astype_int (valid_mask (option_map (Ref_Price_of side) (reindex day (index c)))))%nat.
Proof. destruct side; split; reflexivity. Qed.

(** What the loop holds: the sum of every reference price met, and the
    number of the strictly positive ones. *)
Lemma after_days_ref (combined : list PricedRecord) (side : Side)
  (days : list string) (c : Cumulative) :
  cum_ref_sum side (after_days combined days c)
  == cum_ref_sum side c
     + total (map (fun d => fillna0 (day_ref combined side (index c) d)) days)
  /\ cum_ref_count side (after_days combined days c)
     = (cum_ref_count side c
        + List.length (positive_refs (map (day_ref combined side (index c)) days)))%nat.
Proof.
  unfold after_days. revert c; induction days as [|d days IH]; intros c; simpl.
  - split; [ring | lia].
  - destruct (IH (accumulate (day_data combined d) c)) as [IH1 IH2].
    destruct (accumulate_ref (day_data combined d) side c) as [A1 A2].
    change (index (accumulate (day_data combined d) c)) with (index c) in *.
    fold (day_ref combined side (index c) d) in A1, A2.
    rewrite IH1, IH2, A1, A2.
    destruct (day_ref combined side (index c) d) as [p|]; simpl.
    + destruct (positive p); simpl; split; solve [ring | lia].
    + split; [ring | lia].
Qed.

Lemma total_nonnegative_refs (refs : list (option Q)) :
  (forall p, In (Some p) refs -> 0 <= p) ->
  total (map fillna0 refs) == total (positive_refs refs).
Proof.
  induction refs as [|[p|] refs IH]; intros Hp; simpl.
  - reflexivity.
  - rewrite IH by (intros q Hq; apply Hp; now right).
    destruct (positive p) eqn:E; simpl; [reflexivity|].
    apply positive_false_iff in E.
    assert (p == 0) as -> by (apply Qle_antisym; [assumption | apply Hp; now left]).
    ring.
  - rewrite IH by (intros q Hq; apply Hp; now right). ring.
Qed.

Lemma snapshot_avg (side : Side) (c : Cumulative) :
  Avg_Ref_of side (snapshot c)
  = running_average (cum_ref_sum side c) (cum_ref_count side c).
Proof. now destruct side. Qed.

(** Where no reference price is negative, the running average of the loop
    is the mean of the strictly positive reference prices of the days so
    far, and 0 when there is none. *)
Lemma running_average_of_nonnegative_refs
  (combined : list DailyRecord) (day_sheets : list string)
  (k : nat) (sheet : string) (snap : list Snapshot) (row : Snapshot) (side : Side) :
  nth_error (daily_calculated_dfs combined day_sheets) k = Some (sheet, snap) ->
  In row snap ->
  let refs := map (day_ref (apply_pricing combined) side (snap_Strike row))
                  (firstn (S k) day_sheets) in
  (forall p, In (Some p) refs -> 0 <= p) ->
  Avg_Ref_of side row == spec_running_average refs.
Proof.
  intros H Hin refs Hnn.
  apply In_nth_error in Hin as [i Hrow].
  destruct (daily_calculated_dfs_row _ _ _ _ _ _ _ H Hrow) as [_ [s [_ E]]].
  assert (Es : snap_Strike row = s) by (rewrite E; apply snapshot_strike_after).
  unfold refs in *. clear refs. rewrite Es in *. rewrite E, snapshot_avg.
  destruct (after_days_ref (apply_pricing combined) side
              (firstn (S k) day_sheets) (initial s)) as [S1 S2].
  change (index (initial s)) with s in *.
  replace (cum_ref_sum side (initial s)) with 0 in S1 by now destruct side.
  replace (cum_ref_count side (initial s)) with 0%nat in S2 by now destruct side.
  rewrite S2. simpl Nat.add. unfold spec_running_average, running_average.
  destruct (positive_refs _) as [|p ps] eqn:P; [reflexivity|].
  cbn [List.length]. rewrite S1, <- P.
  rewrite <- (total_nonnegative_refs _ Hnn), map_map.
  apply Qdiv_comp; [ring | reflexivity].
Qed.

Lemma with_gaps_In {A : Type} (blocks : list (string * A)) (b : string * A) :
  In b blocks -> In (Block (fst b) (snd b)) (with_gaps blocks).
Proof.
  unfold with_gaps. induction blocks as [|c blocks IH]; [tauto|].
  intros [->|Hb]; cbn [flat_map app].
  - destruct (flat_map _ blocks); now left.
  - specialize (IH Hb). destruct (flat_map _ blocks) as [|x l] eqn:F.
    + destruct IH.
    + cbn [removelast]. right. change (In (Block (fst b) (snd b)) (removelast (Gap :: x :: l))).
      cbn [removelast]. right. exact IH.
Qed.

(** ** Top five *)

Lemma In_firstn {A : Type} (n : nat) (l : list A) (x : A) :
  In x (firstn n l) -> In x l.
Proof.
  revert l; induction n as [|n IH]; intros [|y l]; simpl; try tauto.
  intros [->|H]; [now left | right; now apply IH].
Qed.

Lemma sum_total_from (l : list Q) (a : Q) : fold_left Qplus l a == a + total l.
Proof.
  revert a; induction l as [|x l IH]; intros a; simpl; [ring|].
  rewrite IH. ring.
Qed.

Lemma sum_total (l : list Q) : sum l == total l.
Proof. unfold sum. rewrite sum_total_from. ring. Qed.

Lemma total_perm (l l' : list Q) : Permutation l l' -> total l == total l'.
Proof.
  induction 1 as [| x l l' _ IH | x y l | l l' l'' _ IH1 _ IH2]; simpl.
  - reflexivity.
  - now rewrite IH.
  - ring.
  - now rewrite IH1.
Qed.

Lemma ensure_5_rows_length (data : list (list (option Q))) :
  (List.length data <= 5)%nat -> List.length (ensure_5_rows data) = 5%nat.
Proof.
  intros H. unfold ensure_5_rows. rewrite length_app, repeat_length. lia.
Qed.

Lemma sort_values_In (metric : Snapshot -> Q) (df_source : list Snapshot) (x : Snapshot) :
  In x (sort_values metric df_source) <-> In x df_source.
Proof.
  split; apply Permutation_in; [|symmetry]; apply sort_values_rows.
Qed.

Lemma sort_values_length (metric : Snapshot -> Q) (df_source : list Snapshot) :
  List.length (sort_values metric df_source) = List.length df_source.
Proof. apply Permutation_length, sort_values_rows. Qed.

(** Where no two rows have the same metric, [sort_values] can only give
    the one descending arrangement. *)
Lemma sort_values_without_ties (metric : Snapshot -> Q) (df_source : list Snapshot) :
  NoDupA Qeq (map metric df_source) ->
  sort_values metric df_source = sort_by (descending metric) df_source.
Proof.
  intros N. apply (descending_unique metric).
  - rewrite sort_values_rows. symmetry. apply sort_by_perm.
  - eapply NoDupA_Qeq_perm; [|exact N].
    apply Permutation_map. symmetry. apply sort_values_rows.
  - apply sort_values_descending.
  - apply descending_sorted_Qle.
Qed.

(** [get_top5_df] on any frame and any two metrics: the ranking, the rows
    shown, the padding and the totals row. *)
Lemma get_top5_df_spec
  (df_source : list Snapshot) (ce_metric pe_metric : Snapshot -> Q) :
  let ranked := fun metric => sort_values metric df_source in
  let shown := fun metric => sort_by (descending snap_Strike) (firstn 5 (ranked metric)) in
  let block := get_top5_df df_source ce_metric pe_metric in
  (forall metric,
      Permutation (ranked metric) df_source
      /\ StronglySorted (fun a b => metric b <= metric a) (ranked metric)
      /\ (NoDupA Qeq (map metric df_source) ->
          ranked metric = sort_by (descending metric) df_source)
      /\ (forall a b, In a (firstn 5 (ranked metric)) -> In b (skipn 5 (ranked metric)) ->
                      metric b <= metric a)
      /\ Permutation (shown metric) (firstn 5 (ranked metric))
      /\ StronglySorted (fun a b => snap_Strike b <= snap_Strike a) (shown metric)
      /\ (List.length (shown metric) <= 5)%nat)
  /\ List.length (res_df block) = 6%nat
  /\ List.length (sup_df block) = 6%nat
  /\ firstn 5 (res_df block)
     = map (res_row ce_metric) (shown ce_metric)
       ++ repeat nan_row (5 - List.length (shown ce_metric))
  /\ firstn 5 (sup_df block)
     = map (sup_row pe_metric) (shown pe_metric)
       ++ repeat nan_row (5 - List.length (shown pe_metric))
  /\ (exists ce_money_sum,
        nth_error (res_df block) 5 = Some [None; Some ce_money_sum; None; None]
        /\ ce_money_sum == total (map ce_metric (firstn 5 (ranked ce_metric))))
  /\ (exists pe_money_sum,
        nth_error (sup_df block) 5 = Some [None; Some pe_money_sum; None; None]
        /\ pe_money_sum == total (map pe_metric (firstn 5 (ranked pe_metric)))).
Proof.
  intros ranked shown block.
  assert (Hlen : forall metric, (List.length (shown metric) <= 5)%nat).
  { intros metric. unfold shown. rewrite sort_by_length. apply firstn_le_length. }
  assert (Hfirst : forall (data extra : list (list (option Q))),
             (List.length data <= 5)%nat ->
             firstn 5 (ensure_5_rows data ++ extra) = ensure_5_rows data
             /\ nth_error (ensure_5_rows data ++ extra) 5 = nth_error extra 0).
  { intros data extra Hd. pose proof (ensure_5_rows_length data Hd) as L. split.
    - rewrite firstn_app, L, Nat.sub_diag, firstn_O, app_nil_r.
      apply firstn_all2. lia.
    - rewrite nth_error_app2 by lia. now rewrite L. }
  split; [|repeat split].
  - intros metric. repeat split.
    + apply sort_values_rows.
    + apply sort_values_descending.
    + apply sort_values_without_ties.
    + intros a b Ha Hb.
      apply (StronglySorted_app_order (fun a b => metric b <= metric a)
               (firstn 5 (ranked metric)) (skipn 5 (ranked metric)));
        [|assumption|assumption].
      rewrite firstn_skipn. apply sort_values_descending.
    + apply sort_by_perm.
    + apply descending_sorted_Qle.
    + apply Hlen.
  - unfold block, get_top5_df; cbn [res_df].
    rewrite length_app, ensure_5_rows_length; [reflexivity|].
    rewrite length_map. apply (Hlen ce_metric).
  - unfold block, get_top5_df; cbn [sup_df].
    rewrite length_app, ensure_5_rows_length; [reflexivity|].
    rewrite length_map. apply (Hlen pe_metric).
  - unfold block, get_top5_df; cbn [res_df].
    destruct (Hfirst (map (res_row ce_metric) (shown ce_metric))
                [[None; Some (sum (map ce_metric (shown ce_metric))); None; None]])
      as [F _]; [rewrite length_map; apply Hlen|].
    unfold top5. fold (ranked ce_metric). fold (shown ce_metric).
    rewrite F. unfold ensure_5_rows. now rewrite length_map.
  - unfold block, get_top5_df; cbn [sup_df].
    destruct (Hfirst (map (sup_row pe_metric) (shown pe_metric))
                [[None; Some (sum (map pe_metric (shown pe_metric))); None; None]])
      as [F _]; [rewrite length_map; apply Hlen|].
    unfold top5. fold (ranked pe_metric). fold (shown pe_metric).
    rewrite F. unfold ensure_5_rows. now rewrite length_map.
  - exists (sum (map ce_metric (shown ce_metric))). split.
    + unfold block, get_top5_df; cbn [res_df].
      unfold top5. fold (ranked ce_metric). fold (shown ce_metric).
      destruct (Hfirst (map (res_row ce_metric) (shown ce_metric))
                  [[None; Some (sum (map ce_metric (shown ce_metric))); None; None]])
        as [_ N]; [rewrite length_map; apply Hlen|].
      now rewrite N.
    + rewrite sum_total. apply total_perm, Permutation_map, sort_by_perm.
  - exists (sum (map pe_metric (shown pe_metric))). split.
    + unfold block, get_top5_df; cbn [sup_df].
      unfold top5. fold (ranked pe_metric). fold (shown pe_metric).
      destruct (Hfirst (map (sup_row pe_metric) (shown pe_metric))
                  [[None; Some (sum (map pe_metric (shown pe_metric))); None; None]])
        as [_ N]; [rewrite length_map; apply Hlen|].
      now rewrite N.
    + rewrite sum_total. apply total_perm, Permutation_map, sort_by_perm.
Qed.

Lemma ranked_rows_In (df_source : list Snapshot) (metric : Snapshot -> Q)
  (f : Snapshot -> list (option Q)) (extra x : list (option Q)) :
  (forall r, hd None (f r) <> None) ->
  hd None extra = None ->
  In x (ensure_5_rows
          (map f (sort_by (descending snap_Strike) (top5 metric df_source)))
        ++ [extra]) ->
  hd None x <> None ->
  exists row, In row df_source /\ x = f row.
Proof.
  intros Hf Hextra Hin Hx. unfold ensure_5_rows in Hin.
  apply in_app_or in Hin as [Hin|[<-|[]]]; [|contradiction].
  apply in_app_or in Hin as [Hin|Hin].
  - apply in_map_iff in Hin as [row [<- Hrow]]. exists row. split; [|reflexivity].
    apply sort_by_In in Hrow. unfold top5 in Hrow.
    apply In_firstn in Hrow. now apply sort_values_In in Hrow.
  - apply repeat_spec in Hin. subst x. now contradiction Hx.
Qed.

Lemma base_index_ascending (combined : list DailyRecord) :
  StronglySorted Qle (base_index combined).
Proof.
  unfold base_index.
  pose proof (sort_by_strongly_sorted (ascending (fun k : Q => k))
                (ascending_total _) (ascending_trans _)
                (unique [] (map (fun r : DailyRecord => Strike r) combined))) as S.
  induction S as [|a l' _ IH Hall]; constructor; [assumption|].
  eapply Forall_impl; [|exact Hall].
  intros b Hb. now apply Qle_bool_iff.
Qed.

Lemma snapshot_strikes (combined : list DailyRecord) (day_sheets : list string)
  (k : nat) (sheet : string) (snap : list Snapshot) :
  nth_error (daily_calculated_dfs combined day_sheets) k = Some (sheet, snap) ->
  map snap_Strike snap = base_index combined.
Proof.
  unfold daily_calculated_dfs. intros H.
  apply run_days_nth in H as [_ ->]. rewrite !map_map.
  rewrite <- (map_id (base_index combined)) at 2.
  apply map_ext. intros s. apply snapshot_strike_after.
Qed.

Lemma StronglySorted_map {A B : Type} (R : B -> B -> Prop) (f : A -> B) (l : list A) :
  StronglySorted R (map f l) -> StronglySorted (fun a b => R (f a) (f b)) l.
Proof.
  induction l as [|a l IH]; intros S; [constructor|].
  inversion S as [|? ? S' Hall]; subst. constructor; [now apply IH|].
  rewrite Forall_forall in *. intros b Hb. apply Hall, in_map_iff. eauto.
Qed.

(** C4, as the code has it.  On the snapshot of a day, whose rows stand
    by strike ascending, each side ranks the strikes by its cumulative
    money, largest first, so no strike left out has more money than a
    strike selected; where no two strikes have the same money that ranking
    is the only one there is, and among strikes of equal money the order
    is the one [sort_values] leaves.  The first five are shown by
    strike, largest first; the table has five rows, the missing ones
    blank, and a sixth whose money is the sum over the rows selected. *)
Theorem C4_top5_extraction
  (combined : list DailyRecord) (day_sheets : list string)
  (k : nat) (sheet : string) (snap : list Snapshot) :
  nth_error (daily_calculated_dfs combined day_sheets) k = Some (sheet, snap) ->
  let ranked := fun metric => sort_values metric snap in
  let shown := fun metric => sort_by (descending snap_Strike) (firstn 5 (ranked metric)) in
  let block := get_top5_df snap CE_Money PE_Money in
  In (Block sheet block) (final_max_df combined day_sheets)
  /\ StronglySorted (fun a b => snap_Strike a <= snap_Strike b) snap
  /\ (forall metric,
      Permutation (ranked metric) snap
      /\ StronglySorted (fun a b => metric b <= metric a) (ranked metric)
      /\ (NoDupA Qeq (map metric snap) -> ranked metric = sort_by (descending metric) snap)
      /\ (forall a b, In a (firstn 5 (ranked metric)) -> In b (skipn 5 (ranked metric)) ->
                      metric b <= metric a)
      /\ Permutation (shown metric) (firstn 5 (ranked metric))
      /\ StronglySorted (fun a b => snap_Strike b <= snap_Strike a) (shown metric)
      /\ (List.length (shown metric) <= 5)%nat)
  /\ List.length (res_df block) = 6%nat
  /\ List.length (sup_df block) = 6%nat
  /\ firstn 5 (res_df block)
     = map (res_row CE_Money) (shown CE_Money)
       ++ repeat nan_row (5 - List.length (shown CE_Money))
  /\ firstn 5 (sup_df block)
     = map (sup_row PE_Money) (shown PE_Money)
       ++ repeat nan_row (5 - List.length (shown PE_Money))
  /\ (exists ce_money_sum,
        nth_error (res_df block) 5 = Some [None; Some ce_money_sum; None; None]
        /\ ce_money_sum == total (map CE_Money (firstn 5 (ranked CE_Money))))
  /\ (exists pe_money_sum,
        nth_error (sup_df block) 5 = Some [None; Some pe_money_sum; None; None]
        /\ pe_money_sum == total (map PE_Money (firstn 5 (ranked PE_Money)))).
Proof.
  intros H ranked shown block. split; [|split].
  - unfold final_max_df.
    apply (with_gaps_In _ (sheet, block)), in_map_iff.
    exists (sheet, snap). split; [reflexivity | eapply nth_error_In; eauto].
  - apply (StronglySorted_map Qle). rewrite (snapshot_strikes _ _ _ _ _ H).
    apply base_index_ascending.
  - apply (get_top5_df_spec snap CE_Money PE_Money).
Qed.

(** C8.  On every day and for every strike the call break-even price is
    the strike plus the running average of the call reference price as of
    that day, the put break-even price the strike minus that of the put
    side; these are the values of the day's block of the Total table, and
    every ranked row of the day's block of the Max table carries the
    strike, its money, its running average and the same break-even
    price. *)
Theorem C8_break_even_prices
  (combined : list DailyRecord) (day_sheets : list string)
  (k : nat) (sheet : string) (snap : list Snapshot) :
  nth_error (daily_calculated_dfs combined day_sheets) k = Some (sheet, snap) ->
  let block := get_top5_df snap CE_Money PE_Money in
  (forall row, In row snap ->
     let c := after_days (apply_pricing combined) (firstn (S k) day_sheets)
                         (initial (snap_Strike row)) in
     Avg_CE_Ref row = running_average (cum_ce_ref_sum c) (cum_ce_ref_count c)
     /\ Avg_PE_Ref row = running_average (cum_pe_ref_sum c) (cum_pe_ref_count c)
     /\ CE_BEP row = snap_Strike row + Avg_CE_Ref row
     /\ PE_BEP row = snap_Strike row - Avg_PE_Ref row)
  /\ In (Block sheet (map (fun row => [CE_BEP row; CE_Money row; PE_Money row; PE_BEP row])
                          snap))
        (snd (final_total_df combined day_sheets))
  /\ In (Block sheet block) (final_max_df combined day_sheets)
  /\ (forall x, In x (res_df block) -> hd None x <> None ->
        exists row, In row snap /\
          x = [Some (snap_Strike row); Some (CE_Money row); Some (Avg_CE_Ref row);
               Some (snap_Strike row + Avg_CE_Ref row)])
  /\ (forall x, In x (sup_df block) -> hd None x <> None ->
        exists row, In row snap /\
          x = [Some (snap_Strike row); Some (PE_Money row); Some (Avg_PE_Ref row);
               Some (snap_Strike row - Avg_PE_Ref row)]).
Proof.
  intros H block. split; [|repeat split].
  - intros row Hin c. subst c.
    apply In_nth_error in Hin as [i Hrow].
    destruct (daily_calculated_dfs_row _ _ _ _ _ _ _ H Hrow) as [_ [s [_ E]]].
    assert (Es : snap_Strike row = s) by (rewrite E; apply snapshot_strike_after).
    rewrite Es. clear Es. subst row.
    repeat split; unfold snapshot; cbn [CE_BEP PE_BEP Avg_CE_Ref Avg_PE_Ref];
      rewrite ?after_days_index; reflexivity.
  - unfold final_total_df. cbn [snd].
    apply (with_gaps_In _ (sheet, display_subset snap)), in_map_iff.
    exists (sheet, snap). split; [reflexivity | eapply nth_error_In; eauto].
  - unfold final_max_df.
    apply (with_gaps_In _ (sheet, block)), in_map_iff.
    exists (sheet, snap). split; [reflexivity | eapply nth_error_In; eauto].
  - intros x Hx Hd. unfold block, get_top5_df in Hx; cbn [res_df] in Hx.
    eapply (ranked_rows_In snap CE_Money (res_row CE_Money)) in Hx;
      [exact Hx | intros r; discriminate | reflexivity | exact Hd].
  - intros x Hx Hd. unfold block, get_top5_df in Hx; cbn [sup_df] in Hx.
    eapply (ranked_rows_In snap PE_Money (sup_row PE_Money)) in Hx;
      [exact Hx | intros r; discriminate | reflexivity | exact Hd].
Qed.

(** ** Reading a sheet *)

Lemma positions_nil (label : string) (columns : list string) (i : nat) :
  positions label columns i = [] <-> ~ In label columns.
Proof.
  revert i; induction columns as [|c columns IH]; intros i; simpl; [tauto|].
  destruct (String.eqb_spec c label) as [->|N].
  - split; [discriminate | tauto].
  - rewrite IH. tauto.
Qed.

Lemma locate_absent (columns : list string) (label : string) :
  ~ In label columns -> locate columns label = Absent.
Proof.
  intros H. unfold locate. apply (positions_nil label columns 0) in H. now rewrite H.
Qed.

Lemma str_in_In (x : string) (l : list string) : str_in x l = true <-> In x l.
Proof.
  unfold str_in. rewrite existsb_exists. split.
  - intros [y [Hy E]]. apply String.eqb_eq in E. now subst.
  - intros H. exists x. split; [assumption | apply String.eqb_refl].
Qed.

Lemma resolve_columns_required (columns : list string) :
  ~ In "Strike" columns \/ ~ In "Chg in OI Value" columns ->
  resolve_columns columns = None.
Proof.
  unfold resolve_columns, getitem. intros [H|H].
  - now rewrite (locate_absent _ _ H).
  - destruct (locate columns "Strike"); try reflexivity. cbn [bind].
    destruct (str_in "Chg in OI Value" columns) eqn:E; [|reflexivity].
    apply str_in_In in E. contradiction.
Qed.

Lemma locate_In (columns : list string) (label : string) (i : nat) :
  locate columns label = Column i -> In label columns.
Proof.
  unfold locate. intros H.
  destruct (in_dec string_dec label columns) as [Hin|Hn]; [assumption|].
  apply (positions_nil label columns 0) in Hn. rewrite Hn in H. discriminate.
Qed.

Lemma resolve_columns_optional (columns : list string) (i j : nat) :
  locate columns "Strike" = Column i ->
  locate columns "Chg in OI Value" = Column j ->
  (forall label, In label optional_labels -> locate columns label <> Repeated) ->
  exists src, resolve_columns columns = Some src.
Proof.
  intros Hs Hc Hopt. unfold resolve_columns, getitem, get_or_zero, if_in_cols.
  rewrite Hs, Hc. cbn [bind option_map].
  assert (Hin : str_in "Chg in OI Value" columns = true)
    by (apply str_in_In; eapply locate_In; eauto).
  rewrite Hin. cbn [bind].
  pose proof (Hopt "VWAP") as O1. pose proof (Hopt "LTP (Chg %)") as O2.
  pose proof (Hopt "Chg in OI Value.1") as O3. pose proof (Hopt "VWAP.1") as O4.
  pose proof (Hopt "LTP (Chg %).1") as O5.
  destruct (locate columns "VWAP"); [| |exfalso; apply O1; simpl; tauto];
  destruct (locate columns "LTP (Chg %)"); try (exfalso; apply O2; simpl; tauto);
  destruct (locate columns "Chg in OI Value.1"); try (exfalso; apply O3; simpl; tauto);
  destruct (locate columns "VWAP.1"); try (exfalso; apply O4; simpl; tauto);
  destruct (locate columns "LTP (Chg %).1"); try (exfalso; apply O5; simpl; tauto);
  cbn [bind]; eexists; reflexivity.
Qed.

(** A sheet whose parse gave [None] adds nothing to [all_data], and the
    sheets after it are read with their own indices. *)
Lemma collect_all_data_app (xl : ExcelFile) (before after : list string) (idx : nat) :
  collect_all_data xl idx (before ++ after)
  = collect_all_data xl idx before
    ++ collect_all_data xl (idx + List.length before) after.
Proof.
  revert idx; induction before as [|s before IH]; intros idx; simpl.
  - now rewrite Nat.add_0_r.
  - rewrite IH, Nat.add_succ_r.
    destruct (process_sheet_data xl s); reflexivity.
Qed.

Lemma collect_all_data_nil (xl : ExcelFile) (day_sheets : list string) (idx : nat) :
  collect_all_data xl idx day_sheets = [] <->
  forall sheet, In sheet day_sheets -> process_sheet_data xl sheet = None.
Proof.
  revert idx; induction day_sheets as [|s rest IH]; intros idx; simpl.
  - split; [intros _ ? [] | reflexivity].
  - destruct (process_sheet_data xl s) as [df|] eqn:E.
    + split; [discriminate|]. intros H. specialize (H s (or_introl eq_refl)).
      congruence.
    + rewrite IH. split.
      * intros H sheet [<-|Hin]; auto.
      * intros H sheet Hin. apply H. now right.
Qed.


(** ** Normalisation of the cells *)

Lemma drop_duplicates_In {A : Type} (l : list (Q * A)) (seen : list Q) (k : Q) (a : A) :
  In (k, a) (drop_duplicates seen l) <->
  existsb (Qeq_bool k) seen = false /\
  find (fun p => Qeq_bool (fst p) k) l = Some (k, a).
Proof.
  revert seen; induction l as [|[k0 a0] l IH]; intros seen; cbn [drop_duplicates find fst].
  - split; [intros [] | intros [_ H]; discriminate].
  - destruct (existsb (Qeq_bool k0) seen) eqn:S0.
    + rewrite IH. split; intros [Hs Hf]; (split; [assumption|]).
      * destruct (Qeq_bool k0 k) eqn:E; [|assumption]. exfalso.
        apply Qeq_bool_iff in E. apply existsb_Qeq in S0 as [y [Hy Hky]].
        assert (existsb (Qeq_bool k) seen = true) as C
          by (apply existsb_Qeq; exists y; split; [assumption | now rewrite <- E]).
        congruence.
      * destruct (Qeq_bool k0 k) eqn:E; [|assumption].
        injection Hf as -> ->. congruence.
    + cbn [In]. rewrite IH. cbn [existsb]. split.
      * intros [[= -> ->]|[Hs Hf]].
        -- split; [assumption|]. now rewrite Qeq_bool_refl.
        -- apply orb_false_iff in Hs as [Hk Hs]. split; [assumption|].
           rewrite Qeq_bool_comm, Hk. assumption.
      * intros [Hs Hf]. destruct (Qeq_bool k0 k) eqn:E.
        -- left. congruence.
        -- right. split; [|assumption].
           rewrite Qeq_bool_comm, E. assumption.
Qed.

Lemma find_dropna (strike_col : nat) (body : Sheet) (k : Q) :
  find (fun p => Qeq_bool (fst p) k) (dropna strike_col body)
  = match first_row_of_strike strike_col body k with
    | Some row => match to_numeric (nth strike_col row Blank) with
                  | Some k' => Some (k', row)
                  | None => None
                  end
    | None => None
    end.
Proof.
  unfold first_row_of_strike. induction body as [|row body IH]; [reflexivity|].
  cbn [dropna find].
  destruct (to_numeric (nth strike_col row Blank)) as [k'|] eqn:N.
  - cbn [find fst]. destruct (Qeq_bool k' k); [now rewrite N | exact IH].
  - exact IH.
Qed.

(** The rows kept by [dropna] and [drop_duplicates]: for each strike read,
    the first row of the body that reads as that strike. *)
Lemma kept_rows (strike_col : nat) (body : Sheet) (k : Q) (row : list Cell) :
  In (k, row) (drop_duplicates [] (dropna strike_col body)) <->
  first_row_of_strike strike_col body k = Some row /\
  to_numeric (nth strike_col row Blank) = Some k.
Proof.
  rewrite drop_duplicates_In, find_dropna. cbn [existsb]. split.
  - intros [_ H]. destruct (first_row_of_strike strike_col body k) as [row'|]; [|discriminate].
    destruct (to_numeric (nth strike_col row' Blank)) as [k'|] eqn:N; [|discriminate].
    injection H as -> ->. auto.
  - intros [-> ->]. auto.
Qed.

Lemma resolve_columns_sources (columns : list string) (src : Sources) :
  resolve_columns columns = Some src ->
  locate columns "Strike" = Column (src_Strike src) /\
  forall (k : Q) (row : list Cell), normalized_from columns row (to_record src (k, row)).
Proof.
  unfold resolve_columns, getitem, get_or_zero, if_in_cols.
  destruct (locate columns "Strike") as [|i|] eqn:L0; try discriminate. cbn [bind].
  destruct (str_in "Chg in OI Value" columns); [|discriminate].
  destruct (locate columns "Chg in OI Value") as [|i1|] eqn:L1; try discriminate.
  cbn [bind option_map].
  destruct (locate columns "VWAP") as [|i2|] eqn:L2; try discriminate;
  destruct (locate columns "LTP (Chg %)") as [|i3|] eqn:L3; try discriminate;
  destruct (locate columns "Chg in OI Value.1") as [|i4|] eqn:L4; try discriminate;
  destruct (locate columns "VWAP.1") as [|i5|] eqn:L5; try discriminate;
  destruct (locate columns "LTP (Chg %).1") as [|i6|] eqn:L6; try discriminate;
  cbn [bind]; intros [= <-]; (split; [reflexivity|]);
  intros k row label field Hin; cbn [src_Strike];
  repeat (destruct Hin as [[= <- <-]|Hin];
          [ match goal with
            | H : locate columns ?l = _ |- context [locate columns ?l] => rewrite H
            end;
            unfold to_record; cbn -[to_numeric nth];
            try reflexivity;
            match goal with
            | |- match to_numeric ?c with _ => _ end => now destruct (to_numeric c)
            end
          | ]);
  destruct Hin.
Qed.

Lemma process_sheet_data_Some (xl : ExcelFile) (sheet_name : string) (df : list SheetRow) :
  process_sheet_data xl sheet_name = Some df ->
  exists rows h src,
    read_excel xl sheet_name = Some rows
    /\ find_header 0 (firstn 10 rows) = Some h
    /\ resolve_columns (map strip (header_labels (nth h rows []))) = Some src
    /\ df = map (to_record src)
                (drop_duplicates [] (dropna (src_Strike src) (skipn (S h) rows))).
Proof.
  unfold process_sheet_data.
  destruct (read_excel xl sheet_name) as [rows|]; [|discriminate]. cbn [bind].
  destruct (find_header 0 (firstn 10 rows)) as [h|] eqn:F; [|discriminate]. cbn [bind].
  destruct (resolve_columns _) as [src|] eqn:R; [|discriminate]. cbn [bind].
  intros [= <-]. exists rows, h, src. repeat split; assumption.
Qed.

(** C10.  In every record read from a sheet, a money, VWAP or LTP value is
    the number of the cell of the strike's row, and exactly 0 when that
    cell is empty or not a number; every row with a readable strike that
    is the first of its strike yields such a record.  A strike whose
    first-day record comes from a row with an unreadable call VWAP cell is
    priced in mode LTP. *)
Theorem C10_unreadable_cells_are_zero
  (xl : ExcelFile) (sheet_name : string) (df : list SheetRow) :
  process_sheet_data xl sheet_name = Some df ->
  exists rows h strike_col,
    read_excel xl sheet_name = Some rows
    /\ find_header 0 (firstn 10 rows) = Some h
    /\ let columns := map strip (header_labels (nth h rows [])) in
       let body := skipn (S h) rows in
       locate columns "Strike" = Column strike_col
       /\ (forall r, In r df ->
             exists row,
               first_row_of_strike strike_col body (Strike r) = Some row
               /\ to_numeric (nth strike_col row Blank) = Some (Strike r)
               /\ normalized_from columns row r)
       /\ (forall row k,
             first_row_of_strike strike_col body k = Some row ->
             to_numeric (nth strike_col row Blank) = Some k ->
             exists r, In r df /\ Strike r = k /\ normalized_from columns row r)
       /\ (forall r row i combined s idx,
             normalized_from columns row r ->
             locate columns "VWAP" = Column i ->
             to_numeric (nth i row Blank) = None ->
             first_day_of combined s (tag sheet_name idx r) ->
             Call_VWAP r = 0
             /\ dict_get (strike_pricing_mode combined) s Standard = LTP).
Proof.
  intros H. apply process_sheet_data_Some in H as (rows & h & src & Hr & Hh & Hsrc & ->).
  exists rows, h, (src_Strike src).
  destruct (resolve_columns_sources _ _ Hsrc) as [Hstrike Hnorm].
  repeat split; try assumption.
  - intros r Hin. apply in_map_iff in Hin as [[k row] [<- Hin]].
    apply kept_rows in Hin as [Hfirst Hk]. exists row.
    repeat split; [assumption | assumption | apply Hnorm].
  - intros row k Hfirst Hk. exists (to_record src (k, row)).
    repeat split; [|apply Hnorm].
    apply in_map_iff. exists (k, row). split; [reflexivity|].
    apply kept_rows. auto.
  - specialize (H "VWAP" Call_VWAP). rewrite H0, H1 in H. apply H. simpl. tauto.
  - assert (E : Call_VWAP r = 0).
    { specialize (H "VWAP" Call_VWAP). rewrite H0, H1 in H. apply H. simpl. tauto. }
    rewrite dict_get_strike_pricing_mode, (mode_of_first_day _ _ _ H2).
    cbn [tag sheet_row]. now rewrite E.
Qed.

(** ** Skipped sheets and the entry operation *)

(** C6, as the code has it.  A sheet whose header row is not found in its
    first ten rows, or that lacks the column Strike or Chg in OI Value, is
    skipped; a sheet that has both is read even when VWAP, LTP (Chg %) or a
    put-side column is missing, the values of a missing column being 0.  A
    skipped sheet adds nothing and the other sheets are processed; the
    operation still returns a workbook when some day sheet is read. *)
Theorem C6_skipped_sheets
  (xl : ExcelFile) (sheet_name : string) (rows : Sheet) :
  read_excel xl sheet_name = Some rows ->
  let columns := fun h => map strip (header_labels (nth h rows [])) in
  (find_header 0 (firstn 10 rows) = None -> process_sheet_data xl sheet_name = None)
  /\ (forall h, find_header 0 (firstn 10 rows) = Some h ->
        (~ In "Strike" (columns h) \/ ~ In "Chg in OI Value" (columns h) ->
         process_sheet_data xl sheet_name = None)
        /\ (forall i j,
              locate (columns h) "Strike" = Column i ->
              locate (columns h) "Chg in OI Value" = Column j ->
              (forall label, In label optional_labels ->
                             locate (columns h) label <> Repeated) ->
              exists df,
                process_sheet_data xl sheet_name = Some df
                /\ forall r label field,
                     In r df -> In (label, field) cell_columns ->
                     ~ In label (columns h) -> field r = 0))
  /\ (process_sheet_data xl sheet_name = None ->
      forall before after idx,
        collect_all_data xl idx (before ++ sheet_name :: after)
        = collect_all_data xl idx before
          ++ collect_all_data xl (idx + List.length before + 1) after)
  /\ (forall input other df,
        pd_ExcelFile input = Some xl ->
        In other (get_day_sheets (sheet_names xl)) ->
        process_sheet_data xl other = Some df ->
        process_excel_file input <> None).
Proof.
  intros Hread columns.
  assert (Hparse : process_sheet_data xl sheet_name
                   = (header_row <- find_header 0 (firstn 10 rows) ;;
                      src <- resolve_columns (columns header_row) ;;
                      Some (map (to_record src)
                              (drop_duplicates []
                                 (dropna (src_Strike src) (skipn (S header_row) rows)))))%exn)
    by (unfold process_sheet_data; now rewrite Hread).
  repeat split.
  - intros Hnone. now rewrite Hparse, Hnone.
  - intros Hmiss. rewrite Hparse, H. cbn [bind].
    now rewrite (resolve_columns_required _ Hmiss).
  - intros i j Hs Hc Hopt. rewrite Hparse, H. cbn [bind].
    destruct (resolve_columns_optional _ _ _ Hs Hc Hopt) as [src Hsrc].
    rewrite Hsrc. cbn [bind]. eexists. split; [reflexivity|].
    intros r label field Hr Hl Habs.
    apply in_map_iff in Hr as [[k row] [<- _]].
    pose proof (proj2 (resolve_columns_sources _ _ Hsrc) k row label field Hl) as N.
    now rewrite (locate_absent _ _ Habs) in N.
  - intros Hnone before after idx.
    rewrite collect_all_data_app. cbn [collect_all_data].
    now rewrite Hnone, Nat.add_1_r.
  - intros input other df Hopen Hin Hdf. unfold process_excel_file. rewrite Hopen.
    destruct (collect_all_data xl 0 (get_day_sheets (sheet_names xl))) eqn:E;
      [|discriminate].
    pose proof (proj1 (collect_all_data_nil _ _ _) E other Hin) as N.
    congruence.
Qed.

(** C7.  The entry operation returns no result when the workbook cannot be
    opened, when no sheet is a day sheet, and when no day sheet can be
    read; whenever it returns a result, that is the whole workbook
    written from the Total and Max tables of all the days. *)
Theorem C7_entry_result (input : list Byte.byte) :
  (pd_ExcelFile input = None -> process_excel_file input = None)
  /\ (forall xl, pd_ExcelFile input = Some xl ->
        get_day_sheets (sheet_names xl) = [] ->
        process_excel_file input = None)
  /\ (forall xl, pd_ExcelFile input = Some xl ->
        (forall sheet, In sheet (get_day_sheets (sheet_names xl)) ->
                       process_sheet_data xl sheet = None) ->
        process_excel_file input = None)
  /\ (forall output, process_excel_file input = Some output ->
        exists xl, pd_ExcelFile input = Some xl /\
          let day_sheets := get_day_sheets (sheet_names xl) in
          let combined := List.concat (collect_all_data xl 0 day_sheets) in
          (exists sheet df, In sheet day_sheets /\ process_sheet_data xl sheet = Some df) /\
          output = write_workbook input (final_total_df combined day_sheets)
                                  (final_max_df combined day_sheets)).
Proof.
  unfold process_excel_file. repeat split.
  - intros ->. reflexivity.
  - intros xl -> ->. reflexivity.
  - intros xl -> Hall.
    now rewrite (proj2 (collect_all_data_nil xl _ 0) Hall).
  - intros output. destruct (pd_ExcelFile input) as [xl|]; [|discriminate].
    destruct (collect_all_data xl 0 (get_day_sheets (sheet_names xl))) as [|d ds] eqn:E;
      [discriminate|].
    intros [= <-]. exists xl. split; [reflexivity|]. rewrite E.
    split; [|reflexivity].
    destruct (get_day_sheets (sheet_names xl)) as [|s rest] eqn:D; [discriminate|].
    assert (N : ~ (forall sheet, In sheet (s :: rest) -> process_sheet_data xl sheet = None)).
    { intros Hall. pose proof (proj2 (collect_all_data_nil xl _ 0) Hall). congruence. }
    clear E. revert N. generalize (s :: rest). intros l.
    induction l as [|a l IH]; intros N.
    + exfalso. apply N. intros ? [].
    + destruct (process_sheet_data xl a) as [df|] eqn:Pa.
      * exists a, df. split; [now left | assumption].
      * destruct IH as [sheet [df [Hin Hdf]]].
        -- intros Hall. apply N. intros sheet [<-|Hin]; auto.
        -- exists sheet, df. split; [now right | assumption].
Qed.

(** * Further properties of the code *)

(** ** [get_day_sheets]: the pattern alone decides *)

Lemma day_pattern_never_total_max (sheet : string) :
  day_pattern_match sheet = true ->
  str_in (lower sheet) ["total"; "max"] = false.
Proof.
  unfold day_pattern_match. rewrite (existsb_literals _ _ day_pattern_lower).
  intros H. unfold str_in. cbn [existsb].
  destruct (String.eqb_spec (lower sheet) "total") as [E|_].
  - rewrite E in H. discriminate H.
  - destruct (String.eqb_spec (lower sheet) "max") as [E|_]; [|reflexivity].
    rewrite E in H. discriminate H.
Qed.

(** No name that matches the day pattern lower-cases to "total" or "max":
    the second test of the loop never rejects a sheet, and the sheets
    selected are those the pattern matches. *)
Theorem get_day_sheets_pattern_only (names : list string) :
  get_day_sheets names = filter day_pattern_match names
  /\ forall sheet, day_pattern_match sheet = true ->
                   str_in (lower sheet) ["total"; "max"] = false.
Proof using.
  split; [|exact day_pattern_never_total_max].
  unfold get_day_sheets. rewrite get_day_sheets_loop. cbn [app].
  apply filter_ext. intros sheet. rewrite <- selection_test_spec.
  destruct (day_pattern_match sheet) eqn:E; [|reflexivity].
  now rewrite (day_pattern_never_total_max _ E).
Qed.

(** ** [process_sheet_data]: the header row *)

Lemma find_header_from (rows : Sheet) (i h : nat) :
  find_header i rows = Some h <->
  (i <= h)%nat
  /\ (exists row, nth_error rows (h - i) = Some row /\ existsb is_marker row = true)
  /\ forall j row, (j < h - i)%nat -> nth_error rows j = Some row ->
                   existsb is_marker row = false.
Proof.
  revert i; induction rows as [|r rows IH]; intros i; cbn [find_header].
  - split; [discriminate|]. intros (_ & (row & H & _) & _).
    destruct (h - i)%nat; discriminate.
  - destruct (existsb is_marker r) eqn:M.
    + split.
      * intros [= <-]. rewrite Nat.sub_diag. split; [lia | split].
        -- exists r. split; [reflexivity | assumption].
        -- intros j row Hj. lia.
      * intros (Hle & _ & Hno). f_equal.
        destruct (h - i)%nat as [|d] eqn:D; [lia|].
        specialize (Hno 0%nat r (Nat.lt_0_succ d) eq_refl). congruence.
    + rewrite IH. split.
      * intros (Hle & (row & Hrow & Hm) & Hno).
        replace (h - i)%nat with (S (h - S i)) by lia.
        split; [lia | split].
        -- exists row. split; assumption.
        -- intros [|j] row' Hj Hr; [now injection Hr as <-|].
           apply (Hno j); [lia | assumption].
      * intros (Hle & (row & Hrow & Hm) & Hno).
        destruct (h - i)%nat as [|d] eqn:D.
        -- injection Hrow as <-. congruence.
        -- replace (h - S i)%nat with d by lia.
           split; [lia | split].
           ++ exists row. split; assumption.
           ++ intros j row' Hj Hr. apply (Hno (S j)); [lia | assumption].
Qed.

(** The header row is the first of the first ten rows of the sheet that
    holds a cell whose lower-cased text is "strike" or "chg in oi value";
    a marker in a later row is never found. *)
Theorem header_row_is_first_marker (rows : Sheet) (h : nat) :
  find_header 0 (firstn 10 rows) = Some h <->
  (h < 10)%nat
  /\ (exists row, nth_error rows h = Some row /\ existsb is_marker row = true)
  /\ forall j row, (j < h)%nat -> nth_error rows j = Some row ->
                   existsb is_marker row = false.
Proof using.
  rewrite find_header_from, Nat.sub_0_r.
  assert (N : forall j, (j < 10)%nat -> nth_error (firstn 10 rows) j = nth_error rows j)
    by (intros j Hj; rewrite nth_error_firstn;
        now apply Nat.ltb_lt in Hj as ->).
  split.
  - intros (_ & (row & Hrow & Hm) & Hno).
    assert (Hh : (h < 10)%nat).
    { assert (L : nth_error (firstn 10 rows) h <> None) by congruence.
      apply nth_error_Some in L. rewrite length_firstn in L. lia. }
    rewrite N in Hrow by assumption.
    split; [assumption | split].
    + exists row. split; assumption.
    + intros j row' Hj Hr. apply (Hno j); [assumption|]. rewrite N by lia. assumption.
  - intros (Hh & (row & Hrow & Hm) & Hno).
    split; [lia | split].
    + exists row. rewrite N by assumption. split; assumption.
    + intros j row' Hj Hr. rewrite N in Hr by lia. eauto.
Qed.

(** ** [process_sheet_data]: repeated labels and distinct strikes *)

Lemma resolve_columns_repeated (columns : list string) (label : string) :
  In label looked_up_labels ->
  locate columns label = Repeated ->
  resolve_columns columns = None.
Proof.
  intros Hin Hrep. unfold resolve_columns, getitem, get_or_zero, if_in_cols.
  cbn in Hin.
  repeat (destruct Hin as [<-|Hin]; [rewrite Hrep|]); try destruct Hin;
    repeat match goal with
           | |- context [match locate columns ?l with _ => _ end] =>
               destruct (locate columns l); cbn [bind option_map]; try reflexivity
           | |- context [if str_in ?a ?b then _ else _] =>
               destruct (str_in a b); cbn [bind option_map]; try reflexivity
           end.
Qed.

(** A sheet in which one of the looked-up labels occurs twice once the
    labels are trimmed (as with "VWAP" and "VWAP " side by side) is
    skipped. *)
Theorem repeated_label_skips_sheet
  (xl : ExcelFile) (sheet_name : string) (rows : Sheet) (h : nat) (label : string) :
  read_excel xl sheet_name = Some rows ->
  find_header 0 (firstn 10 rows) = Some h ->
  In label looked_up_labels ->
  locate (map strip (header_labels (nth h rows []))) label = Repeated ->
  process_sheet_data xl sheet_name = None.
Proof.
  intros Hread Hh Hin Hrep. unfold process_sheet_data.
  rewrite Hread. cbn [bind]. rewrite Hh. cbn [bind].
  now rewrite (resolve_columns_repeated _ _ Hin Hrep).
Qed.

Lemma map_fst_drop_duplicates {A : Type} (l : list (Q * A)) (seen : list Q) :
  map fst (drop_duplicates seen l) = unique seen (map fst l).
Proof.
  revert seen; induction l as [|[k a] l IH]; intros seen; [reflexivity|].
  cbn [drop_duplicates map unique fst].
  destruct (existsb (Qeq_bool k) seen); [apply IH|].
  cbn [map fst]. now rewrite IH.
Qed.

Lemma unique_not_seen (l seen : list Q) (k : Q) :
  In k (unique seen l) -> existsb (Qeq_bool k) seen = false.
Proof.
  revert seen; induction l as [|x l IH]; intros seen; cbn [unique]; [intros []|].
  destruct (existsb (Qeq_bool x) seen) eqn:E; [apply IH|].
  intros [<-|H]; [assumption|].
  apply IH in H. cbn [existsb] in H. now apply orb_false_iff in H.
Qed.

Lemma unique_NoDupA (l seen : list Q) : NoDupA Qeq (unique seen l).
Proof.
  revert seen; induction l as [|x l IH]; intros seen; cbn [unique]; [constructor|].
  destruct (existsb (Qeq_bool x) seen); [apply IH|].
  constructor; [|apply IH].
  intros H. apply InA_alt in H as [y [Hxy Hy]].
  apply unique_not_seen in Hy. cbn [existsb] in Hy.
  apply orb_false_iff in Hy as [Hy _]. apply Qeq_bool_neq in Hy.
  apply Hy. now symmetry.
Qed.

Lemma unique_length (l seen : list Q) : (List.length (unique seen l) <= List.length l)%nat.
Proof.
  revert seen; induction l as [|x l IH]; intros seen; cbn [unique List.length]; [lia|].
  destruct (existsb (Qeq_bool x) seen); cbn [List.length].
  - specialize (IH seen). lia.
  - specialize (IH (x :: seen)). lia.
Qed.

Lemma dropna_length (strike_col : nat) (body : Sheet) :
  (List.length (dropna strike_col body) <= List.length body)%nat.
Proof.
  induction body as [|row body IH]; cbn [dropna List.length]; [lia|].
  destruct (to_numeric (nth strike_col row Blank)); cbn [List.length]; lia.
Qed.

Lemma parsed_strikes_unique
  (xl : ExcelFile) (sheet_name : string) (df : list SheetRow) :
  process_sheet_data xl sheet_name = Some df ->
  exists rows h strike_col,
    read_excel xl sheet_name = Some rows
    /\ find_header 0 (firstn 10 rows) = Some h
    /\ locate (map strip (header_labels (nth h rows []))) "Strike" = Column strike_col
    /\ map Strike df = unique [] (readable_strikes strike_col (skipn (S h) rows)).
Proof.
  intros H. apply process_sheet_data_Some in H as (rows & h & src & Hr & Hh & Hsrc & ->).
  exists rows, h, (src_Strike src).
  repeat split; try assumption.
  - apply (resolve_columns_sources _ _ Hsrc).
  - rewrite map_map. unfold readable_strikes. rewrite <- map_fst_drop_duplicates.
    apply map_ext. now intros [k row].
Qed.

(** The records of a sheet that is read carry pairwise different strikes:
    they are, in row order, the first occurrences of the strikes read in
    the body, so there are never more records than body rows. *)
Theorem parsed_strikes_distinct
  (xl : ExcelFile) (sheet_name : string) (df : list SheetRow) :
  process_sheet_data xl sheet_name = Some df ->
  NoDupA Qeq (map Strike df)
  /\ exists rows h strike_col,
       read_excel xl sheet_name = Some rows
       /\ find_header 0 (firstn 10 rows) = Some h
       /\ locate (map strip (header_labels (nth h rows []))) "Strike" = Column strike_col
       /\ map Strike df = unique [] (readable_strikes strike_col (skipn (S h) rows))
       /\ (List.length df <= List.length (skipn (S h) rows))%nat.
Proof.
  intros H.
  destruct (parsed_strikes_unique xl sheet_name df H) as (rows & h & c & Hr & Hh & Hc & E).
  split; [rewrite E; apply unique_NoDupA|].
  exists rows, h, c. repeat split; try assumption.
  rewrite <- (length_map Strike), E.
  etransitivity; [apply unique_length|].
  unfold readable_strikes. rewrite length_map. apply dropna_length.
Qed.

(** ** [combined]: where its rows come from *)

Lemma collect_all_data_cons (xl : ExcelFile) (idx : nat) (sheet : string)
  (rest : list string) :
  List.concat (collect_all_data xl idx (sheet :: rest))
  = frame_of xl sheet idx ++ List.concat (collect_all_data xl (S idx) rest).
Proof.
  cbn [collect_all_data]. unfold frame_of.
  destruct (process_sheet_data xl sheet); reflexivity.
Qed.

Lemma collect_all_data_In (xl : ExcelFile) (days : list string) (idx : nat)
  (r : DailyRecord) :
  In r (List.concat (collect_all_data xl idx days)) <->
  exists k sheet, nth_error days k = Some sheet /\ In r (frame_of xl sheet (idx + k)).
Proof.
  revert idx; induction days as [|s rest IH]; intros idx.
  - split; [intros [] | intros (k & sheet & H & _); destruct k; discriminate].
  - rewrite collect_all_data_cons, in_app_iff, IH. split.
    + intros [H|(k & sheet & Hk & H)].
      * exists 0%nat, s. rewrite Nat.add_0_r. auto.
      * exists (S k), sheet. rewrite Nat.add_succ_r. auto.
    + intros ([|k] & sheet & Hk & H).
      * injection Hk as ->. rewrite Nat.add_0_r in H. now left.
      * right. exists k, sheet. rewrite Nat.add_succ_r in H. auto.
Qed.

Lemma frame_of_In (xl : ExcelFile) (sheet : string) (k : nat) (r : DailyRecord) :
  In r (frame_of xl sheet k) <->
  exists df, process_sheet_data xl sheet = Some df
             /\ In (sheet_row r) df /\ Sheet_Name r = sheet /\ Sheet_Index r = k.
Proof.
  unfold frame_of. destruct (process_sheet_data xl sheet) as [df|].
  - rewrite in_map_iff. split.
    + intros [row [<- Hrow]]. exists df. cbn. auto.
    + intros (df' & [= <-] & Hrow & Hn & Hi). exists (sheet_row r).
      split; [|assumption]. destruct r; cbn in *. now subst.
  - split; [intros [] | intros (df & H & _); discriminate].
Qed.

(** [combined] holds exactly the records of the day sheets that were read,
    each with the name of its sheet and the position of that sheet among
    the day sheets: a skipped sheet leaves its number unused. *)
Theorem combined_rows (xl : ExcelFile) (day_sheets : list string) (r : DailyRecord) :
  In r (List.concat (collect_all_data xl 0 day_sheets)) <->
  nth_error day_sheets (Sheet_Index r) = Some (Sheet_Name r)
  /\ exists df, process_sheet_data xl (Sheet_Name r) = Some df /\ In (sheet_row r) df.
Proof.
  rewrite collect_all_data_In. split.
  - intros (k & sheet & Hk & H). cbn [Nat.add] in H.
    apply frame_of_In in H as (df & Hdf & Hrow & <- & <-). eauto.
  - intros (Hk & df & Hdf & Hrow).
    exists (Sheet_Index r), (Sheet_Name r). split; [assumption|].
    apply frame_of_In. exists df. auto.
Qed.

Lemma filter_name_frame (xl : ExcelFile) (s sheet : string) (k : nat) :
  filter (fun r : DailyRecord => String.eqb (Sheet_Name r) sheet) (frame_of xl s k)
  = if String.eqb s sheet then frame_of xl s k else [].
Proof.
  unfold frame_of. destruct (process_sheet_data xl s) as [df|];
    [|now destruct (String.eqb s sheet)].
  induction df as [|row df IH]; cbn [map filter tag Sheet_Name];
    [now destruct (String.eqb s sheet)|].
  cbn [map filter tag Sheet_Name] in IH.
  destruct (String.eqb s sheet); [now rewrite IH | exact IH].
Qed.

Lemma filter_name_absent (xl : ExcelFile) (days : list string) (idx : nat) (sheet : string) :
  ~ In sheet days ->
  filter (fun r : DailyRecord => String.eqb (Sheet_Name r) sheet)
         (List.concat (collect_all_data xl idx days)) = [].
Proof.
  revert idx; induction days as [|s rest IH]; intros idx Hn; [reflexivity|].
  rewrite collect_all_data_cons, filter_app, filter_name_frame, IH
    by (intros H; apply Hn; now right).
  destruct (String.eqb_spec s sheet) as [->|_]; [|reflexivity].
  exfalso. apply Hn. now left.
Qed.

Lemma filter_name_day (xl : ExcelFile) (days : list string) (idx k : nat) (sheet : string) :
  NoDup days ->
  nth_error days k = Some sheet ->
  filter (fun r : DailyRecord => String.eqb (Sheet_Name r) sheet)
         (List.concat (collect_all_data xl idx days))
  = frame_of xl sheet (idx + k).
Proof.
  revert idx k; induction days as [|s rest IH]; intros idx k Hnd Hk;
    [destruct k; discriminate|].
  inversion Hnd as [|? ? Hs Hrest]; subst.
  rewrite collect_all_data_cons, filter_app, filter_name_frame.
  destruct k as [|k].
  - injection Hk as ->. rewrite String.eqb_refl, Nat.add_0_r.
    now rewrite (filter_name_absent _ _ _ _ Hs), app_nil_r.
  - cbn [nth_error] in Hk.
    destruct (String.eqb_spec s sheet) as [->|_].
    + exfalso. apply Hs. eapply nth_error_In; eauto.
    + cbn [app]. rewrite (IH (S idx) k Hrest Hk). now rewrite Nat.add_succ_r.
Qed.

Lemma day_data_daily (combined : list DailyRecord) (sheet : string) :
  map (fun r : PricedRecord => daily r) (day_data (apply_pricing combined) sheet)
  = filter (fun r : DailyRecord => String.eqb (Sheet_Name r) sheet) combined.
Proof.
  unfold day_data, apply_pricing.
  generalize (strike_pricing_mode combined). intros modes.
  induction combined as [|r combined IH]; [reflexivity|].
  cbn [map filter daily]. destruct (String.eqb (Sheet_Name r) sheet); cbn [map daily];
    now rewrite IH.
Qed.

(** In a workbook, where sheet names are distinct, the rows the day loop
    selects by [Sheet_Name] are the records of that very sheet (none when
    it was skipped), so on each day a strike has at most one row. *)
Theorem day_data_is_the_sheet
  (xl : ExcelFile) (day_sheets : list string) (k : nat) (sheet : string) :
  NoDup day_sheets ->
  nth_error day_sheets k = Some sheet ->
  let combined := List.concat (collect_all_data xl 0 day_sheets) in
  let day := day_data (apply_pricing combined) sheet in
  map (fun r : PricedRecord => daily r) day = frame_of xl sheet k
  /\ (process_sheet_data xl sheet = None -> day = [])
  /\ NoDupA Qeq (map (fun r : PricedRecord => Strike r) day).
Proof.
  intros Hnd Hk combined day.
  assert (E : map (fun r : PricedRecord => daily r) day = frame_of xl sheet k).
  { unfold day, combined. rewrite day_data_daily.
    now rewrite (filter_name_day xl day_sheets 0 k sheet Hnd Hk). }
  split; [exact E | split].
  - intros N. unfold frame_of in E. rewrite N in E.
    now destruct day.
  - replace (map (fun r : PricedRecord => Strike r) day)
      with (map (fun r : DailyRecord => Strike r)
                (map (fun r : PricedRecord => daily r) day))
      by (rewrite map_map; reflexivity).
    rewrite E. unfold frame_of.
    destruct (process_sheet_data xl sheet) as [df|] eqn:P; [|constructor].
    rewrite map_map. cbn [tag sheet_row].
    replace (map (fun x : SheetRow => Strike x) df) with (map Strike df) by reflexivity.
    destruct (parsed_strikes_unique xl sheet df P) as (? & ? & ? & _ & _ & _ & ->).
    apply unique_NoDupA.
Qed.

(** ** The strike universe *)

Lemma strictly_ascending (l : list Q) :
  StronglySorted Qle l -> NoDupA Qeq l -> StronglySorted Qlt l.
Proof.
  induction 1 as [|a l S IH Hall]; intros N; [constructor|].
  inversion N as [|? ? Ha Hl]; subst. constructor; [now apply IH|].
  rewrite Forall_forall in *. intros b Hb.
  destruct (Qle_lt_or_eq _ _ (Hall b Hb)) as [L|E]; [assumption|].
  exfalso. apply Ha. apply InA_alt. now exists b.
Qed.

(** The index of the Total table, [base_df.index], lists the strikes of
    all the days strictly ascending, each strike once, and nothing else. *)
Theorem strike_universe (combined : list DailyRecord) :
  StronglySorted Qlt (base_index combined)
  /\ forall k, InA Qeq k (base_index combined) <->
               exists r : DailyRecord, In r combined /\ Strike r == k.
Proof.
  split.
  - apply strictly_ascending; [apply base_index_ascending|].
    unfold base_index. eapply NoDupA_Qeq_perm; [symmetry; apply sort_by_perm|].
    apply unique_NoDupA.
  - intros k. split.
    + intros H. apply InA_alt in H as [y [Hky Hy]].
      unfold base_index in Hy. apply sort_by_In, unique_sound, in_map_iff in Hy
        as [r [<- Hr]].
      exists r. split; [assumption | now symmetry].
    + intros [r [Hr Hs]]. destruct (base_index_complete combined r Hr) as [y [Hy Hys]].
      apply InA_alt. exists y. split; [|assumption]. now rewrite Hys.
Qed.

(** ** The day loop: one snapshot per day sheet *)

Lemma run_days_labels (combined : list PricedRecord) (days : list string)
  (st : list Cumulative) :
  map fst (run_days combined days st) = days.
Proof.
  revert st; induction days as [|d days IH]; intros st; cbn [run_days map fst];
    [reflexivity | now rewrite IH].
Qed.

Lemma run_days_nth_Some (combined : list PricedRecord) (days : list string)
  (st : list Cumulative) (k : nat) (sheet : string) :
  nth_error days k = Some sheet ->
  nth_error (run_days combined days st) k
  = Some (sheet, map (fun c => snapshot (after_days combined (firstn (S k) days) c)) st).
Proof.
  revert st k; induction days as [|d days IH]; intros st k H;
    [destruct k; discriminate|].
  destruct k as [|k]; cbn [run_days nth_error] in *.
  - injection H as ->. now rewrite map_map.
  - rewrite (IH _ _ H), map_map. reflexivity.
Qed.

Lemma daily_calculated_dfs_labels (combined : list DailyRecord) (day_sheets : list string) :
  map fst (daily_calculated_dfs combined day_sheets) = day_sheets.
Proof. apply run_days_labels. Qed.

Lemma daily_calculated_dfs_length (combined : list DailyRecord) (day_sheets : list string) :
  List.length (daily_calculated_dfs combined day_sheets) = List.length day_sheets.
Proof.
  rewrite <- (daily_calculated_dfs_labels combined day_sheets) at 2.
  now rewrite length_map.
Qed.

(** The day loop makes a snapshot for every day sheet, in order, also for
    a sheet that was skipped, and each snapshot lists the strikes of the
    index in its order. *)
Theorem snapshot_per_day_sheet (combined : list DailyRecord) (day_sheets : list string) :
  map fst (daily_calculated_dfs combined day_sheets) = day_sheets
  /\ List.length (daily_calculated_dfs combined day_sheets) = List.length day_sheets
  /\ forall k sheet snap,
       nth_error (daily_calculated_dfs combined day_sheets) k = Some (sheet, snap) ->
       nth_error day_sheets k = Some sheet
       /\ map snap_Strike snap = base_index combined.
Proof.
  assert (L : map fst (daily_calculated_dfs combined day_sheets) = day_sheets)
    by apply run_days_labels.
  split; [exact L | split].
  - rewrite <- L at 2. now rewrite length_map.
  - intros k sheet snap H. split; [|eapply snapshot_strikes; eauto].
    unfold daily_calculated_dfs in H. now apply run_days_nth in H.
Qed.

Lemma running_average_comp (s s' : Q) (n : nat) :
  s == s' -> running_average s n == running_average s' n.
Proof.
  intros E. destruct n; cbn [running_average]; [reflexivity|]. now rewrite E.
Qed.

Lemma accumulate_nothing (day : list PricedRecord) (c : Cumulative) :
  reindex day (index c) = None ->
  same_values (snapshot c) (snapshot (accumulate day c)).
Proof.
  intros N. unfold same_values, accumulate, snapshot. rewrite N.
  cbn -[running_average Qplus Qminus]. rewrite !Nat.add_0_r.
  assert (E1 : cum_ce_ref_sum c == cum_ce_ref_sum c + 0) by ring.
  assert (E2 : cum_pe_ref_sum c == cum_pe_ref_sum c + 0) by ring.
  pose proof (running_average_comp _ _ (cum_ce_ref_count c) E1) as A1.
  pose proof (running_average_comp _ _ (cum_pe_ref_count c) E2) as A2.
  repeat split; try assumption; try ring.
  - now rewrite A1.
  - now rewrite A2.
Qed.

Lemma Forall2_map_same {A B : Type} (R : B -> B -> Prop) (f g : A -> B) (l : list A) :
  (forall x, In x l -> R (f x) (g x)) -> Forall2 R (map f l) (map g l).
Proof.
  induction l as [|x l IH]; intros H; cbn [map]; constructor.
  - apply H. now left.
  - apply IH. intros y Hy. apply H. now right.
Qed.

(** A day sheet without rows (a skipped sheet, or one with no readable
    strike) still gets its snapshot: on the first day every money and
    running average is 0 and each break-even price is the strike; on a
    later day every value is that of the day before. *)
Theorem day_without_rows
  (combined : list DailyRecord) (day_sheets : list string)
  (k : nat) (sheet : string) (snap : list Snapshot) :
  nth_error (daily_calculated_dfs combined day_sheets) k = Some (sheet, snap) ->
  day_data (apply_pricing combined) sheet = [] ->
  (k = 0%nat ->
     forall row, In row snap ->
       CE_Money row == 0 /\ PE_Money row == 0
       /\ Avg_CE_Ref row = 0 /\ Avg_PE_Ref row = 0
       /\ CE_BEP row == snap_Strike row /\ PE_BEP row == snap_Strike row)
  /\ (forall k', k = S k' ->
        exists sheet' snap',
          nth_error (daily_calculated_dfs combined day_sheets) k' = Some (sheet', snap')
          /\ Forall2 same_values snap' snap).
Proof.
  unfold daily_calculated_dfs. intros H Hday.
  apply run_days_nth in H as [Hk ->]. split.
  - intros -> row Hrow. apply in_map_iff in Hrow as [c [<- Hc]].
    apply in_map_iff in Hc as [s [<- _]].
    destruct day_sheets as [|d rest]; [discriminate|]. injection Hk as ->.
    cbn [firstn after_days fold_left]. rewrite Hday.
    unfold accumulate, snapshot, reindex. cbn. repeat split; ring.
  - intros k' ->.
    assert (Hk' : exists sheet', nth_error day_sheets k' = Some sheet').
    { destruct (nth_error day_sheets k') as [s|] eqn:E; [eauto|].
      apply nth_error_None in E.
      assert (nth_error day_sheets (S k') <> None) as L by congruence.
      apply nth_error_Some in L. lia. }
    destruct Hk' as [sheet' Hk'].
    exists sheet'. eexists. split; [now apply run_days_nth_Some|].
    apply Forall2_map_same. intros c _.
    rewrite (after_days_last _ _ _ _ c Hk), Hday.
    apply accumulate_nothing. reflexivity.
Qed.

(** The running average of the loop in closed form: the sum of the
    reference prices of the days on which the strike has a record, divided
    by the number of those days whose reference price is strictly
    positive, and 0 when there is no such day. *)
Theorem running_average_closed_form
  (combined : list DailyRecord) (day_sheets : list string)
  (k : nat) (sheet : string) (snap : list Snapshot) (row : Snapshot) (side : Side) :
  nth_error (daily_calculated_dfs combined day_sheets) k = Some (sheet, snap) ->
  In row snap ->
  let refs := map (day_ref (apply_pricing combined) side (snap_Strike row))
                  (firstn (S k) day_sheets) in
  let n := List.length (positive_refs refs) in
  (n <= S k)%nat
  /\ (n = 0%nat -> Avg_Ref_of side row = 0)
  /\ (n <> 0%nat ->
      Avg_Ref_of side row == total (map fillna0 refs) / inject_Z (Z.of_nat n)).
Proof.
  intros H Hin.
  apply In_nth_error in Hin as [i Hrow].
  destruct (daily_calculated_dfs_row _ _ _ _ _ _ _ H Hrow) as [_ [s [_ E]]].
  assert (Es : snap_Strike row = s) by (rewrite E; apply snapshot_strike_after).
  cbv zeta. rewrite Es. rewrite E, snapshot_avg.
  destruct (after_days_ref (apply_pricing combined) side
              (firstn (S k) day_sheets) (initial s)) as [S1 S2].
  change (index (initial s)) with s in *.
  replace (cum_ref_sum side (initial s)) with 0 in S1 by now destruct side.
  replace (cum_ref_count side (initial s)) with 0%nat in S2 by now destruct side.
  cbn [Nat.add] in S2. rewrite S2.
  set (refs := map (day_ref (apply_pricing combined) side s) (firstn (S k) day_sheets))
    in *.
  assert (Hn : (List.length (positive_refs refs) <= S k)%nat).
  { transitivity (List.length refs).
    - clear. induction refs as [|[p|] refs IH]; cbn [positive_refs List.length];
        [lia | destruct (positive p); cbn [List.length]; lia | lia].
    - unfold refs. rewrite length_map, length_firstn. lia. }
  split; [exact Hn | split].
  - intros ->. reflexivity.
  - intros Hnz. destruct (List.length (positive_refs refs)) as [|m] eqn:N; [congruence|].
    cbn [running_average]. apply Qdiv_comp; [|reflexivity].
    rewrite S1. unfold refs. rewrite map_map. ring.
Qed.

(** ** [get_top5_df]: what is selected *)

(** The rows [sort_values(metric, ascending=False).head(5)] keeps are the
    largest by that metric, however rows of equal metric are ordered: no row left out has more money than a row kept;
    five rows are kept, or all of them when there are fewer. *)
Theorem top5_are_the_largest (df_source : list Snapshot) (metric : Snapshot -> Q) :
  let ranked := sort_values metric df_source in
  Permutation (top5 metric df_source ++ skipn 5 ranked) df_source
  /\ List.length (top5 metric df_source) = Nat.min 5 (List.length df_source)
  /\ forall a b, In a (top5 metric df_source) -> In b (skipn 5 ranked) ->
                 metric b <= metric a.
Proof using sort_values_rows sort_values_descending.
  intros ranked. unfold top5. fold ranked. split; [|split].
  - rewrite firstn_skipn. apply sort_values_rows.
  - rewrite length_firstn. unfold ranked. now rewrite sort_values_length.
  - intros a b Ha Hb.
    apply (StronglySorted_app_order (fun a b => metric b <= metric a)
             (firstn 5 ranked) (skipn 5 ranked)); [|assumption|assumption].
    rewrite firstn_skipn. apply sort_values_descending.
Qed.

(** With at most five strikes every strike is shown on both sides, the
    rows after them are blank, and each totals row is the sum over all the
    strikes. *)
Theorem top5_of_small_universe
  (df_source : list Snapshot) (ce_metric pe_metric : Snapshot -> Q) :
  (List.length df_source <= 5)%nat ->
  let n := List.length df_source in
  let block := get_top5_df df_source ce_metric pe_metric in
  (exists shown ce_money_sum,
      Permutation shown df_source
      /\ res_df block = map (res_row ce_metric) shown
                        ++ repeat nan_row (5 - n)
                        ++ [[None; Some ce_money_sum; None; None]]
      /\ ce_money_sum == total (map ce_metric df_source))
  /\ (exists shown pe_money_sum,
        Permutation shown df_source
        /\ sup_df block = map (sup_row pe_metric) shown
                          ++ repeat nan_row (5 - n)
                          ++ [[None; Some pe_money_sum; None; None]]
        /\ pe_money_sum == total (map pe_metric df_source)).
Proof using sort_values_rows.
  intros Hn n block.
  assert (Hall : forall metric, top5 metric df_source = sort_values metric df_source).
  { intros metric. unfold top5. apply firstn_all2. now rewrite sort_values_length. }
  assert (Hperm : forall metric,
             Permutation (sort_by (descending snap_Strike) (top5 metric df_source))
                         df_source).
  { intros metric. rewrite sort_by_perm, Hall. apply sort_values_rows. }
  assert (Hlen : forall metric,
             List.length (sort_by (descending snap_Strike) (top5 metric df_source)) = n).
  { intros metric. apply Permutation_length, Hperm. }
  split.
  - exists (sort_by (descending snap_Strike) (top5 ce_metric df_source)).
    eexists. split; [apply Hperm | split].
    + unfold block, get_top5_df, ensure_5_rows. cbn [res_df].
      rewrite length_map, Hlen, <- app_assoc. reflexivity.
    + rewrite sum_total. apply total_perm, Permutation_map, Hperm.
  - exists (sort_by (descending snap_Strike) (top5 pe_metric df_source)).
    eexists. split; [apply Hperm | split].
    + unfold block, get_top5_df, ensure_5_rows. cbn [sup_df].
      rewrite length_map, Hlen, <- app_assoc. reflexivity.
    + rewrite sum_total. apply total_perm, Permutation_map, Hperm.
Qed.

(** ** The two tables: blocks and spacers *)

Lemma with_gaps_step {A : Type} (b b' : string * A) (l : list (string * A)) :
  with_gaps (b :: b' :: l) = Block (fst b) (snd b) :: Gap :: with_gaps (b' :: l).
Proof. reflexivity. Qed.

Lemma with_gaps_layout {A : Type} (blocks : list (string * A)) :
  List.length (with_gaps blocks) = (2 * List.length blocks - 1)%nat
  /\ forall k b, nth_error blocks k = Some b ->
       nth_error (with_gaps blocks) (2 * k) = Some (Block (fst b) (snd b))
       /\ ((S k < List.length blocks)%nat ->
           nth_error (with_gaps blocks) (2 * k + 1) = Some Gap).
Proof.
  induction blocks as [|b [|b' l] IH].
  - split; [reflexivity | intros [|k] b H; discriminate].
  - split; [reflexivity|]. intros [|k] c H; [|destruct k; discriminate].
    injection H as <-. split; [reflexivity | cbn; lia].
  - rewrite with_gaps_step. destruct IH as [IHlen IHnth]. split.
    + cbn [List.length] in *. lia.
    + intros [|k] c H.
      * injection H as <-. split; [reflexivity | reflexivity].
      * cbn [nth_error] in H. destruct (IHnth k c H) as [I1 I2].
        replace (2 * S k)%nat with (S (S (2 * k))) by lia.
        replace (S (S (2 * k)) + 1)%nat with (S (S (2 * k + 1))) by lia.
        cbn [nth_error]. split; [assumption|].
        intros L. apply I2. cbn [List.length] in *. lia.
Qed.

(** Both tables hold one block per day sheet, in day order, labelled with
    the sheet and holding that day's cumulative values (Total) or ranked
    summary (Max); a spacer stands between consecutive blocks and none
    after the last. *)
Theorem report_layout
  (combined : list DailyRecord) (day_sheets : list string)
  (k : nat) (sheet : string) (snap : list Snapshot) :
  nth_error (daily_calculated_dfs combined day_sheets) k = Some (sheet, snap) ->
  let total := snd (final_total_df combined day_sheets) in
  let max := final_max_df combined day_sheets in
  let n := List.length day_sheets in
  List.length total = (2 * n - 1)%nat
  /\ List.length max = (2 * n - 1)%nat
  /\ nth_error total (2 * k) = Some (Block sheet (display_subset snap))
  /\ nth_error max (2 * k) = Some (Block sheet (get_top5_df snap CE_Money PE_Money))
  /\ ((S k < n)%nat ->
      nth_error total (2 * k + 1) = Some Gap /\ nth_error max (2 * k + 1) = Some Gap)
  /\ (S k = n -> nth_error total (2 * k + 1) = None /\ nth_error max (2 * k + 1) = None).
Proof.
  intros H total max n.
  assert (Ln : List.length (daily_calculated_dfs combined day_sheets) = n)
    by apply daily_calculated_dfs_length.
  set (tb := map (fun d => (fst d, display_subset (snd d)))
                 (daily_calculated_dfs combined day_sheets)).
  set (mb := map (fun d => (fst d, get_top5_df (snd d) CE_Money PE_Money))
                 (daily_calculated_dfs combined day_sheets)).
  assert (Ht : nth_error tb k = Some (sheet, display_subset snap))
    by (unfold tb; now rewrite nth_error_map, H).
  assert (Hm : nth_error mb k = Some (sheet, get_top5_df snap CE_Money PE_Money))
    by (unfold mb; now rewrite nth_error_map, H).
  assert (Lt : List.length tb = n) by (unfold tb; now rewrite length_map).
  assert (Lm : List.length mb = n) by (unfold mb; now rewrite length_map).
  destruct (with_gaps_layout tb) as [T1 T2]. destruct (with_gaps_layout mb) as [M1 M2].
  destruct (T2 k _ Ht) as [T3 T4]. destruct (M2 k _ Hm) as [M3 M4].
  rewrite Lt in *. rewrite Lm in *.
  change total with (with_gaps tb). change max with (with_gaps mb).
  repeat split; try assumption.
  - now apply T4.
  - now apply M4.
  - apply nth_error_None. rewrite T1. lia.
  - apply nth_error_None. rewrite M1. lia.
Qed.

(** ** Borders of the sheets Max and Total *)

Lemma in_range (x a b : nat) :
  existsb (Nat.eqb x) (range a b) = ((a <=? x) && (x <? b))%nat.
Proof.
  unfold range. remember (b - a)%nat as n eqn:E. revert a b E.
  induction n as [|n IH]; intros a b E; cbn [seq existsb].
  - destruct (Nat.leb_spec a x), (Nat.ltb_spec x b); cbn; try reflexivity; lia.
  - rewrite (IH (S a) b) by lia.
    destruct (Nat.eqb_spec x a), (Nat.leb_spec a x), (Nat.leb_spec (S a) x),
      (Nat.ltb_spec x b); cbn; try reflexivity; lia.
Qed.

Lemma set_rows (rows : list nat) (col : nat) (b : Border) (ws : Worksheet) (r c : nat) :
  fold_left (fun ws r => set_border ws r col b) rows ws r c
  = if existsb (Nat.eqb r) rows && (c =? col)%nat then b else ws r c.
Proof.
  revert ws; induction rows as [|x rows IH]; intros ws; cbn [fold_left existsb];
    [reflexivity|].
  rewrite IH. unfold set_border.
  destruct (existsb (Nat.eqb r) rows), (Nat.eqb r x), (Nat.eqb c col); reflexivity.
Qed.

Lemma set_cols (cols : list nat) (row : nat) (b : Border) (ws : Worksheet) (r c : nat) :
  fold_left (fun ws c => set_border ws row c b) cols ws r c
  = if (r =? row)%nat && existsb (Nat.eqb c) cols then b else ws r c.
Proof.
  revert ws; induction cols as [|x cols IH]; intros ws; cbn [fold_left existsb].
  - now rewrite andb_false_r.
  - rewrite IH. unfold set_border.
    destruct (existsb (Nat.eqb c) cols), (Nat.eqb r row), (Nat.eqb c x); reflexivity.
Qed.

Lemma apply_box_grid_spec (rows cols : list nat) (b : Border) (ws : Worksheet) (r c : nat) :
  apply_box_grid ws rows cols b r c
  = if existsb (Nat.eqb r) rows && existsb (Nat.eqb c) cols then b else ws r c.
Proof.
  unfold apply_box_grid. revert ws; induction rows as [|x rows IH]; intros ws;
    cbn [fold_left existsb]; [reflexivity|].
  rewrite IH, set_cols.
  destruct (existsb (Nat.eqb r) rows), (Nat.eqb r x), (existsb (Nat.eqb c) cols);
    reflexivity.
Qed.

Lemma clear_column_spec (ws : Worksheet) (col r c : nat) :
  clear_column ws col r c
  = if ((1 <=? r) && (r <=? 8) && (c =? col))%nat then no_border else ws r c.
Proof.
  unfold clear_column, max_start_row, max_end_row. rewrite set_rows, in_range.
  unfold set_border.
  destruct (Nat.eqb_spec c col), (Nat.eqb_spec r 1), (Nat.eqb_spec r 2),
    (Nat.leb_spec 3 r), (Nat.ltb_spec r (8 + 1)), (Nat.leb_spec 1 r),
    (Nat.leb_spec r 8); cbn; try reflexivity; lia.
Qed.

Lemma clear_columns_spec (ws : Worksheet) (cur width r c : nat) :
  fold_left (fun ws c_offset => clear_column ws (cur + c_offset)) (range 0 width) ws r c
  = if ((1 <=? r) && (r <=? 8) && (cur <=? c) && (c <? cur + width))%nat
    then no_border else ws r c.
Proof.
  unfold range. rewrite Nat.sub_0_r.
  revert ws; induction width as [|w IH]; intros ws.
  - cbn [seq fold_left].
    destruct (Nat.leb_spec cur c), (Nat.ltb_spec c (cur + 0)); cbn;
      rewrite ?andb_false_r; try reflexivity; lia.
  - rewrite seq_S, fold_left_app. cbn [fold_left Nat.add].
    rewrite clear_column_spec, IH.
    destruct (Nat.leb_spec 1 r), (Nat.leb_spec r 8), (Nat.leb_spec cur c),
      (Nat.ltb_spec c (cur + w)), (Nat.ltb_spec c (cur + S w)),
      (Nat.eqb_spec c (cur + w)); cbn; try reflexivity; lia.
Qed.

(** One item of [max_dfs] in closed form. *)
Lemma style_max_item_spec {A : Type} (ws : Worksheet) (cur : nat) (item : Piece A)
  (r c : nat) :
  style_max_item ws cur item r c
  = if is_gap item then
      if ((1 <=? r) && (r <=? 8) && (cur <=? c) && (c <? cur + max_columns item))%nat
      then no_border else ws r c
    else if ((1 <=? r) && (r <=? 8) && (c =? cur + 4))%nat then no_border
    else if ((2 <=? r) && (r <=? 8)
             && (((cur <=? c) && (c <? cur + 4)) || ((cur + 5 <=? c) && (c <? cur + 9))))%nat
    then thin_border else ws r c.
Proof.
  unfold style_max_item. destruct (is_gap item); [apply clear_columns_spec|].
  rewrite clear_column_spec, !apply_box_grid_spec, !in_range.
  unfold max_start_row, max_end_row. cbn [existsb].
  destruct (Nat.leb_spec 1 r), (Nat.leb_spec r 8), (Nat.leb_spec 2 r),
    (Nat.eqb_spec r 2), (Nat.leb_spec 3 r), (Nat.ltb_spec r (8 + 1)),
    (Nat.eqb_spec c (cur + 4)), (Nat.leb_spec cur c), (Nat.ltb_spec c (cur + 4)),
    (Nat.leb_spec (cur + 5) c), (Nat.ltb_spec c (cur + 9)); cbn; try reflexivity; lia.
Qed.

Lemma style_max_item_outside {A : Type} (ws : Worksheet) (cur : nat) (item : Piece A)
  (r c : nat) :
  (r = 0 \/ 8 < r \/ c < cur \/ cur + max_columns item <= c)%nat ->
  style_max_item ws cur item r c = ws r c.
Proof.
  intros H. rewrite style_max_item_spec.
  destruct item as [label content|]; cbn [max_columns] in *.
  - destruct (is_gap (Block label content)); cell_cases.
  - cbn [is_gap]. cell_cases.
Qed.

Lemma style_max_from_outside {A : Type} (max_dfs : list (Piece A)) (cur : nat)
  (ws : Worksheet) (r c : nat) :
  (r = 0 \/ 8 < r \/ c < cur
   \/ cur + list_sum (map max_columns max_dfs) <= c)%nat ->
  style_max_from max_dfs cur ws r c = ws r c.
Proof.
  revert cur ws; induction max_dfs as [|item rest IH]; intros cur ws H;
    cbn [style_max_from]; [reflexivity|].
  change (list_sum (map max_columns (item :: rest)))
    with (max_columns item + list_sum (map max_columns rest))%nat in H.
  rewrite IH by lia. apply style_max_item_outside. lia.
Qed.

Lemma is_gap_block {A : Type} (label : string) (content : A) :
  strip label <> "" -> is_gap (Block label content) = false.
Proof. intros H. now apply String.eqb_neq. Qed.

Lemma max_borders_from {A : Type} (blocks : list (string * A)) :
  Forall (fun b => strip (fst b) <> "") blocks ->
  forall cur ws k b, nth_error blocks k = Some b ->
    let styled := style_max_from (with_gaps blocks) cur ws in
    let base := (cur + 11 * k)%nat in
    (forall r c, (2 <= r <= 8)%nat ->
                 (base <= c < base + 4 \/ base + 5 <= c < base + 9)%nat ->
                 styled r c = thin_border)
    /\ (forall r, (1 <= r <= 8)%nat -> styled r (base + 4)%nat = no_border)
    /\ ((S k < List.length blocks)%nat ->
        forall r c, (1 <= r <= 8)%nat -> (base + 9 <= c < base + 11)%nat ->
                    styled r c = no_border)
    /\ (forall c, (base <= c < base + 4 \/ base + 5 <= c < base + 9)%nat ->
                  styled 1%nat c = ws 1%nat c).
Proof.
  induction blocks as [|b0 [|b1 l] IH]; intros Hnb cur ws k b Hk.
  - destruct k; discriminate.
  - destruct k as [|k]; [|destruct k; discriminate].
    inversion Hnb as [|? ? Hb0 _]; subst. cbv zeta.
    rewrite Nat.mul_0_r, Nat.add_0_r.
    change (with_gaps [b0]) with [Block (fst b0) (snd b0)].
    cbn [style_max_from List.length].
    repeat split; intros; try lia;
      rewrite style_max_item_spec, (is_gap_block _ _ Hb0); cell_cases.
  - inversion Hnb as [|? ? Hb0 Hrest]; subst.
    rewrite with_gaps_step. cbn [style_max_from max_columns].
    destruct k as [|k].
    + cbv zeta. rewrite Nat.mul_0_r, Nat.add_0_r.
      repeat split; intros;
        rewrite style_max_from_outside by lia;
        rewrite !style_max_item_spec, (is_gap_block _ _ Hb0);
        cbn [is_gap max_columns]; cell_cases.
    + cbn [nth_error] in Hk.
      specialize (IH Hrest (cur + 9 + 2)%nat
                    (style_max_item (style_max_item ws cur (Block (fst b0) (snd b0)))
                                    (cur + 9) (@Gap A))
                    k b Hk).
      cbv zeta in IH |- *.
      replace (cur + 11 * S k)%nat with (cur + 9 + 2 + 11 * k)%nat by lia.
      destruct IH as (I1 & I2 & I3 & I4).
      repeat split.
      * exact I1.
      * exact I2.
      * intros L. apply I3. cbn [List.length] in *. lia.
      * intros c Hc. rewrite I4 by assumption.
        rewrite !style_max_item_outside; [reflexivity | | ];
          cbn [max_columns]; lia.
Qed.

(** The borders of the sheet Max.  The block of the [k]-th day starts at
    column [2 + 11 k]: its call table (four columns) and its put table
    (four columns after one spacer) have thin borders on the rows 2 to 8;
    the spacer between them, and the two spacer columns before the next
    day, have no border on the rows 1 to 8; the row of day labels above
    the tables keeps its borders. *)
Theorem max_sheet_borders
  (combined : list DailyRecord) (day_sheets : list string) (ws_max : Worksheet)
  (k : nat) (sheet : string) :
  Forall (fun s => strip s <> "") day_sheets ->
  nth_error day_sheets k = Some sheet ->
  let styled := style_max (final_max_df combined day_sheets) ws_max in
  let base := (2 + 11 * k)%nat in
  (forall r c, (2 <= r <= 8)%nat ->
               (base <= c < base + 4 \/ base + 5 <= c < base + 9)%nat ->
               styled r c = thin_border)
  /\ (forall r, (1 <= r <= 8)%nat -> styled r (base + 4)%nat = no_border)
  /\ ((S k < List.length day_sheets)%nat ->
      forall r c, (1 <= r <= 8)%nat -> (base + 9 <= c < base + 11)%nat ->
                  styled r c = no_border)
  /\ (forall c, (base <= c < base + 4 \/ base + 5 <= c < base + 9)%nat ->
                styled 1%nat c = ws_max 1%nat c).
Proof.
  intros Hnb Hk styled base. unfold styled, style_max, final_max_df.
  set (mb := map (fun d => (fst d, get_top5_df (snd d) CE_Money PE_Money))
                 (daily_calculated_dfs combined day_sheets)).
  assert (Hlabels : map fst mb = day_sheets).
  { unfold mb. rewrite map_map. cbn [fst]. apply daily_calculated_dfs_labels. }
  assert (Hf : Forall (fun b => strip (fst b) <> "") mb).
  { rewrite <- Hlabels in Hnb. rewrite Forall_map in Hnb. exact Hnb. }
  assert (Hb : exists b, nth_error mb k = Some b).
  { destruct (nth_error mb k) as [b|] eqn:E; [eauto|].
    apply nth_error_None in E. rewrite <- (length_map fst), Hlabels in E.
    assert (nth_error day_sheets k <> None) as L by congruence.
    apply nth_error_Some in L. lia. }
  destruct Hb as [b Hb].
  replace (List.length day_sheets) with (List.length mb)
    by (rewrite <- Hlabels; now rewrite length_map).
  exact (max_borders_from mb Hf 2%nat ws_max k b Hb).
Qed.

(** The loop over [max_dfs] writes no cell of row 0, of a row after the
    eighth, of the hidden column 1, or right of the last block. *)
Theorem max_sheet_untouched
  (combined : list DailyRecord) (day_sheets : list string) (ws_max : Worksheet)
  (r c : nat) :
  (r = 0 \/ 8 < r \/ c < 2 \/ 11 * List.length day_sheets <= c)%nat ->
  style_max (final_max_df combined day_sheets) ws_max r c = ws_max r c.
Proof.
  intros H. unfold style_max, final_max_df.
  set (mb := map (fun d => (fst d, get_top5_df (snd d) CE_Money PE_Money))
                 (daily_calculated_dfs combined day_sheets)).
  assert (L : List.length mb = List.length day_sheets).
  { unfold mb. rewrite length_map. apply daily_calculated_dfs_length. }
  rewrite <- L in H. clear L. revert H. generalize mb. clear.
  intros [|b0 l] H; [reflexivity|].
  apply style_max_from_outside.
  destruct H as [H|[H|[H|H]]]; auto. right; right; right.
  assert (W : forall (b : string * MaxBlock) l,
             (2 + list_sum (map max_columns (with_gaps (b :: l)))
              <= 11 * List.length (b :: l))%nat).
  { clear. intros b l. revert b. induction l as [|b1 l IH]; intros b; [cbn; lia|].
    rewrite with_gaps_step. specialize (IH b1).
    change (2 + (9 + (2 + list_sum (map max_columns (with_gaps (b1 :: l)))))
            <= 11 * S (List.length (b1 :: l)))%nat.
    lia. }
  specialize (W b0 l). lia.
Qed.

Lemma style_total_from_spec (columns : list string) (n_rows i : nat) (ws : Worksheet)
  (r c : nat) :
  style_total_from i columns n_rows ws r c
  = if ((1 <=? r) && (r <=? n_rows + 2) && (i + 2 <=? c))%nat
       && blank_column columns (c - (i + 2))
    then no_border else ws r c.
Proof.
  revert i ws; induction columns as [|label rest IH]; intros i ws;
    cbn [style_total_from].
  - unfold blank_column. destruct (c - (i + 2))%nat; cbn [nth_error];
      now rewrite andb_false_r.
  - rewrite IH. unfold blank_column.
    destruct (Nat.leb_spec (S i + 2) c) as [L|L].
    + replace (c - (i + 2))%nat with (S (c - (S i + 2))) by lia. cbn [nth_error].
      destruct (match nth_error rest (c - (S i + 2)) with
                | Some l => String.eqb (strip l) ""
                | None => false
                end); cell_cases;
        destruct (String.eqb (strip label) ""); try reflexivity;
        rewrite set_rows, in_range; cell_cases.
    + rewrite andb_false_r. cbn [andb].
      destruct (Nat.eqb_spec c (i + 2)) as [->|N].
      * rewrite Nat.sub_diag. cbn [nth_error].
        destruct (String.eqb (strip label) "");
          [rewrite set_rows, in_range | ]; cell_cases.
      * replace (i + 2 <=? c)%nat with false by (symmetry; apply Nat.leb_gt; lia).
        rewrite andb_false_r. cbn [andb].
        destruct (String.eqb (strip label) ""); [|reflexivity].
        rewrite set_rows, in_range. cell_cases.
Qed.

Lemma total_columns_step {A : Type} (b b' : string * A) (l : list (string * A)) :
  total_columns (with_gaps (b :: b' :: l))
  = repeat (fst b) 4 ++ "" :: total_columns (with_gaps (b' :: l)).
Proof. reflexivity. Qed.

Lemma blank_column_of_blocks {A : Type} (blocks : list (string * A)) (j : nat) :
  Forall (fun b => strip (fst b) <> "") blocks ->
  blank_column (total_columns (with_gaps blocks)) j = true <->
  exists k, (S k < List.length blocks)%nat /\ j = (5 * k + 4)%nat.
Proof.
  revert j; induction blocks as [|b0 [|b1 l] IH]; intros j Hnb.
  - split; [destruct j; discriminate | intros (k & L & _); cbn in L; lia].
  - inversion Hnb as [|? ? Hb0 _]; subst. apply String.eqb_neq in Hb0.
    split; [|intros (k & L & _); cbn in L; lia].
    unfold blank_column. cbn.
    do 4 (destruct j as [|j]; [cbn; congruence|]). destruct j; discriminate.
  - inversion Hnb as [|? ? Hb0 Hrest]; subst. apply String.eqb_neq in Hb0.
    rewrite total_columns_step. specialize (IH (j - 5)%nat Hrest).
    unfold blank_column in *.
    do 4 (destruct j as [|j];
          [cbn; split; [congruence | intros (k & _ & E); lia]|]).
    destruct j as [|j].
    + cbn. split; [intros _; exists 0%nat; cbn; split; lia | reflexivity].
    + replace (S (S (S (S (S j)))) - 5)%nat with j in IH by lia.
      cbn [repeat app nth_error]. rewrite IH. split.
      * intros (k & L & ->). exists (S k). cbn [List.length] in *. split; lia.
      * intros ([|k] & L & E); [lia|]. exists k. cbn [List.length] in *. split; lia.
Qed.

(** The borders of the sheet Total.  Its columns are four per day and one
    spacer between consecutive days; the styling loop clears the border of
    each spacer column, which is column [5 k + 6] of the sheet after the
    [k]-th day, on the rows 1 to [len(final_total_df) + 2], and writes no
    other cell. *)
Theorem total_sheet_borders
  (combined : list DailyRecord) (day_sheets : list string) (ws_total : Worksheet)
  (r c : nat) :
  Forall (fun s => strip s <> "") day_sheets ->
  let n_rows := List.length (base_index combined) in
  let columns := total_columns (snd (final_total_df combined day_sheets)) in
  let spacer := exists k, (S k < List.length day_sheets)%nat /\ c = (5 * k + 6)%nat in
  ((1 <= r <= n_rows + 2)%nat -> spacer ->
   style_total columns n_rows ws_total r c = no_border)
  /\ (~ ((1 <= r <= n_rows + 2)%nat /\ spacer) ->
      style_total columns n_rows ws_total r c = ws_total r c).
Proof.
  intros Hnb n_rows columns spacer. unfold style_total.
  rewrite style_total_from_spec. cbn [Nat.add].
  set (tb := map (fun d => (fst d, display_subset (snd d)))
                 (daily_calculated_dfs combined day_sheets)).
  assert (Hlabels : map fst tb = day_sheets).
  { unfold tb. rewrite map_map. cbn [fst]. apply daily_calculated_dfs_labels. }
  assert (Hf : Forall (fun b => strip (fst b) <> "") tb).
  { rewrite <- Hlabels in Hnb. rewrite Forall_map in Hnb. exact Hnb. }
  assert (Hlen : List.length tb = List.length day_sheets)
    by (rewrite <- Hlabels; now rewrite length_map).
  pose proof (blank_column_of_blocks tb (c - 2) Hf) as B.
  change columns with (total_columns (with_gaps tb)).
  rewrite Hlen in B.
  assert (S1 : (2 <= c)%nat /\ blank_column (total_columns (with_gaps tb)) (c - 2) = true
               <-> spacer).
  { unfold spacer. rewrite B. split.
    - intros (Hc & k & L & E). exists k. split; [assumption | lia].
    - intros (k & L & ->). split; [lia|]. exists k. split; [assumption | lia]. }
  split.
  - intros Hr Hs. apply S1 in Hs as [Hc Hb]. rewrite Hb.
    destruct Hr. cell_cases.
  - intros N.
    destruct (blank_column (total_columns (with_gaps tb)) (c - 2)) eqn:Hb;
      [|now rewrite andb_false_r].
    cell_cases. exfalso. apply N. split; [lia|]. apply S1. split; [lia | reflexivity].
Qed.

(** ** Day sheets are never taken for spacers *)

Lemma lstrip_empty (s : string) : lstrip s = "" <-> all_space s = true.
Proof.
  induction s as [|c s IH]; cbn [lstrip all_space]; [tauto|].
  destruct (is_space c); cbn [andb]; [exact IH | split; discriminate].
Qed.

Lemma all_space_rev (s acc : string) :
  all_space (rev_string s acc) = all_space s && all_space acc.
Proof.
  revert acc; induction s as [|c s IH]; intros acc; cbn [rev_string all_space];
    [reflexivity|].
  rewrite IH. cbn [all_space]. now destruct (is_space c), (all_space s), (all_space acc).
Qed.

Lemma rev_string_empty (s acc : string) : rev_string s acc = "" -> s = "" /\ acc = "".
Proof.
  revert acc; induction s as [|c s IH]; intros acc; cbn [rev_string]; [auto|].
  intros H. apply IH in H as [_ H]. discriminate.
Qed.

Lemma all_space_lstrip (s : string) : all_space (lstrip s) = true -> all_space s = true.
Proof.
  induction s as [|c s IH]; [auto|].
  cbn [lstrip]. destruct (is_space c) eqn:Sc.
  - intros H. cbn [all_space]. rewrite Sc. now apply IH.
  - auto.
Qed.

Lemma strip_empty (s : string) : strip s = "" -> all_space s = true.
Proof.
  unfold strip, rstrip. intros H.
  apply rev_string_empty in H as [H _]. apply lstrip_empty in H.
  rewrite all_space_rev in H. apply andb_true_iff in H as [H _].
  now apply all_space_lstrip.
Qed.

Lemma literal_first_letter (alt sheet : string) :
  In alt day_pattern -> match_literal alt sheet = true ->
  exists c rest, sheet = String c rest /\ is_space c = false.
Proof.
  intros Hin Hm. destruct sheet as [|c rest].
  - cbn in Hin. repeat (destruct Hin as [<-|Hin]; [discriminate Hm|]). destruct Hin.
  - exists c, rest. split; [reflexivity|].
    cbn in Hin.
    repeat (destruct Hin as [<-|Hin];
            [cbn [match_literal] in Hm; apply andb_true_iff in Hm as [Hm _];
             apply Ascii.eqb_eq in Hm;
             destruct c as [[] [] [] [] [] [] [] []]; try discriminate Hm; reflexivity|]).
    destruct Hin.
Qed.

(** The name of a day sheet starts with a letter, so its label is not
    blank: the styling loops never take the block of a day for a spacer. *)
Theorem day_sheets_are_not_spacers (names : list string) :
  Forall (fun s => strip s <> "") (get_day_sheets names)
  /\ forall (A : Type) (sheet : string) (content : A),
       In sheet (get_day_sheets names) -> is_gap (Block sheet content) = false.
Proof using.
  assert (H : forall sheet, In sheet (get_day_sheets names) -> strip sheet <> "").
  { intros sheet Hin E. apply strip_empty in E.
    unfold get_day_sheets in Hin. rewrite get_day_sheets_loop in Hin.
    cbn [app] in Hin. apply filter_In in Hin as [_ Hs].
    rewrite <- selection_test_spec in Hs. apply andb_true_iff in Hs as [Hs _].
    unfold day_pattern_match in Hs. apply existsb_exists in Hs as [alt [Ha Hm]].
    destruct (literal_first_letter alt sheet Ha Hm) as (c & rest & -> & Hc).
    cbn [all_space] in E. rewrite Hc in E. discriminate. }
  split; [now apply Forall_forall|].
  intros A sheet content Hin. apply String.eqb_neq. now apply H.
Qed.

(** ** Sheets that are not day sheets *)

Lemma process_sheet_data_ext (xl xl' : ExcelFile) (sheet : string) :
  read_excel xl sheet = read_excel xl' sheet ->
  process_sheet_data xl sheet = process_sheet_data xl' sheet.
Proof. intros E. unfold process_sheet_data. now rewrite E. Qed.

Lemma collect_all_data_ext (xl xl' : ExcelFile) (days : list string) (idx : nat) :
  (forall sheet, In sheet days -> read_excel xl sheet = read_excel xl' sheet) ->
  collect_all_data xl idx days = collect_all_data xl' idx days.
Proof.
  revert idx; induction days as [|d days IH]; intros idx H; [reflexivity|].
  cbn [collect_all_data].
  rewrite (process_sheet_data_ext xl xl' d) by (apply H; now left).
  rewrite (IH (S idx)) by (intros s Hs; apply H; now right).
  reflexivity.
Qed.

(** Only the day sheets are read.  Two workbooks with the same day sheets
    in the same order, holding the same cells, give the same Total and Max
    tables, and one is rejected exactly when the other is: sheets such as
    a summary, or the Total and Max sheets of an earlier run, change
    nothing. *)
Theorem only_day_sheets_matter
  (input input' : list Byte.byte) (xl xl' : ExcelFile) :
  pd_ExcelFile input = Some xl ->
  pd_ExcelFile input' = Some xl' ->
  get_day_sheets (sheet_names xl) = get_day_sheets (sheet_names xl') ->
  (forall sheet, In sheet (get_day_sheets (sheet_names xl)) ->
                 read_excel xl sheet = read_excel xl' sheet) ->
  let day_sheets := get_day_sheets (sheet_names xl) in
  let day_sheets' := get_day_sheets (sheet_names xl') in
  let combined := List.concat (collect_all_data xl 0 day_sheets) in
  let combined' := List.concat (collect_all_data xl' 0 day_sheets') in
  combined = combined'
  /\ final_total_df combined day_sheets = final_total_df combined' day_sheets'
  /\ final_max_df combined day_sheets = final_max_df combined' day_sheets'
  /\ (process_excel_file input = None <-> process_excel_file input' = None).
Proof.
  intros Ho Ho' Hd Hr day_sheets day_sheets' combined combined'.
  assert (Ec : collect_all_data xl 0 (get_day_sheets (sheet_names xl))
               = collect_all_data xl' 0 (get_day_sheets (sheet_names xl'))).
  { rewrite <- Hd. now apply collect_all_data_ext. }
  assert (E : combined = combined')
    by (unfold combined, combined', day_sheets, day_sheets'; now rewrite Ec).
  split; [exact E|].
  split; [unfold day_sheets, day_sheets'; now rewrite <- Hd, <- E|].
  split; [unfold day_sheets, day_sheets'; now rewrite <- Hd, <- E|].
  unfold process_excel_file. rewrite Ho, Ho'. cbv zeta. rewrite <- Ec.
  destruct (collect_all_data xl 0 (get_day_sheets (sheet_names xl)));
    split; intros; congruence.
Qed.

End Engine.

(** * The properties on the sample workbooks *)

Lemma stable_sort_values_rows (metric : Snapshot -> Q) (df_source : list Snapshot) :
  Permutation (stable_sort_values metric df_source) df_source.
Proof. apply sort_by_perm. Qed.

Lemma stable_sort_values_descending (metric : Snapshot -> Q) (df_source : list Snapshot) :
  StronglySorted (fun a b => metric b <= metric a) (stable_sort_values metric df_source).
Proof. apply descending_sorted_Qle. Qed.

Lemma tie_reversing_sort_values_rows (metric : Snapshot -> Q) (df_source : list Snapshot) :
  Permutation (tie_reversing_sort_values metric df_source) df_source.
Proof.
  unfold tie_reversing_sort_values. rewrite <- Permutation_rev. apply sort_by_perm.
Qed.

Lemma tie_reversing_sort_values_descending
  (metric : Snapshot -> Q) (df_source : list Snapshot) :
  StronglySorted (fun a b => metric b <= metric a)
                 (tie_reversing_sort_values metric df_source).
Proof.
  unfold tie_reversing_sort_values.
  apply (StronglySorted_rev (fun a b => metric a <= metric b)).
  apply ascending_sorted_Qle.
Qed.

Lemma week_xl_read :
  get_day_sheets (sheet_names week_xl) = week_days
  /\ List.concat (collect_all_data sample_to_float sample_labels week_xl 0 week_days)
     = week_combined.
Proof. split; vm_compute; reflexivity. Qed.

Lemma first_day_100 :
  first_day_of week_combined 100 (sample_record "tue6" 0 100 50 0 10 8 3 4).
Proof.
  split; [now left | split; [reflexivity|]].
  intros r Hr Hs. sample_rows Hr;
    first [ now left
          | right; cbn; lia
          | exfalso; vm_compute in Hs; discriminate ].
Defined.

Lemma first_day_200 :
  first_day_of week_combined 200 (sample_record "wed6" 1 200 7 0 9 3 0 2).
Proof.
  split; [cbn; tauto | split; [reflexivity|]].
  intros r Hr Hs. sample_rows Hr;
    first [ now left
          | exfalso; vm_compute in Hs; discriminate ].
Defined.

Lemma C9_witness :
  (lower "Total" = "total" \/ lower "Total" = "max")
  /\ ~ In "Total" (get_day_sheets (sheet_names week_xl))
  /\ get_day_sheets (sheet_names week_xl) = ["tue6"; "wed6"; "THU6"].
Proof.
  assert (H : lower "Total" = "total" \/ lower "Total" = "max") by (left; reflexivity).
  split; [exact H | split].
  - exact (proj2 (proj2 (C9_day_sheet_selection (sheet_names week_xl))) "Total" H).
  - reflexivity.
Defined.

Lemma C1_witness :
  let r0 := sample_record "tue6" 0 100 50 0 10 8 3 4 in
  let wed := sample_record "wed6" 1 100 (-20) 12 11 2 5 6 in
  first_day_of week_combined 100 r0
  /\ Call_VWAP r0 <= 0
  /\ (In wed week_combined /\ Sheet_Name wed = "wed6" /\ Strike wed == 100
      /\ 0 < VWAP_of Call wed /\ 0 < VWAP_of Put wed)
  /\ map (fun r : PricedRecord => daily r) (apply_pricing week_combined) = week_combined
  /\ dict_get (strike_pricing_mode week_combined) 100 Standard = LTP
  /\ (exists r : PricedRecord,
        reindex (day_data (apply_pricing week_combined) "wed6") 100 = Some r
        /\ daily r = wed
        /\ (forall side,
              day_ref (apply_pricing week_combined) side 100 "wed6"
              = Some (Ref_Price_of side r)
              /\ Ref_Price_of side r = LTP_of side wed))
  /\ map (day_ref (apply_pricing week_combined) Call 100) week_days
     = [Some 10; Some 11; None]
  /\ map (day_ref (apply_pricing week_combined) Put 100) week_days
     = [Some 4; Some 6; None].
Proof.
  intros r0 wed.
  assert (L : Call_VWAP r0 <= 0) by (vm_compute; discriminate).
  assert (W : In wed week_combined /\ Sheet_Name wed = "wed6" /\ Strike wed == 100)
    by (split; [right; right; left; reflexivity | split; reflexivity]).
  assert (V : 0 < VWAP_of Call wed /\ 0 < VWAP_of Put wed) by (split; reflexivity).
  destruct (C1_reference_price_by_mode week_combined 100 r0 first_day_100)
    as (Hall & Hday & Hltp & _).
  destruct (Hltp L) as [Hmode Hrows].
  destruct (Hday "wed6" (ex_intro _ wed W)) as (r & Hr & Hin & Hname & Hs & Href).
  split; [exact first_day_100 | split; [exact L | split]].
  { destruct W as (W1 & W2 & W3). destruct V as [V1 V2]. repeat split; assumption. }
  split; [exact Hall | split; [exact Hmode | split]].
  - exists r. split; [exact Hr | split].
    + vm_compute in Hr. injection Hr as <-. reflexivity.
    + intros side. split; [apply Href|].
      rewrite (Hrows r side Hin Hs).
      vm_compute in Hr. injection Hr as <-. reflexivity.
  - split; reflexivity.
Defined.

Lemma strike_200_absent_on_day_0 (r : DailyRecord) :
  In r week_combined -> Strike r == 200 -> Sheet_Index r <> 0%nat.
Proof.
  intros Hr Hs. sample_rows Hr;
    first [ discriminate | exfalso; vm_compute in Hs; discriminate ].
Defined.

Lemma C5_witness :
  (forall r : DailyRecord, In r week_combined -> Strike r == 200 -> Sheet_Index r <> 0%nat)
  /\ first_day_of week_combined 200 (sample_record "wed6" 1 200 7 0 9 3 0 2)
  /\ Call_VWAP (sample_record "wed6" 1 200 7 0 9 3 0 2) <= 0
  /\ dict_get (strike_pricing_mode week_combined) 200 Standard = LTP.
Proof.
  pose proof strike_200_absent_on_day_0 as A.
  assert (L : Call_VWAP (sample_record "wed6" 1 200 7 0 9 3 0 2) <= 0)
    by (vm_compute; discriminate).
  split; [exact A | split; [exact first_day_200 | split; [exact L|]]].
  exact (proj1 (C5_mode_of_strike_absent_on_day_0 week_combined 200 _ A first_day_200) L).
Defined.

(** Strike 200 of [week_xl] has no record on the first day, and its mode
    is LTP, not Standard. *)
Lemma C5_counterexample :
  let day_sheets := get_day_sheets (sheet_names week_xl) in
  let combined :=
    List.concat (collect_all_data sample_to_float sample_labels week_xl 0 day_sheets) in
  (exists r : DailyRecord, In r combined /\ Strike r == 200)
  /\ (forall r : DailyRecord, In r combined -> Strike r == 200 -> Sheet_Index r <> 0%nat)
  /\ dict_get (strike_pricing_mode combined) 200 Standard <> Standard.
Proof.
  cbv zeta. destruct week_xl_read as [-> ->]. split; [|split].
  - exists (sample_record "wed6" 1 200 7 0 9 3 0 2). split; [cbn; tauto | reflexivity].
  - exact strike_200_absent_on_day_0.
  - vm_compute. discriminate.
Qed.

Lemma week_wed6_day :
  nth_error (daily_calculated_dfs week_combined week_days) 1 = Some ("wed6", week_wed6).
Proof. reflexivity. Defined.

Lemma ties_snapshot_day :
  nth_error (daily_calculated_dfs ties_combined ["mon"]) 0 = Some ("mon", ties_snapshot).
Proof. reflexivity. Defined.

Lemma C3_witness :
  let row := snapshot (after_days (apply_pricing week_combined) ["tue6"; "wed6"] (initial 100)) in
  nth_error (daily_calculated_dfs week_combined week_days) 1 = Some ("wed6", week_wed6)
  /\ nth_error week_wed6 0 = Some row
  /\ Money_of Call row
     == total (map (day_money (apply_pricing week_combined) Call (snap_Strike row))
                   ["tue6"; "wed6"])
  /\ Money_of Call row == 50 + -20.
Proof.
  intros row.
  assert (R : nth_error week_wed6 0 = Some row) by reflexivity.
  split; [exact week_wed6_day | split; [exact R | split]].
  - exact (proj1 (proj2 (C3_cumulative_money week_combined week_days 1 "wed6"
                           week_wed6 0 row Call week_wed6_day R))).
  - vm_compute. reflexivity.
Defined.

Lemma C4_witness :
  let block := get_top5_df stable_sort_values ties_snapshot CE_Money PE_Money in
  (forall metric df_source, Permutation (stable_sort_values metric df_source) df_source)
  /\ (forall metric df_source,
        StronglySorted (fun a b => metric b <= metric a)
                       (stable_sort_values metric df_source))
  /\ nth_error (daily_calculated_dfs ties_combined ["mon"]) 0 = Some ("mon", ties_snapshot)
  /\ List.length (res_df block) = 6%nat
  /\ (forall a b,
        In a (firstn 5 (stable_sort_values CE_Money ties_snapshot)) ->
        In b (skipn 5 (stable_sort_values CE_Money ties_snapshot)) ->
        CE_Money b <= CE_Money a)
  /\ map (map (option_map Qred)) (res_df block)
     = [[Some 600; Some 7; Some 1; Some 601];
        [Some 500; Some 9; Some 1; Some 501];
        [Some 300; Some 5; Some 1; Some 301];
        [Some 200; Some 9; Some 1; Some 201];
        [Some 100; Some 5; Some 1; Some 101];
        [None; Some 35; None; None]].
Proof.
  intros block.
  pose proof (C4_top5_extraction stable_sort_values stable_sort_values_rows
                stable_sort_values_descending ties_combined ["mon"] 0 "mon"
                ties_snapshot ties_snapshot_day) as (_ & _ & Hrank & Hlen & _).
  destruct (Hrank CE_Money) as (_ & _ & _ & Hbest & _).
  split; [exact stable_sort_values_rows|].
  split; [exact stable_sort_values_descending|].
  split; [exact ties_snapshot_day|].
  split; [exact Hlen|].
  split; [exact Hbest|].
  vm_compute. reflexivity.
Defined.

(** The claim of C4 on [forty_combined] with [tie_reversing_sort_values],
    a result [sort_values] may give.  Thirteen strikes have the largest
    call money; a ranking that kept tied strikes in strike order would
    select 20, 50, 80, 110 and 140, and the table shows 380, 350, 320, 290
    and 260. *)
Lemma C4_counterexample :
  let snap := forty_snapshot in
  let ranked := tie_reversing_sort_values CE_Money snap in
  let block := get_top5_df tie_reversing_sort_values snap CE_Money PE_Money in
  (forall metric df_source,
      Permutation (tie_reversing_sort_values metric df_source) df_source)
  /\ (forall metric df_source,
        StronglySorted (fun a b => metric b <= metric a)
                       (tie_reversing_sort_values metric df_source))
  /\ nth_error (daily_calculated_dfs forty_combined ["mon"]) 0 = Some ("mon", snap)
  /\ In (@Block MaxBlock "mon" block)
        (final_max_df tie_reversing_sort_values forty_combined ["mon"])
  /\ map (fun r => Qred (snap_Strike r))
         (firstn 5 (filter (fun r => Qeq_bool (CE_Money r) 2) snap))
     = [20; 50; 80; 110; 140]
  /\ map (fun r => Qred (snap_Strike r))
         (firstn 5 (filter (fun r => Qeq_bool (CE_Money r) 2) ranked))
     = [380; 350; 320; 290; 260]
  /\ map (fun x => option_map Qred (hd None x)) (firstn 5 (res_df block))
     = [Some 380; Some 350; Some 320; Some 290; Some 260]
  /\ ~ (forall v, filter (fun r => Qeq_bool (CE_Money r) v) ranked
                  = filter (fun r => Qeq_bool (CE_Money r) v) snap).
Proof.
  cbv zeta.
  split; [exact tie_reversing_sort_values_rows|].
  split; [exact tie_reversing_sort_values_descending|].
  split; [reflexivity|].
  split; [vm_compute; tauto|].
  split; [vm_compute; reflexivity|].
  split; [vm_compute; reflexivity|].
  split; [vm_compute; reflexivity|].
  intros H. specialize (H 2).
  apply (f_equal (fun l => map (fun r => Qred (snap_Strike r)) (firstn 1 l))) in H.
  vm_compute in H. discriminate H.
Qed.

Lemma C8_witness :
  nth_error (daily_calculated_dfs week_combined week_days) 1 = Some ("wed6", week_wed6)
  /\ (forall row, In row week_wed6 ->
        CE_BEP row = snap_Strike row + Avg_CE_Ref row
        /\ PE_BEP row = snap_Strike row - Avg_PE_Ref row)
  /\ map (fun row => Qred (CE_BEP row)) week_wed6 = [221 # 2; 209; 302].
Proof.
  split; [exact week_wed6_day | split].
  - intros row Hrow.
    exact (proj2 (proj2 (proj1 (C8_break_even_prices stable_sort_values
                                  stable_sort_values_rows week_combined week_days 1 "wed6"
                                  week_wed6 week_wed6_day) row Hrow))).
  - vm_compute. reflexivity.
Defined.

Lemma running_average_week :
  let row := snapshot (after_days (apply_pricing week_combined)
                                  ["tue6"; "wed6"] (initial 100)) in
  Avg_Ref_of Call row == spec_running_average [Some 10; Some 11].
Proof.
  intros row.
  assert (Hin : In row week_wed6) by now left.
  assert (E : map (day_ref (apply_pricing week_combined) Call (snap_Strike row))
                  (firstn 2 week_days) = [Some 10; Some 11])
    by (vm_compute; reflexivity).
  pose proof (running_average_of_nonnegative_refs week_combined week_days 1 "wed6"
                week_wed6 row Call week_wed6_day Hin) as W.
  cbv zeta in W. rewrite E in W. apply W.
  intros p [[= <-]|[[= <-]|[]]]; vm_compute; discriminate.
Qed.

(** C2 at a strike whose last traded price is negative on the first day:
    the reference prices are -5 and 10, their strictly positive part has
    mean 10, and the running average of the second day is 5. *)
Theorem C2_running_average_failing_input :
  let day_sheets := get_day_sheets (sheet_names negative_ltp_xl) in
  let combined :=
    List.concat (collect_all_data sample_to_float sample_labels negative_ltp_xl 0 day_sheets) in
  let refs := map (day_ref (apply_pricing combined) Call 100) day_sheets in
  refs = [Some (-5); Some 10]
  /\ spec_running_average refs == 10
  /\ exists snap row,
       nth_error (daily_calculated_dfs combined day_sheets) 1 = Some ("wed", snap)
       /\ snap = [row]
       /\ snap_Strike row == 100
       /\ Avg_CE_Ref row == 5
       /\ CE_BEP row == 105
       /\ ~ Avg_CE_Ref row == spec_running_average refs.
Proof.
  cbv zeta. split; [vm_compute; reflexivity | split; [vm_compute; reflexivity|]].
  eexists. eexists. split; [vm_compute; reflexivity|].
  split; [reflexivity|]. repeat split; vm_compute; congruence.
Qed.

Lemma C6_witness :
  let rows := [[Text "Chg in OI Value"; Text "VWAP"]; [Num 1; Num 2]] in
  read_excel week_xl "THU6" = Some rows
  /\ find_header 0 (firstn 10 rows) = Some 0%nat
  /\ ~ In "Strike" (map strip (sample_labels (nth 0 rows [])))
  /\ process_sheet_data sample_to_float sample_labels week_xl "THU6" = None
  /\ collect_all_data sample_to_float sample_labels week_xl 0 week_days
     = collect_all_data sample_to_float sample_labels week_xl 0 ["tue6"; "wed6"]
  /\ process_excel_file sample_to_float sample_labels stable_sort_values sample_open sample_write [Byte.x01]
     <> None.
Proof.
  intros rows.
  assert (R : read_excel week_xl "THU6" = Some rows) by reflexivity.
  assert (F : find_header 0 (firstn 10 rows) = Some 0%nat) by reflexivity.
  assert (S : ~ In "Strike" (map strip (sample_labels (nth 0 rows []))))
    by (cbn; intros [H|[H|[]]]; discriminate).
  destruct (C6_skipped_sheets sample_to_float sample_labels stable_sort_values sample_open sample_write
              week_xl "THU6" rows R) as (_ & Hcols & Hskip & Hrest).
  pose proof (proj1 (Hcols 0%nat F) (or_introl S)) as N.
  split; [exact R | split; [exact F | split; [exact S | split; [exact N | split]]]].
  - change week_days with (["tue6"; "wed6"] ++ ["THU6"]).
    rewrite (Hskip N ["tue6"; "wed6"] [] 0%nat). cbn [collect_all_data].
    now rewrite app_nil_r.
  - apply (Hrest [Byte.x01] "tue6"
             [ {| Strike := 100; Call_Chg_OI_Val := 50; Call_VWAP := 0; Call_LTP := 10;
                  Put_Chg_OI_Val := 8; Put_VWAP := 3; Put_LTP := 4 |};
               {| Strike := 300; Call_Chg_OI_Val := 5; Call_VWAP := 2; Call_LTP := 6;
                  Put_Chg_OI_Val := 1; Put_VWAP := 0; Put_LTP := 7 |} ]).
    + reflexivity.
    + vm_compute. tauto.
    + vm_compute. reflexivity.
Defined.

(** The sheet of [calls_only_xl] has neither VWAP nor LTP (Chg %) nor any
    put-side column, and it is read, the missing values being 0. *)
Lemma C6_counterexample :
  let rows := [[Text "Strike"; Text "Chg in OI Value"]; [Num 100; Num 50]] in
  let columns := map strip (sample_labels (nth 0 rows [])) in
  read_excel calls_only_xl "fri" = Some rows
  /\ find_header 0 (firstn 10 rows) = Some 0%nat
  /\ (forall label, In label optional_labels -> ~ In label columns)
  /\ process_sheet_data sample_to_float sample_labels calls_only_xl "fri"
     = Some [ {| Strike := 100; Call_Chg_OI_Val := 50; Call_VWAP := 0; Call_LTP := 0;
                 Put_Chg_OI_Val := 0; Put_VWAP := 0; Put_LTP := 0 |} ]
  /\ process_sheet_data sample_to_float sample_labels calls_only_xl "fri" <> None.
Proof.
  cbv zeta. repeat split.
  - intros label Hl Hin. cbn in Hin, Hl.
    destruct Hin as [<-|[<-|[]]];
      repeat (destruct Hl as [Hl|Hl]; [discriminate|]); destruct Hl.
  - vm_compute. discriminate.
Qed.

Lemma C7_witness :
  sample_open [] = None
  /\ process_excel_file sample_to_float sample_labels stable_sort_values sample_open sample_write [] = None
  /\ get_day_sheets (sheet_names [("Summary", [[Text "Weekly notes"]])]) = []
  /\ process_excel_file sample_to_float sample_labels stable_sort_values sample_open sample_write [Byte.x03]
     = None
  /\ (forall sheet, In sheet (get_day_sheets (sheet_names [("mon", [[Text "holiday"]])])) ->
        process_sheet_data sample_to_float sample_labels [("mon", [[Text "holiday"]])] sheet
        = None)
  /\ process_excel_file sample_to_float sample_labels stable_sort_values sample_open sample_write [Byte.x04]
     = None.
Proof.
  assert (A : sample_open [] = None) by reflexivity.
  assert (B : get_day_sheets (sheet_names [("Summary", [[Text "Weekly notes"]])]) = [])
    by reflexivity.
  assert (C : forall sheet,
             In sheet (get_day_sheets (sheet_names [("mon", [[Text "holiday"]])])) ->
             process_sheet_data sample_to_float sample_labels
               [("mon", [[Text "holiday"]])] sheet = None)
    by (intros sheet [<-|[]]; reflexivity).
  split; [exact A | split; [|split; [exact B | split; [|split; [exact C|]]]]].
  - exact (proj1 (C7_entry_result sample_to_float sample_labels stable_sort_values sample_open sample_write [])
             A).
  - exact (proj1 (proj2 (C7_entry_result sample_to_float sample_labels stable_sort_values sample_open
                           sample_write [Byte.x03])) _ eq_refl B).
  - exact (proj1 (proj2 (proj2 (C7_entry_result sample_to_float sample_labels stable_sort_values sample_open
                                  sample_write [Byte.x04]))) _ eq_refl C).
Defined.

Lemma C10_witness :
  let r200 := {| Strike := 200; Call_Chg_OI_Val := 7; Call_VWAP := 0; Call_LTP := 9;
                 Put_Chg_OI_Val := 3; Put_VWAP := 0; Put_LTP := 2 |} in
  let df := [ {| Strike := 100; Call_Chg_OI_Val := -20; Call_VWAP := 12; Call_LTP := 11;
                 Put_Chg_OI_Val := 2; Put_VWAP := 5; Put_LTP := 6 |}; r200 ] in
  process_sheet_data sample_to_float sample_labels week_xl "wed6" = Some df
  /\ to_numeric sample_to_float (Text "-") = None
  /\ (exists r, In r df /\ Strike r = 200 /\ Call_VWAP r = 0)
  /\ dict_get (strike_pricing_mode week_combined) 200 Standard = LTP.
Proof.
  intros r200 df.
  assert (H : process_sheet_data sample_to_float sample_labels week_xl "wed6" = Some df)
    by (vm_compute; reflexivity).
  assert (T : to_numeric sample_to_float (Text "-") = None) by reflexivity.
  split; [exact H | split; [exact T|]].
  destruct (C10_unreadable_cells_are_zero sample_to_float sample_labels week_xl "wed6" df H)
    as (rows & h & strike_col & Hread & Hh & Hrest).
  cbv zeta in Hrest. destruct Hrest as (Hstrike & _ & Hrow & Hmode).
  assert (Er : rows = [chain_header;
              [Num 100; Num (-20); Num 12; Num 11; Num 2; Num 5; Num 6];
              [Num 200; Num 7; Text "-"; Num 9; Num 3; Num 0; Num 2];
              [Text "Total"; Num 1; Num 1; Num 1; Num 1; Num 1; Num 1];
              [Num 100; Num 99; Num 99; Num 99; Num 99; Num 99; Num 99]])
    by (vm_compute in Hread; injection Hread as <-; reflexivity).
  subst rows.
  assert (Eh : h = 0%nat) by (vm_compute in Hh; congruence). subst h.
  assert (Es : strike_col = 0%nat) by (vm_compute in Hstrike; congruence). subst strike_col.
  destruct (Hrow [Num 200; Num 7; Text "-"; Num 9; Num 3; Num 0; Num 2] 200
              eq_refl eq_refl) as (r & Hin & Hk & Hnorm).
  assert (Ed : r = r200).
  { destruct Hin as [<-|[<-|[]]]; [discriminate Hk | reflexivity]. }
  subst r.
  destruct (Hmode r200 _ 2%nat week_combined 200 1%nat Hnorm eq_refl eq_refl first_day_200)
    as [Hz Hm].
  split; [|exact Hm].
  exists r200. split; [right; now left | split; [reflexivity | exact Hz]].
Defined.

(** ** The further properties on the sample workbooks *)

Lemma week_days_NoDup : NoDup week_days.
Proof. repeat constructor; cbn; intuition discriminate. Defined.

Lemma week_days_not_blank : Forall (fun s => strip s <> "") week_days.
Proof. repeat constructor; vm_compute; discriminate. Defined.

Lemma week_THU6_day :
  nth_error (daily_calculated_dfs week_combined week_days) 2 = Some ("THU6", week_THU6).
Proof. reflexivity. Defined.

Lemma get_day_sheets_pattern_only_witness :
  day_pattern_match "THU6" = true
  /\ str_in (lower "THU6") ["total"; "max"] = false
  /\ get_day_sheets (sheet_names week_xl) = filter day_pattern_match (sheet_names week_xl).
Proof.
  assert (M : day_pattern_match "THU6" = true) by reflexivity.
  split; [exact M | split].
  - exact (proj2 (get_day_sheets_pattern_only (sheet_names week_xl)) "THU6" M).
  - exact (proj1 (get_day_sheets_pattern_only (sheet_names week_xl))).
Defined.

Lemma header_row_is_first_marker_witness :
  let rows := [[Text "NIFTY option chain"];
               chain_header;
               [Num 100; Num 50; Num 0; Num 10; Num 8; Num 3; Num 4];
               [Num 300; Num 5; Num 2; Num 6; Num 1; Text "-"; Num 7]] in
  read_excel week_xl "tue6" = Some rows
  /\ find_header 0 (firstn 10 rows) = Some 1%nat
  /\ (1 < 10)%nat
  /\ (forall j row, (j < 1)%nat -> nth_error rows j = Some row ->
                    existsb is_marker row = false).
Proof.
  intros rows.
  assert (F : find_header 0 (firstn 10 rows) = Some 1%nat) by reflexivity.
  split; [reflexivity | split; [exact F | split]].
  - exact (proj1 (proj1 (header_row_is_first_marker rows 1) F)).
  - exact (proj2 (proj2 (proj1 (header_row_is_first_marker rows 1) F))).
Defined.

Lemma repeated_label_skips_sheet_witness :
  let rows := [[Text "Strike"; Text "Chg in OI Value"; Text "VWAP"; Text "VWAP "];
               [Num 100; Num 5; Num 1; Num 2]] in
  read_excel spaced_label_xl "mon" = Some rows
  /\ find_header 0 (firstn 10 rows) = Some 0%nat
  /\ In "VWAP" looked_up_labels
  /\ locate (map strip (sample_labels (nth 0 rows []))) "VWAP" = Repeated
  /\ process_sheet_data sample_to_float sample_labels spaced_label_xl "mon" = None.
Proof.
  intros rows.
  assert (R : read_excel spaced_label_xl "mon" = Some rows) by reflexivity.
  assert (F : find_header 0 (firstn 10 rows) = Some 0%nat) by reflexivity.
  assert (I : In "VWAP" looked_up_labels) by (cbn; tauto).
  assert (L : locate (map strip (sample_labels (nth 0 rows []))) "VWAP" = Repeated)
    by reflexivity.
  split; [exact R | split; [exact F | split; [exact I | split; [exact L|]]]].
  exact (repeated_label_skips_sheet sample_to_float sample_labels spaced_label_xl "mon"
           rows 0 "VWAP" R F I L).
Defined.

Lemma parsed_strikes_distinct_witness :
  let df := [ {| Strike := 100; Call_Chg_OI_Val := -20; Call_VWAP := 12; Call_LTP := 11;
                 Put_Chg_OI_Val := 2; Put_VWAP := 5; Put_LTP := 6 |};
              {| Strike := 200; Call_Chg_OI_Val := 7; Call_VWAP := 0; Call_LTP := 9;
                 Put_Chg_OI_Val := 3; Put_VWAP := 0; Put_LTP := 2 |} ] in
  process_sheet_data sample_to_float sample_labels week_xl "wed6" = Some df
  /\ NoDupA Qeq (map Strike df).
Proof.
  intros df.
  assert (H : process_sheet_data sample_to_float sample_labels week_xl "wed6" = Some df)
    by (vm_compute; reflexivity).
  split; [exact H|].
  exact (proj1 (parsed_strikes_distinct sample_to_float sample_labels week_xl "wed6" df H)).
Defined.

Lemma combined_rows_witness :
  let r := sample_record "wed6" 1 200 7 0 9 3 0 2 in
  In r (List.concat (collect_all_data sample_to_float sample_labels week_xl 0 week_days))
  /\ nth_error week_days (Sheet_Index r) = Some (Sheet_Name r)
  /\ exists df,
       process_sheet_data sample_to_float sample_labels week_xl (Sheet_Name r) = Some df
       /\ In (sheet_row r) df.
Proof.
  intros r.
  assert (H : In r (List.concat (collect_all_data sample_to_float sample_labels
                                   week_xl 0 week_days)))
    by (vm_compute; tauto).
  split; [exact H|].
  exact (proj1 (combined_rows sample_to_float sample_labels week_xl week_days r) H).
Defined.

Lemma day_data_is_the_sheet_witness :
  let combined :=
    List.concat (collect_all_data sample_to_float sample_labels week_xl 0 week_days) in
  NoDup week_days
  /\ nth_error week_days 2 = Some "THU6"
  /\ process_sheet_data sample_to_float sample_labels week_xl "THU6" = None
  /\ day_data (apply_pricing combined) "THU6" = [].
Proof.
  intros combined.
  assert (K : nth_error week_days 2 = Some "THU6") by reflexivity.
  assert (N : process_sheet_data sample_to_float sample_labels week_xl "THU6" = None)
    by reflexivity.
  split; [exact week_days_NoDup | split; [exact K | split; [exact N|]]].
  exact (proj1 (proj2 (day_data_is_the_sheet sample_to_float sample_labels week_xl
                         week_days 2 "THU6" week_days_NoDup K)) N).
Defined.

Lemma strike_universe_witness :
  (exists r : DailyRecord, In r week_combined /\ Strike r == 200)
  /\ InA Qeq 200 (base_index week_combined)
  /\ StronglySorted Qlt (base_index week_combined).
Proof.
  assert (E : exists r : DailyRecord, In r week_combined /\ Strike r == 200).
  { exists (sample_record "wed6" 1 200 7 0 9 3 0 2). split; [cbn; tauto | reflexivity]. }
  split; [exact E | split].
  - exact (proj2 (proj2 (strike_universe week_combined) 200) E).
  - exact (proj1 (strike_universe week_combined)).
Defined.

Lemma snapshot_per_day_sheet_witness :
  nth_error (daily_calculated_dfs week_combined week_days) 2 = Some ("THU6", week_THU6)
  /\ nth_error week_days 2 = Some "THU6"
  /\ map snap_Strike week_THU6 = base_index week_combined.
Proof.
  split; [exact week_THU6_day|].
  exact (proj2 (proj2 (snapshot_per_day_sheet week_combined week_days))
           2%nat "THU6" week_THU6 week_THU6_day).
Defined.

Lemma day_without_rows_witness :
  nth_error (daily_calculated_dfs week_combined week_days) 2 = Some ("THU6", week_THU6)
  /\ day_data (apply_pricing week_combined) "THU6" = []
  /\ exists sheet' snap',
       nth_error (daily_calculated_dfs week_combined week_days) 1 = Some (sheet', snap')
       /\ Forall2 same_values snap' week_THU6.
Proof.
  assert (D : day_data (apply_pricing week_combined) "THU6" = []) by reflexivity.
  split; [exact week_THU6_day | split; [exact D|]].
  exact (proj2 (day_without_rows week_combined week_days 2 "THU6" week_THU6
                  week_THU6_day D) 1%nat eq_refl).
Defined.

Lemma running_average_closed_form_witness :
  let row := snapshot (after_days (apply_pricing week_combined)
                                  ["tue6"; "wed6"] (initial 100)) in
  let refs := map (day_ref (apply_pricing week_combined) Call (snap_Strike row))
                  (firstn 2 week_days) in
  nth_error (daily_calculated_dfs week_combined week_days) 1 = Some ("wed6", week_wed6)
  /\ In row week_wed6
  /\ List.length (positive_refs refs) <> 0%nat
  /\ Avg_Ref_of Call row
     == total (map fillna0 refs) / inject_Z (Z.of_nat (List.length (positive_refs refs))).
Proof.
  intros row refs.
  assert (Hin : In row week_wed6) by now left.
  assert (N : List.length (positive_refs refs) <> 0%nat) by (vm_compute; discriminate).
  split; [exact week_wed6_day | split; [exact Hin | split; [exact N|]]].
  exact (proj2 (proj2 (running_average_closed_form week_combined week_days 1 "wed6"
                         week_wed6 row Call week_wed6_day Hin)) N).
Defined.

Lemma top5_are_the_largest_witness :
  let kept := snapshot (after_days (apply_pricing ties_combined) ["mon"] (initial 300)) in
  let left_out := snapshot (after_days (apply_pricing ties_combined) ["mon"] (initial 700)) in
  In kept (top5 stable_sort_values CE_Money ties_snapshot)
  /\ In left_out (skipn 5 (stable_sort_values CE_Money ties_snapshot))
  /\ CE_Money left_out <= CE_Money kept.
Proof.
  intros kept left_out.
  assert (A : In kept (top5 stable_sort_values CE_Money ties_snapshot)) by (vm_compute; tauto).
  assert (B : In left_out (skipn 5 (stable_sort_values CE_Money ties_snapshot)))
    by (vm_compute; tauto).
  split; [exact A | split; [exact B|]].
  exact (proj2 (proj2 (top5_are_the_largest stable_sort_values stable_sort_values_rows
                         stable_sort_values_descending ties_snapshot CE_Money)) kept left_out A B).
Defined.

Lemma top5_of_small_universe_witness :
  (List.length week_wed6 <= 5)%nat
  /\ exists shown ce_money_sum,
       Permutation shown week_wed6
       /\ res_df (get_top5_df stable_sort_values week_wed6 CE_Money PE_Money)
          = map (res_row CE_Money) shown
            ++ repeat nan_row (5 - List.length week_wed6)
            ++ [[None; Some ce_money_sum; None; None]]
       /\ ce_money_sum == total (map CE_Money week_wed6).
Proof.
  assert (L : (List.length week_wed6 <= 5)%nat) by (vm_compute; lia).
  split; [exact L|].
  exact (proj1 (top5_of_small_universe stable_sort_values stable_sort_values_rows week_wed6 CE_Money PE_Money L)).
Defined.

Lemma report_layout_witness :
  nth_error (daily_calculated_dfs week_combined week_days) 1 = Some ("wed6", week_wed6)
  /\ (2 < List.length week_days)%nat
  /\ nth_error (final_max_df stable_sort_values week_combined week_days) 2
     = Some (@Block MaxBlock "wed6" (get_top5_df stable_sort_values week_wed6 CE_Money PE_Money))
  /\ nth_error (final_max_df stable_sort_values week_combined week_days) 3 = Some (@Gap MaxBlock).
Proof.
  assert (L : (2 < List.length week_days)%nat) by (cbn; lia).
  pose proof (report_layout stable_sort_values week_combined week_days 1%nat "wed6" week_wed6 week_wed6_day)
    as (_ & _ & _ & M & G & _).
  split; [exact week_wed6_day | split; [exact L | split; [exact M|]]].
  exact (proj2 (G L)).
Defined.

Lemma max_sheet_borders_witness :
  Forall (fun s => strip s <> "") week_days
  /\ nth_error week_days 1 = Some "wed6"
  /\ style_max (final_max_df stable_sort_values week_combined week_days) (fun _ _ => no_border) 8%nat 13%nat
     = thin_border
  /\ style_max (final_max_df stable_sort_values week_combined week_days) written_sheet 1%nat 17%nat = no_border
  /\ style_max (final_max_df stable_sort_values week_combined week_days) written_sheet 3%nat 23%nat = no_border.
Proof.
  assert (K : nth_error week_days 1 = Some "wed6") by reflexivity.
  split; [exact week_days_not_blank | split; [exact K | split; [|split]]].
  - refine (proj1 (max_sheet_borders stable_sort_values week_combined week_days (fun _ _ => no_border)
                     1%nat "wed6" week_days_not_blank K) 8%nat 13%nat _ _); cbn; lia.
  - refine (proj1 (proj2 (max_sheet_borders stable_sort_values week_combined week_days written_sheet
                            1%nat "wed6" week_days_not_blank K)) 1%nat _); lia.
  - refine (proj1 (proj2 (proj2 (max_sheet_borders stable_sort_values week_combined week_days written_sheet
                                   1%nat "wed6" week_days_not_blank K))) _ 3%nat 23%nat _ _);
      cbn; lia.
Defined.

Lemma max_sheet_untouched_witness :
  (11 * List.length week_days <= 40)%nat
  /\ style_max (final_max_df stable_sort_values week_combined week_days) (fun _ _ => no_border) 3%nat 40%nat
     = no_border.
Proof.
  assert (L : (11 * List.length week_days <= 40)%nat) by (cbn; lia).
  split; [exact L|].
  exact (max_sheet_untouched stable_sort_values week_combined week_days (fun _ _ => no_border) 3%nat 40%nat
           (or_intror (or_intror (or_intror L)))).
Defined.

Lemma total_sheet_borders_witness :
  let n_rows := List.length (base_index week_combined) in
  Forall (fun s => strip s <> "") week_days
  /\ (1 <= 5 <= n_rows + 2)%nat
  /\ (exists k, (S k < List.length week_days)%nat /\ 11%nat = (5 * k + 6)%nat)
  /\ style_total (total_columns (snd (final_total_df week_combined week_days)))
                 n_rows written_sheet 5%nat 11%nat
     = no_border.
Proof.
  intros n_rows.
  assert (R : (1 <= 5 <= n_rows + 2)%nat) by (vm_compute; lia).
  assert (S1 : exists k, (S k < List.length week_days)%nat /\ 11%nat = (5 * k + 6)%nat)
    by (exists 1%nat; cbn; lia).
  split; [exact week_days_not_blank | split; [exact R | split; [exact S1|]]].
  exact (proj1 (total_sheet_borders week_combined week_days written_sheet 5%nat 11%nat
                  week_days_not_blank) R S1).
Defined.

Lemma day_sheets_are_not_spacers_witness :
  In "THU6" (get_day_sheets (sheet_names week_xl))
  /\ is_gap (@Block nat "THU6" 0%nat) = false
  /\ Forall (fun s => strip s <> "") (get_day_sheets (sheet_names week_xl)).
Proof.
  assert (H : In "THU6" (get_day_sheets (sheet_names week_xl)))
    by (right; right; left; reflexivity).
  split; [exact H | split].
  - exact (proj2 (day_sheets_are_not_spacers (sheet_names week_xl)) nat "THU6" 0%nat H).
  - exact (proj1 (day_sheets_are_not_spacers (sheet_names week_xl))).
Defined.

Lemma only_day_sheets_matter_witness :
  let day_sheets := get_day_sheets (sheet_names week_xl) in
  let day_sheets' := get_day_sheets (sheet_names week_days_xl) in
  let combined :=
    List.concat (collect_all_data sample_to_float sample_labels week_xl 0 day_sheets) in
  let combined' :=
    List.concat (collect_all_data sample_to_float sample_labels week_days_xl 0
                   day_sheets') in
  two_weeks_open [Byte.x01] = Some week_xl
  /\ two_weeks_open [Byte.x05] = Some week_days_xl
  /\ sheet_names week_xl <> sheet_names week_days_xl
  /\ day_sheets = day_sheets'
  /\ (forall sheet, In sheet day_sheets ->
                    read_excel week_xl sheet = read_excel week_days_xl sheet)
  /\ final_total_df combined day_sheets = final_total_df combined' day_sheets'
  /\ final_max_df stable_sort_values combined day_sheets
     = final_max_df stable_sort_values combined' day_sheets'.
Proof.
  intros day_sheets day_sheets' combined combined'.
  assert (O : two_weeks_open [Byte.x01] = Some week_xl) by reflexivity.
  assert (O' : two_weeks_open [Byte.x05] = Some week_days_xl) by reflexivity.
  assert (D : day_sheets = day_sheets') by reflexivity.
  assert (R : forall sheet, In sheet day_sheets ->
                read_excel week_xl sheet = read_excel week_days_xl sheet)
    by (intros sheet [<-|[<-|[<-|[]]]]; reflexivity).
  pose proof (only_day_sheets_matter sample_to_float sample_labels stable_sort_values
                two_weeks_open
                sample_write [Byte.x01] [Byte.x05] week_xl week_days_xl O O' D R)
    as (_ & T & M & _).
  split; [exact O | split; [exact O' | split; [discriminate|]]].
  split; [exact D | split; [exact R | split; [exact T | exact M]]].
Defined.
